(** * oktad: the login, MFA and federation flow of [main.go]

    A shallow embedding of [main.go].  Everything the program does to the
    outside world (terminal prompts, calls to the identity provider, the
    keychain, the credential files, STS, the launched program) is an
    external call.  A run is modelled by giving the replies of the outside
    world in advance and collecting, in order, the external calls the
    program makes. *)

From Stdlib Require Import String Ascii ZArith List Bool Lia.
Import ListNotations.

Local Open Scope string_scope.
Local Open Scope Z_scope.

(** ** Go values *)

(** The two sentinel errors of package [strconv]. *)
Inductive strconv_Err : Type := ErrSyntax | ErrRange.

(** Non-nil error values.  [errors_New] is an [errors.New] in [main.go];
    [awsProfileNotFound] and [wrongMfaError] are package-level error
    variables that [main.go] compares against or returns; [NumError] is
    [*strconv.NumError]; [foreign] is any error made by a callee outside
    [main.go] (liner, the okta and aws helpers, keytar). *)
Inductive GoError : Type :=
| errors_New (msg : string)
| awsProfileNotFound
| wrongMfaError
| NumError (Func Num : string) (Err : strconv_Err)
| foreign (msg : string).

(** A Go [error]: [None] is [nil]. *)
Definition error : Type := option GoError.

(** Run-time panics the code of [main.go] can raise. *)
Inductive GoPanic : Type :=
| IndexOutOfRange (index length : Z)
| NilDereference.

Definition len {A : Type} (l : list A) : Z := Z.of_nat (length l).

(** ** [strconv.Atoi], for a 64-bit [int]

    Package [strconv] belongs to the Go distribution.  [ParseUint],
    [ParseInt] and [Atoi] follow its implementation for base 10. *)
Module strconv.

Definition maxUint64 : Z := 2 ^ 64 - 1.

Definition digit (c : ascii) : option Z :=
  let n := Z.of_nat (nat_of_ascii c) in
  if (48 <=? n) && (n <=? 57) then Some (n - 48) else None.

(** The digit loop of [ParseUint(s, 10, 64)], with accumulator [n]. *)
Fixpoint ParseUint_from (n : Z) (s : string) : Z * option strconv_Err :=
  match s with
  | EmptyString => (n, None)
  | String c s' =>
      match digit c with
      | None => (0, Some ErrSyntax)
      | Some d =>
          if n >=? maxUint64 / 10 + 1 then (maxUint64, Some ErrRange)
          else
            let n10 := n * 10 in
            let n1 := (n10 + d) mod 2 ^ 64 in
            if (n1 <? n10) || (n1 >? maxUint64) then (maxUint64, Some ErrRange)
            else ParseUint_from n1 s'
      end
  end.

Definition ParseUint (s : string) : Z * option strconv_Err :=
  match s with
  | EmptyString => (0, Some ErrSyntax)
  | _ => ParseUint_from 0 s
  end.

(** [ParseInt(s, 10, 0)]. *)
Definition ParseInt (s : string) : Z * option strconv_Err :=
  match s with
  | EmptyString => (0, Some ErrSyntax)
  | String c s' =>
      let neg := Ascii.eqb c "-"%char in
      let body := if Ascii.eqb c "+"%char || neg then s' else s in
      let '(un, err) := ParseUint body in
      match err with
      | Some ErrSyntax => (0, Some ErrSyntax)
      | _ =>
          let cutoff := 2 ^ 63 in
          if negb neg && (un >=? cutoff) then (cutoff - 1, Some ErrRange)
          else if neg && (un >? cutoff) then (- cutoff, Some ErrRange)
          else (if neg then - un else un, None)
      end
  end.

Definition Atoi (s : string) : Z * error :=
  let '(i64, err) := ParseInt s in
  (i64, option_map (NumError "Atoi" s) err).

Fixpoint all_digits (s : string) : bool :=
  match s with
  | EmptyString => true
  | String c s' =>
      match digit c with
      | Some _ => all_digits s'
      | None => false
      end
  end.

(** A decimal integer as a user writes one: an optional sign, then one
    digit or more. *)
Definition numeric (s : string) : bool :=
  match s with
  | EmptyString => false
  | String c s' =>
      let body := if Ascii.eqb c "+"%char || Ascii.eqb c "-"%char then s' else s in
      match body with
      | EmptyString => false
      | _ => all_digits body
      end
  end.

(** What [ParseInt] hands to [ParseUint]: the text after its sign. *)
Definition unsigned_part (s : string) : string :=
  match s with
  | EmptyString => s
  | String c s' =>
      if Ascii.eqb c "+"%char || Ascii.eqb c "-"%char then s' else s
  end.

(** The number of digits a text starts with. *)
Fixpoint leading_digits (s : string) : nat :=
  match s with
  | EmptyString => O
  | String c s' =>
      match digit c with
      | Some _ => S (leading_digits s')
      | None => O
      end
  end.

End strconv.

(** ** The structs [main.go] reads

    [OktaMfaFactor], [OktaLoginResponse] and [OktaSamlResponse] are declared
    outside [main.go]; the fields below are the ones [main.go] reads. *)

Record OktaMfaFactor : Type := {
  Id : string;
  FactorType : string;
  Provider : string
}.

Record OktaEmbedded : Type := { Factors : list OktaMfaFactor }.

Record OktaLoginResponse : Type := {
  Status : string;
  Embedded : OktaEmbedded
}.

Record OktaSamlResponse : Type := { raw : string }.

(** The [opts] struct of [main]. *)
Record Options : Type := {
  ConfigFile : string;
  PrintVersion : bool;
  ForceNewCredentials : bool;
  ProfileName : string
}.

Definition VERSION : string := "0.7.0".
Definition SESSION_COOKIE : string := "__oktad_session_cookie".

(** [time.Duration] counts nanoseconds. *)
Definition Second : Z := 1000000000.

(** Arguments handed to [fmt.Println], [fmt.Printf] and [debug]. *)
Inductive Val : Type :=
| VStr (s : string)
| VInt (n : Z)
| VErr (e : error)
| VFactors (l : list OktaMfaFactor).

(** Where a federation assertion comes from: [getSaml] after a fresh
    login, or [getSamlSession] with the cookie kept in the keychain. *)
Inductive Source : Type := FreshLogin | CachedCookie.

(** What [main.go] takes from outside as it is: the types whose values it
    only passes on ([OktaConfig], [AwsConfig], [*credentials.Credentials],
    [http.Cookie], [time.Time]), the constants [BASE_PROFILE_CREDS] and
    [APPNAME], and the zero [http.Cookie]. *)
Class Externals : Type := {
  OktaConfig : Type;
  AwsConfig : Type;
  Credentials : Type;
  Cookie : Type;
  Time : Type;
  BASE_PROFILE_CREDS : string;
  APPNAME : string;
  zeroCookie : Cookie
}.

Section Oktad.

Context `{Externals}.

(** ** External calls *)

(** One constructor per call that leaves [main.go], with its arguments
    and, where the caller uses it, its reply. *)
Inductive Event : Type :=
| Println (args : list Val)
| Printf (format : string) (args : list Val)
| Debug (namespace format : string) (args : list Val)
| NewLiner
| SetCtrlCAborts (aborts : bool)
| LinerClose
| Prompt (msg : string) (reply : string * error)
| PasswordPrompt (msg : string) (reply : string * error)
| Sleep (d : Z)
| Login (cfg : OktaConfig) (user pass : string)
        (reply : option OktaLoginResponse * error)
| DoMfa (ores : OktaLoginResponse) (factor : OktaMfaFactor) (token : string)
        (reply : string * error)
| GetSaml (cfg : OktaConfig) (sessionToken : string)
          (reply : option OktaSamlResponse * error)
| GetSamlSession (cfg : OktaConfig) (cookie : Cookie)
                 (reply : option OktaSamlResponse * error)
| FlagsParse (reply : Options * list string * error)
| ParseConfig (file : string) (reply : OktaConfig * error)
| ReadAwsProfile (name : string) (reply : AwsConfig * error)
| LoadCreds (profile : string) (reply : Credentials * error)
| GetKeychain (reply : error)
| GetPassword (service key : string) (reply : string * error)
| DecodePasswordStruct (password : string) (reply : Cookie * error)
| AssumeFirstRole (acfg : AwsConfig) (saml : option OktaSamlResponse)
                  (reply : Credentials * Time * error)
| AssumeDestinationRole (acfg : AwsConfig) (creds : Credentials)
                        (reply : Credentials * Time * error)
| StoreCredsAws (profile : string) (creds : Credentials) (reply : error)
| StoreCreds (profile : string) (creds : Credentials) (exp : Time)
             (reply : error)
| PrepAndLaunch (args : list string) (creds : Credentials) (reply : error).

(** The replies of the user and of the identity provider to the calls
    that can happen more than once in a run: entry [n] answers the
    [n]-th call from now. *)
Record Tape : Type := {
  tty_Prompt : nat -> string -> string * error;
  tty_PasswordPrompt : nat -> string -> string * error;
  okta_login :
    nat -> OktaConfig -> string -> string -> option OktaLoginResponse * error;
  okta_doMfa :
    nat -> OktaLoginResponse -> OktaMfaFactor -> string -> string * error;
  okta_getSaml : nat -> OktaConfig -> string -> option OktaSamlResponse * error
}.

Definition next {A : Type} (f : nat -> A) : nat -> A := fun n => f (S n).

Definition after_Prompt (t : Tape) : Tape :=
  {| tty_Prompt := next (tty_Prompt t);
     tty_PasswordPrompt := tty_PasswordPrompt t;
     okta_login := okta_login t;
     okta_doMfa := okta_doMfa t;
     okta_getSaml := okta_getSaml t |}.

Definition after_PasswordPrompt (t : Tape) : Tape :=
  {| tty_Prompt := tty_Prompt t;
     tty_PasswordPrompt := next (tty_PasswordPrompt t);
     okta_login := okta_login t;
     okta_doMfa := okta_doMfa t;
     okta_getSaml := okta_getSaml t |}.

Definition after_login (t : Tape) : Tape :=
  {| tty_Prompt := tty_Prompt t;
     tty_PasswordPrompt := tty_PasswordPrompt t;
     okta_login := next (okta_login t);
     okta_doMfa := okta_doMfa t;
     okta_getSaml := okta_getSaml t |}.

Definition after_doMfa (t : Tape) : Tape :=
  {| tty_Prompt := tty_Prompt t;
     tty_PasswordPrompt := tty_PasswordPrompt t;
     okta_login := okta_login t;
     okta_doMfa := next (okta_doMfa t);
     okta_getSaml := okta_getSaml t |}.

Definition after_getSaml (t : Tape) : Tape :=
  {| tty_Prompt := tty_Prompt t;
     tty_PasswordPrompt := tty_PasswordPrompt t;
     okta_login := okta_login t;
     okta_doMfa := okta_doMfa t;
     okta_getSaml := next (okta_getSaml t) |}.

(** ** The monad of runs *)

Inductive Outcome (A : Type) : Type :=
| Returns (a : A)
| Panics (p : GoPanic)
| OutOfFuel.
#[global] Arguments Returns {A} a.
#[global] Arguments Panics {A} p.
#[global] Arguments OutOfFuel {A}.

Record Run (A : Type) : Type := mkRun {
  outcome : Outcome A;
  events : list Event;
  rest : Tape
}.
#[global] Arguments mkRun {A}.
#[global] Arguments outcome {A}.
#[global] Arguments events {A}.
#[global] Arguments rest {A}.

Definition M (A : Type) : Type := Tape -> Run A.

Definition ret {A : Type} (a : A) : M A := fun t => mkRun (Returns a) [] t.

(** [r], after the calls [evs]. *)
Definition prepend {A : Type} (evs : list Event) (r : Run A) : Run A :=
  mkRun (outcome r) (evs ++ events r) (rest r).

Definition bind {A B : Type} (m : M A) (k : A -> M B) : M B := fun t =>
  let r := m t in
  match outcome r with
  | Returns a => prepend (events r) (k a (rest r))
  | Panics p => mkRun (Panics p) (events r) (rest r)
  | OutOfFuel => mkRun OutOfFuel (events r) (rest r)
  end.

Definition emit (e : Event) : M unit := fun t => mkRun (Returns tt) [e] t.

Definition panic {A : Type} (p : GoPanic) : M A := fun t => mkRun (Panics p) [] t.

Definition out_of_fuel {A : Type} : M A := fun t => mkRun OutOfFuel [] t.

(** [defer e] followed by [body]: [e] happens when [body] is left, by a
    return or by a panic. *)
Definition defer {A : Type} (e : Event) (body : M A) : M A := fun t =>
  let r := body t in mkRun (outcome r) (events r ++ [e]) (rest r).

Notation "x <- m ;; k" := (bind m (fun x => k))
  (at level 61, m at next level, right associativity).
Notation "' pat <- m ;; k" := (bind m (fun x => match x with pat => k end))
  (at level 61, pat pattern, m at next level, right associativity).
Notation "m ;; k" := (bind m (fun _ => k))
  (at level 61, right associativity).

(** ** Calls into other packages and files *)

Definition fmt_Println (args : list Val) : M unit := emit (Println args).

Definition fmt_Printf (format : string) (args : list Val) : M unit :=
  emit (Printf format args).

(** A logger made by [debug.Debug(namespace)]. *)
Definition debug (namespace format : string) (args : list Val) : M unit :=
  emit (Debug namespace format args).

Definition time_Sleep (d : Z) : M unit := emit (Sleep d).

Definition li_Prompt (msg : string) : M (string * error) := fun t =>
  let r := tty_Prompt t 0%nat msg in
  mkRun (Returns r) [Prompt msg r] (after_Prompt t).

Definition li_PasswordPrompt (msg : string) : M (string * error) := fun t =>
  let r := tty_PasswordPrompt t 0%nat msg in
  mkRun (Returns r) [PasswordPrompt msg r] (after_PasswordPrompt t).

Definition login (cfg : OktaConfig) (user pass : string)
  : M (option OktaLoginResponse * error) := fun t =>
  let r := okta_login t 0%nat cfg user pass in
  mkRun (Returns r) [Login cfg user pass r] (after_login t).

Definition doMfa (ores : OktaLoginResponse) (factor : OktaMfaFactor)
  (token : string) : M (string * error) := fun t =>
  let r := okta_doMfa t 0%nat ores factor token in
  mkRun (Returns r) [DoMfa ores factor token r] (after_doMfa t).

Definition getSaml (cfg : OktaConfig) (sessionToken : string)
  : M (option OktaSamlResponse * error) := fun t =>
  let r := okta_getSaml t 0%nat cfg sessionToken in
  mkRun (Returns r) [GetSaml cfg sessionToken r] (after_getSaml t).

(** [p.field] on a pointer [p]. *)
Definition deref {A : Type} (p : option A) : M A :=
  match p with
  | Some a => ret a
  | None => panic NilDereference
  end.

(** [l[i]] on a slice. *)
Definition index {A : Type} (l : list A) (i : Z) : M A :=
  if (0 <=? i) && (i <? len l) then
    match nth_error l (Z.to_nat i) with
    | Some a => ret a
    | None => panic (IndexOutOfRange i (len l))
    end
  else panic (IndexOutOfRange i (len l)).

(** ** [readUserPass] and [readMfaToken] *)

Definition readUserPass : M (string * string * error) :=
  emit NewLiner ;;
  defer LinerClose (
    emit (SetCtrlCAborts true) ;;
    '(user, err) <- li_Prompt "Username: " ;;
    match err with
    | Some _ => ret (user, EmptyString, err)
    | None =>
        '(pass, err) <- li_PasswordPrompt "Password: " ;;
        match err with
        | Some _ => ret (user, pass, err)
        | None => ret (user, pass, err)
        end
    end).

Definition readMfaToken : M (string * error) :=
  emit NewLiner ;;
  defer LinerClose (
    emit (SetCtrlCAborts true) ;;
    fmt_Println [VStr "Your account requires MFA; please enter a token."] ;;
    li_Prompt "MFA token: ").

(** ** [selectTokenFactor] *)

(** The [for i, factor := range factors] loop, from index [i] on. *)
Fixpoint range_factors (i : Z) (factors : list OktaMfaFactor) : M unit :=
  match factors with
  | [] => ret tt
  | factor :: more =>
      (if (FactorType factor =? "push")%string
       then fmt_Printf "[%d] Push notification\n" [VInt i]
       else ret tt) ;;
      (if (FactorType factor =? "token:software:totp")%string
       then
         if (Provider factor =? "GOOGLE")%string
         then fmt_Printf "[%d] Google Authenticator\n" [VInt i]
         else fmt_Printf "[%d] Okta Verify\n" [VInt i]
       else ret tt) ;;
      range_factors (i + 1) more
  end.

Definition selectTokenFactor (ores : OktaLoginResponse)
  : M (option OktaMfaFactor * error) :=
  let factors := Factors (Embedded ores) in
  if (len factors =? 0)%Z then
    ret (None, Some (errors_New "MFA factors not present in response"))
  else if (len factors =? 1)%Z then
    debug "oktad:selectTokenFactor" "found just a single factor: %s"
      [VFactors factors] ;;
    factor <- index factors 0 ;;
    ret (Some factor, None)
  else
    emit NewLiner ;;
    defer LinerClose (
      emit (SetCtrlCAborts true) ;;
      range_factors 0 factors ;;
      '(mfaIdxAnswer, _) <- li_Prompt "Select your second factor: " ;;
      let '(mfaIdx, _) := strconv.Atoi mfaIdxAnswer in
      mfaFactor <- index factors mfaIdx ;;
      if (Id mfaFactor =? EmptyString)%string then ret (None, Some wrongMfaError)
      else ret (Some mfaFactor, None)).

(** ** [startPushMfa], [startTotpMfa] and [startMfa] *)

(** The code from label [TRYPUSH] on; [err] is the named result, [fuel]
    bounds the number of [goto TRYPUSH]. *)
Fixpoint TRYPUSH (fuel : nat) (ores : OktaLoginResponse)
  (factor : OktaMfaFactor) (tries : Z) (err : error) : M (string * error) :=
  if tries <? 15 then
    '(sessionToken, err) <- doMfa ores factor "-" ;;
    match err with
    | Some _ =>
        let tries := tries + 1 in
        fmt_Println [VStr "Push not yet acked, sleeping"] ;;
        time_Sleep (2 * Second) ;;
        match fuel with
        | O => out_of_fuel
        | S fuel' => TRYPUSH fuel' ores factor tries err
        end
    | None => ret (sessionToken, None)
    end
  else
    fmt_Println [VStr "Error performing MFA auth!"] ;;
    debug "oktad:startPushMfa" "error from doMfa was %s" [VErr err] ;;
    ret (EmptyString, err).

Definition startPushMfa (ores : OktaLoginResponse) (factor : OktaMfaFactor)
  : M (string * error) :=
  TRYPUSH 15 ores factor 0 None.

(** The code from label [TRYMFA] on.  The short declaration
    [mfaToken, err := readMfaToken()] assigns the named result [err]. *)
Fixpoint TRYMFA (fuel : nat) (ores : OktaLoginResponse)
  (factor : OktaMfaFactor) (tries : Z) : M (string * error) :=
  '(mfaToken, err) <- readMfaToken ;;
  match err with
  | Some _ =>
      debug "oktad:startTotpMfa" "control-c caught in liner, probably" [] ;;
      ret (EmptyString, err)
  | None =>
      if tries <? 2 then
        '(sessionToken, err) <- doMfa ores factor mfaToken ;;
        match err with
        | Some _ =>
            let tries := tries + 1 in
            fmt_Println [VStr "Invalid MFA code, please try again."] ;;
            match fuel with
            | O => out_of_fuel
            | S fuel' => TRYMFA fuel' ores factor tries
            end
        | None => ret (sessionToken, None)
        end
      else
        fmt_Println [VStr "Error performing MFA auth!"] ;;
        debug "oktad:startTotpMfa" "error from doMfa was %s" [VErr err] ;;
        ret (EmptyString, err)
  end.

Definition startTotpMfa (ores : OktaLoginResponse) (factor : OktaMfaFactor)
  : M (string * error) :=
  TRYMFA 2 ores factor 0.

Definition startMfa (ores : OktaLoginResponse) (factor : option OktaMfaFactor)
  : M (string * error) :=
  f <- deref factor ;;
  if (FactorType f =? "push")%string then
    '(sessionToken, err) <- startPushMfa ores f ;;
    ret (sessionToken, err)
  else if (FactorType f =? "token:software:totp")%string then
    '(sessionToken, err) <- startTotpMfa ores f ;;
    ret (sessionToken, err)
  else ret (EmptyString, None).

(** ** [getSessionFromLogin] *)

Definition getSessionFromLogin (oktaCfg : OktaConfig) : M (string * error) :=
  let debug := debug "oktad:getSessionFromLogin" in
  '(user, pass, err) <- readUserPass ;;
  match err with
  | Some _ =>
      debug "control-c caught in liner, probably" [] ;;
      ret (EmptyString, Some (errors_New "control-c"))
  | None =>
      if (user =? EmptyString)%string || (pass =? EmptyString)%string then
        ret (EmptyString, Some (errors_New "Must supply a username and password"))
      else
        '(ores, err) <- login oktaCfg user pass ;;
        match err with
        | Some _ =>
            fmt_Println [VStr "Error authenticating with Okta! Maybe your username or password are wrong."] ;;
            debug "login err %s" [VErr err] ;;
            ret (EmptyString, err)
        | None =>
            o <- deref ores ;;
            if negb ((Status o =? "MFA_REQUIRED")%string) then
              ret (EmptyString, Some (errors_New "MFA required to use this tool"))
            else
              '(factor, err) <- selectTokenFactor o ;;
              match err with
              | Some _ =>
                  fmt_Println [VStr "Error processing okta response!"] ;;
                  debug "err from extractTokenFactor was %s" [VErr err] ;;
                  ret (EmptyString, err)
              | None =>
                  '(sessionToken, err) <- startMfa o factor ;;
                  match err with
                  | Some _ =>
                      fmt_Println [VStr "Error doing MFA!"] ;;
                      debug "err from startMfa was %s" [VErr err] ;;
                      ret (EmptyString, err)
                  | None => ret (sessionToken, None)
                  end
              end
        end
  end.

(** ** [main] *)

(** The replies of everything [main] calls once in a run: the command
    line, the configuration and profile files, the credential cache, the
    keychain, the cookie exchange, STS, the credential stores and the
    launched program. *)
Record System : Type := {
  flags_Parse : Options * list string * error;
  sys_parseConfig : string -> OktaConfig * error;
  sys_readAwsProfile : string -> AwsConfig * error;
  sys_loadCreds : string -> Credentials * error;
  keytar_GetKeychain : error;
  keystore_GetPassword : string -> string -> string * error;
  sys_decodePasswordStruct : Cookie -> string -> Cookie * error;
  okta_getSamlSession :
    OktaConfig -> Cookie -> option OktaSamlResponse * error;
  sts_assumeFirstRole :
    AwsConfig -> option OktaSamlResponse -> Credentials * Time * error;
  sts_assumeDestinationRole :
    AwsConfig -> Credentials -> Credentials * Time * error;
  sys_storeCredsAws : string -> Credentials -> error;
  sys_storeCreds : string -> Credentials -> Time -> error;
  sys_prepAndLaunch : list string -> Credentials -> error
}.

Definition external {A : Type} (reply : A) (ev : A -> Event) : M A :=
  fun t => mkRun (Returns reply) [ev reply] t.

(** A block of [main] either executes [return] or falls through with the
    variables it assigned. *)
Definition return_ {A : Type} : M (option A) := ret None.
Definition fallthrough {A : Type} (a : A) : M (option A) := ret (Some a).

Notation "x <-? m ;; k" :=
  (bind m (fun o => match o with Some x => k | None => return_ end))
  (at level 61, m at next level, right associativity).
Notation "x <-! m ;; k" :=
  (bind m (fun o => match o with Some x => k | None => ret tt end))
  (at level 61, m at next level, right associativity).

Definition is_awsProfileNotFound (err : error) : bool :=
  match err with
  | Some awsProfileNotFound => true
  | _ => false
  end.

(** [saml == nil || saml.raw == ""]. *)
Definition no_assertion (saml : option OktaSamlResponse) : bool :=
  match saml with
  | None => true
  | Some s => (raw s =? EmptyString)%string
  end.

(** Lines 100 to 147 of [main]: from the keychain lookup to the last
    fallback.  [None] when [main] returns there, [Some saml] when control
    reaches [assumeFirstRole] with the variable [saml]. *)
Definition main_federation (sys : System) (oktaCfg : OktaConfig)
  : M (option (option OktaSamlResponse)) :=
  let debug := debug "oktad:main" in
  '(password, err) <-
     external (keystore_GetPassword sys APPNAME SESSION_COOKIE)
              (GetPassword APPNAME SESSION_COOKIE) ;;
  saml <-?
     (if (match err with Some _ => true | None => false end)
         || (password =? EmptyString)%string
      then
        '(sessionToken, err) <- getSessionFromLogin oktaCfg ;;
        match err with
        | Some _ => return_
        | None =>
            '(saml, err) <- getSaml oktaCfg sessionToken ;;
            match err with
            | Some _ =>
                fmt_Println [VStr "Error parsing SAML response"] ;;
                debug "error was %s" [VErr err] ;;
                return_
            | None => fallthrough saml
            end
        end
      else fallthrough None) ;;
  saml <-
     (if no_assertion saml then
        '(cookie, err) <-
           external (sys_decodePasswordStruct sys zeroCookie password)
                    (DecodePasswordStruct password) ;;
        match err with
        | Some _ => debug "failed to read session cookie %s" [VErr err]
        | None => ret tt
        end ;;
        '(saml, err) <-
           external (okta_getSamlSession sys oktaCfg cookie)
                    (GetSamlSession oktaCfg cookie) ;;
        match err with
        | Some _ =>
            debug "failed to get session from existing cookie %s" [VErr err]
        | None => ret tt
        end ;;
        ret saml
      else ret saml) ;;
  if no_assertion saml then
    '(sessionToken, err) <- getSessionFromLogin oktaCfg ;;
    match err with
    | Some _ =>
        fmt_Println [VStr "Fatal error getting login session"] ;;
        debug "error was %s" [VErr err] ;;
        return_
    | None =>
        '(saml, err) <- getSaml oktaCfg sessionToken ;;
        match err with
        | Some _ =>
            fmt_Println [VStr "Fatal error getting saml"] ;;
            debug "error was %s" [VErr err] ;;
            return_
        | None => fallthrough saml
        end
    end
  else fallthrough saml.

(** Lines 149 to 189 of [main]: the two role assumptions, the two stores
    and the launch. *)
Definition main_roles (sys : System) (opts : Options) (acfg : AwsConfig)
  (skipSecondRole : bool) (awsProfile : string) (args : list string)
  (saml : option OktaSamlResponse) : M unit :=
  let debug := debug "oktad:main" in
  '(mainCreds, mExp, err) <-
     external (sts_assumeFirstRole sys acfg saml) (AssumeFirstRole acfg saml) ;;
  match err with
  | Some _ =>
      fmt_Println [VStr "Error assuming first role!"] ;;
      debug "error was %s" [VErr err]
  | None =>
  final <-!
     (if negb skipSecondRole then
        '(finalCreds, fExp, err) <-
           external (sts_assumeDestinationRole sys acfg mainCreds)
                    (AssumeDestinationRole acfg mainCreds) ;;
        match err with
        | Some _ =>
            fmt_Println [VStr "Error assuming second role!"] ;;
            debug "error was %s" [VErr err] ;;
            return_
        | None => fallthrough (finalCreds, fExp)
        end
      else fallthrough (mainCreds, mExp)) ;;
  let '(finalCreds, fExp) := final in
  let awsProfile :=
    if negb (ProfileName opts =? EmptyString)%string
    then ProfileName opts else awsProfile in
  err <- external (sys_storeCredsAws sys awsProfile finalCreds)
                  (StoreCredsAws awsProfile finalCreds) ;;
  match err with
  | Some _ => debug "err storing aws credentials, %s" [VErr err]
  | None => ret tt
  end ;;
  err <- external (sys_storeCreds sys awsProfile finalCreds fExp)
                  (StoreCreds awsProfile finalCreds fExp) ;;
  match err with
  | Some _ => debug "err storing credentials, %s" [VErr err]
  | None => ret tt
  end ;;
  debug "Everything looks good; launching your program..." [] ;;
  err <- external (sys_prepAndLaunch sys args finalCreds)
                  (PrepAndLaunch args finalCreds) ;;
  match err with
  | Some _ => fmt_Println [VStr "Error launching program: "; VErr err]
  | None => ret tt
  end
  end.

(** [main]: lines 18 to 98, then [main_federation] and [main_roles]. *)
Definition main (sys : System) : M unit :=
  let debug := debug "oktad:main" in
  '(opts, args, err) <- external (flags_Parse sys) FlagsParse ;;
  match err with
  | Some _ => ret tt
  | None =>
  if PrintVersion opts then fmt_Printf "oktad v%s\n" [VStr VERSION]
  else
  debug "loading configuration data" [] ;;
  '(oktaCfg, err) <-
     external (sys_parseConfig sys (ConfigFile opts))
              (ParseConfig (ConfigFile opts)) ;;
  match err with
  | Some _ =>
      fmt_Println [VStr "Error reading config file!"] ;;
      debug "cfg read err: %s" [VErr err]
  | None =>
  match args with
  | [] =>
      fmt_Println [VStr "Hey, that command won't actually do anything.\n\nSorry."]
  | args0 :: _ =>
  let awsProfile := args0 in
  '(acfg, err) <-
     external (sys_readAwsProfile sys ("profile " ++ awsProfile))
              (ReadAwsProfile ("profile " ++ awsProfile)) ;;
  '(skipSecondRole, awsProfile, args) <-
     match err with
     | Some _ =>
         debug "error reading AWS profile: %s" [VErr err] ;;
         if is_awsProfileNotFound err then
           fmt_Printf
             "We couldn't find an AWS profile named %s,\nso we will AssumeRole into your base account.\n"
             [VStr awsProfile] ;;
           ret (true, BASE_PROFILE_CREDS, BASE_PROFILE_CREDS :: args)
         else ret (false, awsProfile, args)
     | None => ret (false, awsProfile, args)
     end ;;
  _ <-!
     (if negb (ForceNewCredentials opts) then
        '(maybeCreds, err) <-
           external (sys_loadCreds sys awsProfile) (LoadCreds awsProfile) ;;
        match err with
        | None =>
            debug "found cached credentials, going to use them" [] ;;
            err <- external (sys_prepAndLaunch sys args maybeCreds)
                            (PrepAndLaunch args maybeCreds) ;;
            match err with
            | Some _ =>
                fmt_Println [VStr "Error launching program: "; VErr err] ;;
                return_
            | None => return_
            end
        | Some _ =>
            debug "cred load err %s" [VErr err] ;;
            fallthrough tt
        end
      else fallthrough tt) ;;
  err <- external (keytar_GetKeychain sys) GetKeychain ;;
  match err with
  | Some _ =>
      fmt_Println [VStr "Failed to get keychain access"] ;;
      debug "error was %s" [VErr err]
  | None =>
  saml <-! main_federation sys oktaCfg ;;
  main_roles sys opts acfg skipSecondRole awsProfile args saml
  end end end end.

(** ** Reading a trace *)

(** The verification calls made, with the code sent and the reply. *)
Definition verification_of (e : Event) : list (string * (string * error)) :=
  match e with
  | DoMfa _ _ token reply => [(token, reply)]
  | _ => []
  end.

Definition verifications (tr : list Event) : list (string * (string * error)) :=
  flat_map verification_of tr.

(** The calls that sleep, with the duration. *)
Definition sleep_of (e : Event) : list Z :=
  match e with
  | Sleep d => [d]
  | _ => []
  end.

Definition sleeps (tr : list Event) : list Z := flat_map sleep_of tr.

(** The answers given at terminal prompts, with the prompt. *)
Definition prompt_of (e : Event) : list (string * (string * error)) :=
  match e with
  | Prompt msg reply => [(msg, reply)]
  | PasswordPrompt msg reply => [(msg, reply)]
  | _ => []
  end.

Definition prompts (tr : list Event) : list (string * (string * error)) :=
  flat_map prompt_of tr.

(** The federation exchanges made, with their source and reply. *)
Definition exchange_of (e : Event)
  : list (Source * (option OktaSamlResponse * error)) :=
  match e with
  | GetSaml _ _ reply => [(FreshLogin, reply)]
  | GetSamlSession _ _ reply => [(CachedCookie, reply)]
  | _ => []
  end.

Definition exchanges (tr : list Event)
  : list (Source * (option OktaSamlResponse * error)) :=
  flat_map exchange_of tr.

(** The assertions handed to [assumeFirstRole]. *)
Definition fed_of (e : Event) : list (option OktaSamlResponse) :=
  match e with
  | AssumeFirstRole _ saml _ => [saml]
  | _ => []
  end.

Definition assertions_fed (tr : list Event) : list (option OktaSamlResponse) :=
  flat_map fed_of tr.

(** A fresh login starts with the prompt for the user name. *)
Definition is_username_prompt (e : Event) : bool :=
  match e with
  | Prompt msg _ => (msg =? "Username: ")%string
  | _ => false
  end.

Definition username_prompt_of (e : Event) : list (string * error) :=
  match e with
  | Prompt msg reply => if (msg =? "Username: ")%string then [reply] else []
  | _ => []
  end.

Definition fresh_logins (tr : list Event) : nat :=
  length (flat_map username_prompt_of tr).

(** The replies of [assumeFirstRole]. *)
Definition base_role_of (e : Event) : list (Credentials * Time * error) :=
  match e with
  | AssumeFirstRole _ _ reply => [reply]
  | _ => []
  end.

Definition base_roles (tr : list Event) : list (Credentials * Time * error) :=
  flat_map base_role_of tr.

(** The credentials handed to [assumeDestinationRole]. *)
Definition destination_role_of (e : Event) : list Credentials :=
  match e with
  | AssumeDestinationRole _ creds _ => [creds]
  | _ => []
  end.

Definition destination_roles (tr : list Event) : list Credentials :=
  flat_map destination_role_of tr.

(** What was handed to [storeCredsAws], [storeCreds] and [prepAndLaunch]. *)
Definition stored_aws_of (e : Event) : list (string * Credentials) :=
  match e with
  | StoreCredsAws profile creds _ => [(profile, creds)]
  | _ => []
  end.

Definition stored_aws (tr : list Event) : list (string * Credentials) :=
  flat_map stored_aws_of tr.

Definition stored_of (e : Event) : list (string * Credentials * Time) :=
  match e with
  | StoreCreds profile creds exp _ => [(profile, creds, exp)]
  | _ => []
  end.

Definition stored (tr : list Event) : list (string * Credentials * Time) :=
  flat_map stored_of tr.

Definition launched_of (e : Event) : list (list string * Credentials) :=
  match e with
  | PrepAndLaunch args creds _ => [(args, creds)]
  | _ => []
  end.

Definition launched (tr : list Event) : list (list string * Credentials) :=
  flat_map launched_of tr.



(** The user names and passwords sent to [login]. *)
Definition login_call_of (e : Event) : list (string * string) :=
  match e with
  | Login _ user pass _ => [(user, pass)]
  | _ => []
  end.

Definition login_calls (tr : list Event) : list (string * string) :=
  flat_map login_call_of tr.

(** The profiles looked up in the credential cache. *)
Definition cache_lookup_of (e : Event) : list string :=
  match e with
  | LoadCreds profile _ => [profile]
  | _ => []
  end.

Definition cache_lookups (tr : list Event) : list string :=
  flat_map cache_lookup_of tr.

(** The passwords read from the keychain. *)
Definition keychain_read_of (e : Event) : list (string * error) :=
  match e with
  | GetPassword _ _ reply => [reply]
  | _ => []
  end.

Definition keychain_reads (tr : list Event) : list (string * error) :=
  flat_map keychain_read_of tr.

(** The lines of the menu of factors: the index each one shows. *)
Definition listed_of (e : Event) : list Z :=
  match e with
  | Printf _ [VInt i] => [i]
  | _ => []
  end.

Definition listed (tr : list Event) : list Z := flat_map listed_of tr.

(** The kinds of factor the menu shows. *)
Definition listed_kind (factor : OktaMfaFactor) : bool :=
  (FactorType factor =? "push")%string
  || (FactorType factor =? "token:software:totp")%string.

(** The use of the terminal along a trace, from a state where a liner is
    [open] or not: the state at the end, or [None] when a liner is opened
    while one is open, or one is closed, configured or prompted on while
    none is open. *)
Fixpoint liner_protocol (open : bool) (tr : list Event) : option bool :=
  match tr with
  | [] => Some open
  | e :: tr' =>
      match e with
      | NewLiner => if open then None else liner_protocol true tr'
      | LinerClose => if open then liner_protocol false tr' else None
      | SetCtrlCAborts _ | Prompt _ _ | PasswordPrompt _ _ =>
          if open then liner_protocol true tr' else None
      | _ => liner_protocol open tr'
      end
  end.

(** The calls of round [k] of [startPushMfa] when the push is not
    acknowledged: the verification, the message and the sleep. *)
Definition push_attempt (ores : OktaLoginResponse) (factor : OktaMfaFactor)
  (t : Tape) (k : nat) : list Event :=
  [DoMfa ores factor "-" (okta_doMfa t k ores factor "-");
   Println [VStr "Push not yet acked, sleeping"];
   Sleep (2 * Second)].

(** The last calls of the run are [suffix]. *)
Definition ends_with (tr suffix : list Event) : Prop :=
  exists before, tr = (before ++ suffix)%list.

(** ** Classes of events *)

(** Printing and logging. *)
Definition print_event (e : Event) : bool :=
  match e with
  | Println _ | Printf _ _ | Debug _ _ _ => true
  | _ => false
  end.

(** What the MFA dialogue does: printing, the terminal (any prompt but the
    one for the user name), sleeping and verification calls. *)
Definition mfa_event (e : Event) : bool :=
  match e with
  | Println _ | Printf _ _ | Debug _ _ _ => true
  | NewLiner | SetCtrlCAborts _ | LinerClose => true
  | Prompt msg _ => negb (msg =? "Username: ")%string
  | Sleep _ => true
  | DoMfa _ _ _ _ => true
  | _ => false
  end.

(** What a fresh login does: the MFA dialogue, the credential prompts and
    the login call. *)
Definition login_event (e : Event) : bool :=
  match e with
  | Prompt _ _ | PasswordPrompt _ _ | Login _ _ _ _ => true
  | _ => mfa_event e
  end.

(** What [main] does before [main_roles]. *)
Definition before_roles (e : Event) : bool :=
  match e with
  | AssumeFirstRole _ _ _ | AssumeDestinationRole _ _ _ => false
  | StoreCredsAws _ _ _ | StoreCreds _ _ _ _ | PrepAndLaunch _ _ _ => false
  | _ => true
  end.

(** What a fresh login does after the prompt for the user name. *)
Definition after_username (e : Event) : bool :=
  login_event e && negb (is_username_prompt e).

(** What [main] does before the federation stage when it reaches it. *)
Definition prelude_event (e : Event) : bool :=
  match e with
  | Println _ | Printf _ _ | Debug _ _ _ => true
  | FlagsParse _ | ParseConfig _ _ | ReadAwsProfile _ _ => true
  | LoadCreds _ _ | GetKeychain _ => true
  | _ => false
  end.

(** What [main] does when it ends before the federation stage: the
    prelude, and the launch with cached credentials. *)
Definition early_event (e : Event) : bool :=
  match e with
  | PrepAndLaunch _ _ _ => true
  | _ => prelude_event e
  end.

(** What [main_roles] does after [assumeFirstRole]. *)
Definition after_base_role (e : Event) : bool :=
  match e with
  | Println _ | Debug _ _ _ => true
  | AssumeDestinationRole _ _ _ => true
  | StoreCredsAws _ _ _ | StoreCreds _ _ _ _ | PrepAndLaunch _ _ _ => true
  | _ => false
  end.

(** What [main] does in a run that ends on the launch with cached
    credentials: the prelude without the keychain, and the launch. *)
Definition cache_hit_event (e : Event) : bool :=
  match e with
  | Println _ | Printf _ _ | Debug _ _ _ => true
  | FlagsParse _ | ParseConfig _ _ | ReadAwsProfile _ _ => true
  | LoadCreds _ _ | PrepAndLaunch _ _ _ => true
  | _ => false
  end.

(** Everything but a lookup in the credential cache. *)
Definition no_cache_event (e : Event) : bool :=
  match e with
  | LoadCreds _ _ => false
  | _ => true
  end.

(** What [main] does up to the reading of the configuration. *)
Definition startup_event (e : Event) : bool :=
  match e with
  | Println _ | Printf _ _ | Debug _ _ _ => true
  | FlagsParse _ | ParseConfig _ _ => true
  | _ => false
  end.

(** [m], started with a liner [open] or not, uses the terminal by the
    protocol and leaves it as it found it. *)
Definition keeps_liner {A : Type} (open : bool) (m : M A) : Prop :=
  forall t, liner_protocol open (events (m t)) = Some open.

(** [m] only makes calls of class [P]. *)
Definition emits_only {A : Type} (P : Event -> bool) (m : M A) : Prop :=
  forall t, forallb P (events (m t)) = true.

(** [m] never runs out of fuel. *)
Definition terminates {A : Type} (m : M A) : Prop :=
  forall t, outcome (m t) <> OutOfFuel.

End Oktad.

(** ** Sample runs *)

Module Sample.

Definition externals : Externals :=
  {| OktaConfig := string;
     AwsConfig := string;
     Credentials := string;
     Cookie := string;
     Time := Z;
     BASE_PROFILE_CREDS := "base";
     APPNAME := "oktad";
     zeroCookie := EmptyString |}.

#[local] Existing Instance externals.

Definition push : OktaMfaFactor :=
  {| Id := "opf1"; FactorType := "push"; Provider := "OKTA" |}.

Definition totp : OktaMfaFactor :=
  {| Id := "ost2"; FactorType := "token:software:totp"; Provider := "GOOGLE" |}.

Definition sms : OktaMfaFactor :=
  {| Id := "sms3"; FactorType := "sms"; Provider := "OKTA" |}.

Definition mfa_required (factors : list OktaMfaFactor) : OktaLoginResponse :=
  {| Status := "MFA_REQUIRED"; Embedded := {| Factors := factors |} |}.

Definition bare_success : OktaLoginResponse :=
  {| Status := "SUCCESS"; Embedded := {| Factors := [] |} |}.

(** A user who types [typed n] at the [n]-th prompt, and a provider that
    answers a login with [ores], never sees the push acknowledged and
    accepts the code [good]. *)
Definition tape (ores : OktaLoginResponse) (typed : nat -> string)
  (good : string) : Tape :=
  {| tty_Prompt := fun n _ => (typed n, None);
     tty_PasswordPrompt := fun _ _ => ("hunter2", None);
     okta_login := fun _ _ _ _ => (Some ores, None);
     okta_doMfa := fun _ _ factor token =>
       if (FactorType factor =? "push")%string
       then (EmptyString, Some (foreign "push not acknowledged"))
       else if (token =? good)%string
            then ("session-token", None)
            else (EmptyString, Some (foreign "invalid passcode"));
     okta_getSaml := fun _ _ _ => (Some {| raw := "login-assertion" |}, None) |}.

(** [t] with the user interrupting the [n]-th prompt. *)
Definition interrupting (n : nat) (t : Tape) : Tape :=
  {| tty_Prompt := fun k msg =>
       if (k =? n)%nat then (EmptyString, Some (foreign "prompt aborted"))
       else tty_Prompt t k msg;
     tty_PasswordPrompt := tty_PasswordPrompt t;
     okta_login := okta_login t;
     okta_doMfa := okta_doMfa t;
     okta_getSaml := okta_getSaml t |}.

(** [t] with the user typing the password [pass]. *)
Definition with_password (pass : string) (t : Tape) : Tape :=
  {| tty_Prompt := tty_Prompt t;
     tty_PasswordPrompt := fun _ _ => (pass, None);
     okta_login := okta_login t;
     okta_doMfa := okta_doMfa t;
     okta_getSaml := okta_getSaml t |}.

(** [t] with the provider answering every login with [reply]. *)
Definition with_login (reply : option OktaLoginResponse * error) (t : Tape)
  : Tape :=
  {| tty_Prompt := tty_Prompt t;
     tty_PasswordPrompt := tty_PasswordPrompt t;
     okta_login := fun _ _ _ _ => reply;
     okta_doMfa := okta_doMfa t;
     okta_getSaml := okta_getSaml t |}.


(** [t] with the push acknowledged at the verification of round [n]. *)
Definition acknowledging (n : nat) (t : Tape) : Tape :=
  {| tty_Prompt := tty_Prompt t;
     tty_PasswordPrompt := tty_PasswordPrompt t;
     okta_login := okta_login t;
     okta_doMfa := fun k ores factor token =>
       if (k =? n)%nat then ("push-session-token", None)
       else okta_doMfa t k ores factor token;
     okta_getSaml := okta_getSaml t |}.

(** The user types the same text at every prompt. *)
Definition always (answer : string) : nat -> string := fun _ => answer.

(** The user types [a], then [b], then [c] at every later prompt. *)
Definition typing (a b c : string) : nat -> string := fun n =>
  match n with
  | O => a
  | S O => b
  | _ => c
  end.

(** A machine where the keychain holds [cookie], the profile lookup
    answers [profile_err], nothing is cached and every other call
    succeeds. *)
Definition options : Options :=
  {| ConfigFile := "~/.oktad/config"; PrintVersion := false;
     ForceNewCredentials := false; ProfileName := EmptyString |}.

Definition system (cookie : string) (profile_err : error) : System :=
  {| flags_Parse := (options, ["prod"; "aws"; "s3"; "ls"], None);
     sys_parseConfig := fun _ => ("config", None);
     sys_readAwsProfile := fun _ => ("account", profile_err);
     sys_loadCreds := fun _ => (EmptyString, Some (foreign "no cached credentials"));
     keytar_GetKeychain := None;
     keystore_GetPassword := fun _ _ => (cookie, None);
     sys_decodePasswordStruct := fun _ password => (password, None);
     okta_getSamlSession := fun _ cookie =>
       if (cookie =? "live")%string
       then (Some {| raw := "cookie-assertion" |}, None)
       else (None, Some (foreign "session expired"));
     sts_assumeFirstRole := fun _ _ => ("base-credentials", 100, None);
     sts_assumeDestinationRole := fun _ _ => ("destination-credentials", 200, None);
     sys_storeCredsAws := fun _ _ => None;
     sys_storeCreds := fun _ _ _ => None;
     sys_prepAndLaunch := fun _ _ => None |}.

(** [sys] with another command line, another reply of the credential
    cache and another reply of the keychain. *)
Definition machine (flags : Options * list string * error)
  (cached : string * error) (keychain : error) (sys : System) : System :=
  {| flags_Parse := flags;
     sys_parseConfig := sys_parseConfig sys;
     sys_readAwsProfile := sys_readAwsProfile sys;
     sys_loadCreds := fun _ => cached;
     keytar_GetKeychain := keychain;
     keystore_GetPassword := keystore_GetPassword sys;
     sys_decodePasswordStruct := sys_decodePasswordStruct sys;
     okta_getSamlSession := okta_getSamlSession sys;
     sts_assumeFirstRole := sts_assumeFirstRole sys;
     sts_assumeDestinationRole := sts_assumeDestinationRole sys;
     sys_storeCredsAws := sys_storeCredsAws sys;
     sys_storeCreds := sys_storeCreds sys;
     sys_prepAndLaunch := sys_prepAndLaunch sys |}.

(** [sys] with a configuration file that cannot be read. *)
Definition without_config (sys : System) : System :=
  {| flags_Parse := flags_Parse sys;
     sys_parseConfig := fun _ => (EmptyString, Some (foreign "no such file"));
     sys_readAwsProfile := sys_readAwsProfile sys;
     sys_loadCreds := sys_loadCreds sys;
     keytar_GetKeychain := keytar_GetKeychain sys;
     keystore_GetPassword := keystore_GetPassword sys;
     sys_decodePasswordStruct := sys_decodePasswordStruct sys;
     okta_getSamlSession := okta_getSamlSession sys;
     sts_assumeFirstRole := sts_assumeFirstRole sys;
     sts_assumeDestinationRole := sts_assumeDestinationRole sys;
     sys_storeCredsAws := sys_storeCredsAws sys;
     sys_storeCreds := sys_storeCreds sys;
     sys_prepAndLaunch := sys_prepAndLaunch sys |}.

(** The command line [oktad -f -p work prod aws s3 ls]. *)
Definition forcing : Options :=
  {| ConfigFile := "~/.oktad/config"; PrintVersion := false;
     ForceNewCredentials := true; ProfileName := "work" |}.

(** The command line [oktad -v]. *)
Definition version : Options :=
  {| ConfigFile := "~/.oktad/config"; PrintVersion := true;
     ForceNewCredentials := false; ProfileName := EmptyString |}.

End Sample.

(** * Properties *)

(** ** Stepping through a run *)

Section Runs.

Context `{Externals}.

Lemma bind_returns {A B : Type} (m : M A) (k : A -> M B) (t t' : Tape)
  (a : A) (evs : list Event) :
  m t = mkRun (Returns a) evs t' -> bind m k t = prepend evs (k a t').
Proof. intros E. unfold bind. rewrite E. reflexivity. Qed.

Lemma bind_panics {A B : Type} (m : M A) (k : A -> M B) (t t' : Tape)
  (p : GoPanic) (evs : list Event) :
  m t = mkRun (Panics p) evs t' -> bind m k t = mkRun (Panics p) evs t'.
Proof. intros E. unfold bind. rewrite E. reflexivity. Qed.

Lemma bind_out_of_fuel {A B : Type} (m : M A) (k : A -> M B) (t t' : Tape)
  (evs : list Event) :
  m t = mkRun OutOfFuel evs t' -> bind m k t = mkRun OutOfFuel evs t'.
Proof. intros E. unfold bind. rewrite E. reflexivity. Qed.

Lemma prepend_prepend {A : Type} (evs evs' : list Event) (r : Run A) :
  prepend evs (prepend evs' r) = prepend (evs ++ evs') r.
Proof.
  unfold prepend. cbn [outcome events rest]. rewrite app_assoc. reflexivity.
Qed.

Lemma bind_assoc {A B C : Type} (m : M A) (f : A -> M B) (g : B -> M C)
  (t : Tape) :
  bind (bind m f) g t = bind m (fun a => bind (f a) g) t.
Proof.
  unfold bind.
  destruct (outcome (m t)) as [a| |]; cbn [outcome events rest prepend];
    try reflexivity.
  destruct (outcome (f a (rest (m t)))) as [b| |];
    cbn [outcome events rest prepend]; try reflexivity.
  symmetry. apply prepend_prepend.
Qed.

(** A class of events on which an observer [f] sees nothing. *)
Lemma flat_map_unseen {B : Type} (P : Event -> bool) (f : Event -> list B) :
  (forall e, P e = true -> f e = []) ->
  forall tr, forallb P tr = true -> flat_map f tr = [].
Proof.
  intros Hf tr. induction tr as [|e tr IH]; cbn; [reflexivity|].
  intros Hall. apply andb_true_iff in Hall. destruct Hall as [He Htr].
  rewrite (Hf e He), (IH Htr). reflexivity.
Qed.

Lemma forallb_weaken (P Q : Event -> bool) :
  (forall e, P e = true -> Q e = true) ->
  forall tr, forallb P tr = true -> forallb Q tr = true.
Proof.
  intros HPQ tr. rewrite !forallb_forall. intros Hall e He. auto.
Qed.

End Runs.

(** The first call of a [bind] whose run is known. *)
Ltac known_run := first [ eassumption | reflexivity ].
Ltac step :=
  first [ erewrite bind_returns by known_run
        | erewrite bind_panics by known_run
        | erewrite bind_out_of_fuel by known_run ].
Ltac steps := repeat step.

(** The same, through nested [bind]s and the matches on known replies. *)
Ltac step' := first [ rewrite bind_assoc | step | progress cbn beta iota ].
Ltac steps' := repeat step'.

(** A run made of [prepend]s over a finished run, as one record. *)
Ltac normal_run :=
  cbn [prepend outcome events rest app ret emit external panic out_of_fuel
       fst snd];
  rewrite <- ?app_assoc;
  cbn [app].

(** ** Factor selection *)

Section Selection.

Context `{Externals}.

Lemma range_factors_run (factors : list OktaMfaFactor) :
  forall (i : Z) (t : Tape),
  exists menu : list Event,
    range_factors i factors t = mkRun (Returns tt) menu t
    /\ forallb print_event menu = true.
Proof.
  induction factors as [|f more IH]; intros i t.
  - exists []. split; reflexivity.
  - destruct (IH (i + 1) t) as [menu [E Hmenu]].
    cbn [range_factors].
    destruct (FactorType f =? "push")%string;
      destruct (FactorType f =? "token:software:totp")%string;
      try destruct (Provider f =? "GOOGLE")%string;
      steps; rewrite E; cbn; eexists; (split; [reflexivity|]); cbn; exact Hmenu.
Qed.

(** The run of [selectTokenFactor] on two factors or more: the menu, one
    prompt, and the factor at the index [Atoi] gives for the answer. *)
Lemma selectTokenFactor_many (ores : OktaLoginResponse) (t : Tape) :
  2 <= len (Factors (Embedded ores)) ->
  exists menu : list Event,
    forallb print_event menu = true /\
    let reply := tty_Prompt t 0%nat "Select your second factor: " in
    let factors := Factors (Embedded ores) in
    let mfaIdx := fst (strconv.Atoi (fst reply)) in
    selectTokenFactor ores t =
    mkRun
      (if (0 <=? mfaIdx) && (mfaIdx <? len factors) then
         match nth_error factors (Z.to_nat mfaIdx) with
         | Some mfaFactor =>
             if (Id mfaFactor =? EmptyString)%string
             then Returns (None, Some wrongMfaError)
             else Returns (Some mfaFactor, None)
         | None => Panics (IndexOutOfRange mfaIdx (len factors))
         end
       else Panics (IndexOutOfRange mfaIdx (len factors)))
      (NewLiner :: SetCtrlCAborts true :: menu
         ++ [Prompt "Select your second factor: " reply; LinerClose])
      (after_Prompt t).
Proof.
  intros Hlen.
  destruct (range_factors_run (Factors (Embedded ores)) 0 t) as [menu [E Hmenu]].
  exists menu. split; [exact Hmenu|]. cbv zeta.
  unfold selectTokenFactor.
  destruct (len (Factors (Embedded ores)) =? 0) eqn:E0; [lia|].
  destruct (len (Factors (Embedded ores)) =? 1) eqn:E1; [lia|].
  destruct (tty_Prompt t 0%nat "Select your second factor: ")
    as [answer perr] eqn:Ep.
  cbn [fst]. destruct (strconv.Atoi answer) as [mfaIdx aerr] eqn:Ea. cbn [fst].
  unfold defer; steps. rewrite Ep. steps. rewrite Ea. unfold index.
  destruct ((0 <=? mfaIdx) && (mfaIdx <? len (Factors (Embedded ores))));
    [destruct (nth_error (Factors (Embedded ores)) (Z.to_nat mfaIdx)) as [f|]|];
    steps; try destruct (Id f =? EmptyString)%string;
    normal_run; reflexivity.
Qed.

(** C8: on an empty factor list [selectTokenFactor] returns no factor and
    the error "MFA factors not present in response"; on a list of one
    factor it returns that factor with no error, and the only call it
    makes is a debug line: no terminal is opened and nothing is asked. *)
Theorem selectTokenFactor_by_length
  (status : string) (factor : OktaMfaFactor) (t : Tape) :
  selectTokenFactor {| Status := status; Embedded := {| Factors := [] |} |} t
  = mkRun
      (Returns (None, Some (errors_New "MFA factors not present in response")))
      [] t
  /\
  selectTokenFactor {| Status := status; Embedded := {| Factors := [factor] |} |} t
  = mkRun
      (Returns (Some factor, None))
      [Debug "oktad:selectTokenFactor" "found just a single factor: %s"
         [VFactors [factor]]]
      t.
Proof. split; reflexivity. Qed.

(** C1: with two factors or more, an answer that [Atoi] turns into an
    index below zero or not below the number of factors makes
    [selectTokenFactor] panic on the bounds check of [factors[mfaIdx]]: it
    returns neither a factor nor [wrongMfaError]. *)
Theorem selectTokenFactor_out_of_range_panics
  (ores : OktaLoginResponse) (t : Tape) (answer : string) (perr err : error)
  (i : Z) :
  2 <= len (Factors (Embedded ores)) ->
  tty_Prompt t 0%nat "Select your second factor: " = (answer, perr) ->
  strconv.Atoi answer = (i, err) ->
  i < 0 \/ len (Factors (Embedded ores)) <= i ->
  outcome (selectTokenFactor ores t)
  = Panics (IndexOutOfRange i (len (Factors (Embedded ores)))).
Proof.
  intros Hlen Hans Hatoi Hout.
  destruct (selectTokenFactor_many ores t Hlen) as [menu [_ E]].
  cbv zeta in E. rewrite E, Hans. cbn [fst outcome]. rewrite Hatoi. cbn [fst].
  destruct ((0 <=? i) && (i <? len (Factors (Embedded ores)))) eqn:Eb; [lia|].
  reflexivity.
Qed.

(** What [selectTokenFactor] returns is a factor of the list. *)
Lemma selectTokenFactor_returns_member
  (ores : OktaLoginResponse) (t : Tape) (factor : OktaMfaFactor) (err : error) :
  outcome (selectTokenFactor ores t) = Returns (Some factor, err) ->
  In factor (Factors (Embedded ores)).
Proof.
  destruct (Factors (Embedded ores)) as [|f0 [|f1 more]] eqn:Efactors.
  - unfold selectTokenFactor. rewrite Efactors. cbn. discriminate.
  - unfold selectTokenFactor. rewrite Efactors. cbn.
    intros E. inversion E. left. reflexivity.
  - destruct (selectTokenFactor_many ores t) as [menu [_ E]].
    { rewrite Efactors. unfold len. cbn [length]. lia. }
    cbv zeta in E. rewrite E. clear E. cbn [outcome]. rewrite Efactors.
    destruct ((0 <=? _) && (_ <? _)); cbn beta iota; [|discriminate].
    destruct (nth_error _ _) as [f|] eqn:Enth; cbn beta iota; [|discriminate].
    apply nth_error_In in Enth.
    destruct (Id f =? EmptyString)%string; cbn beta iota;
      intros E'; inversion E'; subst; exact Enth.
Qed.

Lemma ParseInt_syntax_zero (s : string) :
  snd (strconv.ParseInt s) = Some ErrSyntax -> fst (strconv.ParseInt s) = 0.
Proof.
  unfold strconv.ParseInt. destruct s as [|c s']; [reflexivity|].
  cbv zeta.
  destruct (strconv.ParseUint
              (if (c =? "+")%char || (c =? "-")%char then s' else String c s'))
    as [un [[]|]]; cbn [fst snd]; try reflexivity;
  repeat match goal with |- context [if ?b then _ else _] => destruct b end;
  cbn; congruence.
Qed.

(** On a syntax error [Atoi] returns 0. *)
Lemma Atoi_syntax_zero (s : string) :
  snd (strconv.Atoi s) = Some (NumError "Atoi" s ErrSyntax) ->
  fst (strconv.Atoi s) = 0.
Proof.
  unfold strconv.Atoi. pose proof (ParseInt_syntax_zero s) as Hz.
  destruct (strconv.ParseInt s) as [i [[]|]]; cbn in *; intros Hs;
    try discriminate; auto.
Qed.

Lemma digit_bound (c : ascii) (d : Z) : strconv.digit c = Some d -> 0 <= d <= 9.
Proof.
  unfold strconv.digit. cbv zeta.
  destruct ((48 <=? Z.of_nat (nat_of_ascii c))
            && (Z.of_nat (nat_of_ascii c) <=? 57)) eqn:E;
    [|discriminate].
  intros [= <-]. lia.
Qed.

(** While the digits read so far fit, a character that is not a digit
    ends [ParseUint] with a syntax error. *)
Lemma ParseUint_from_non_digits (s : string) :
  forall n : Z,
  strconv.all_digits s = false ->
  (String.length s <= 19)%nat ->
  0 <= n < 10 ^ (19 - Z.of_nat (String.length s)) ->
  strconv.ParseUint_from n s = (0, Some ErrSyntax).
Proof.
  induction s as [|c s IH]; intros n Hall Hlen Hn; [discriminate|].
  cbn [strconv.all_digits strconv.ParseUint_from String.length] in *.
  destruct (strconv.digit c) as [d|] eqn:Ed; [|reflexivity].
  pose proof (digit_bound c d Ed) as Hd.
  assert (Hs : (1 <= String.length s)%nat) by (destruct s; [discriminate|cbn; lia]).
  assert (Hpow : 10 ^ (19 - Z.of_nat (S (String.length s))) * 10
                 = 10 ^ (19 - Z.of_nat (String.length s))).
  { replace (19 - Z.of_nat (String.length s))
      with (Z.succ (19 - Z.of_nat (S (String.length s)))) by lia.
    rewrite Z.pow_succ_r by lia. lia. }
  assert (Hle : 10 ^ (19 - Z.of_nat (String.length s)) <= 10 ^ 18)
    by (apply Z.pow_le_mono_r; lia).
  change (10 ^ 18) with 1000000000000000000 in Hle.
  unfold strconv.maxUint64.
  change (2 ^ 64) with 18446744073709551616.
  change ((18446744073709551616 - 1) / 10 + 1) with 1844674407370955162.
  destruct (n >=? 1844674407370955162) eqn:E1; [lia|].
  cbv zeta.
  rewrite Z.mod_small by lia.
  destruct ((n * 10 + d <? n * 10) || (n * 10 + d >? 18446744073709551616 - 1)) eqn:E2;
    [lia|].
  apply IH; [exact Hall|lia|lia].
Qed.

(** A text of at most 19 characters that is not a decimal integer is a
    syntax error for [Atoi]. *)
Lemma Atoi_rejects_non_numeric (s : string) :
  strconv.numeric s = false ->
  (String.length s <= 19)%nat ->
  strconv.Atoi s = (0, Some (NumError "Atoi" s ErrSyntax)).
Proof.
  intros Hnum Hlen. unfold strconv.Atoi, strconv.ParseInt.
  destruct s as [|c s']; [reflexivity|].
  unfold strconv.numeric in Hnum. cbv zeta in *.
  set (body := if (c =? "+")%char || (c =? "-")%char then s' else String c s') in *.
  assert (Hbody : (String.length body <= 19)%nat).
  { subst body. destruct ((c =? "+")%char || (c =? "-")%char); cbn in *; lia. }
  assert (Eu : strconv.ParseUint body = (0, Some ErrSyntax)).
  { unfold strconv.ParseUint. destruct body as [|b body']; [reflexivity|].
    apply ParseUint_from_non_digits; [exact Hnum|exact Hbody|].
    split; [lia|]. apply Z.pow_pos_nonneg; lia. }
  rewrite Eu. reflexivity.
Qed.

(** While the digits read so far fit, a character that is not a digit
    ends [ParseUint] with a syntax error: 19 digits always fit. *)
Lemma ParseUint_from_syntax (s : string) :
  forall n : Z,
  strconv.all_digits s = false ->
  (strconv.leading_digits s <= 19)%nat ->
  0 <= n < 10 ^ (19 - Z.of_nat (strconv.leading_digits s)) ->
  strconv.ParseUint_from n s = (0, Some ErrSyntax).
Proof.
  induction s as [|c s IH]; intros n Hall Hlen Hn; [discriminate|].
  cbn [strconv.all_digits strconv.ParseUint_from strconv.leading_digits] in *.
  destruct (strconv.digit c) as [d|] eqn:Ed; [|reflexivity].
  pose proof (digit_bound c d Ed) as Hd.
  assert (Hpow : 10 ^ (19 - Z.of_nat (S (strconv.leading_digits s))) * 10
                 = 10 ^ (19 - Z.of_nat (strconv.leading_digits s))).
  { replace (19 - Z.of_nat (strconv.leading_digits s))
      with (Z.succ (19 - Z.of_nat (S (strconv.leading_digits s)))) by lia.
    rewrite Z.pow_succ_r by lia. lia. }
  assert (Hle : 10 ^ (19 - Z.of_nat (S (strconv.leading_digits s))) <= 10 ^ 18)
    by (apply Z.pow_le_mono_r; lia).
  change (10 ^ 18) with 1000000000000000000 in Hle.
  unfold strconv.maxUint64.
  change (2 ^ 64) with 18446744073709551616.
  change ((18446744073709551616 - 1) / 10 + 1) with 1844674407370955162.
  destruct (n >=? 1844674407370955162) eqn:E1; [lia|].
  cbv zeta.
  rewrite Z.mod_small by lia.
  destruct ((n * 10 + d <? n * 10) || (n * 10 + d >? 18446744073709551616 - 1)) eqn:E2;
    [lia|].
  apply IH; [exact Hall|lia|lia].
Qed.

(** A text that is not a decimal integer, with at most 19 digits before
    the first character that is not one, is a syntax error for [Atoi]. *)
Lemma Atoi_syntax_error (s : string) :
  strconv.numeric s = false ->
  (strconv.leading_digits (strconv.unsigned_part s) <= 19)%nat ->
  strconv.Atoi s = (0, Some (NumError "Atoi" s ErrSyntax)).
Proof.
  intros Hnum Hlen. unfold strconv.Atoi, strconv.ParseInt.
  destruct s as [|c s']; [reflexivity|].
  unfold strconv.numeric in Hnum. unfold strconv.unsigned_part in Hlen.
  cbv zeta in *.
  set (body := if (c =? "+")%char || (c =? "-")%char then s' else String c s') in *.
  assert (Eu : strconv.ParseUint body = (0, Some ErrSyntax)).
  { unfold strconv.ParseUint. destruct body as [|b body']; [reflexivity|].
    apply ParseUint_from_syntax; [exact Hnum|exact Hlen|].
    split; [lia|]. apply Z.pow_pos_nonneg; lia. }
  rewrite Eu. reflexivity.
Qed.

(** C10, as amended: with two factors or more, an answer that is not a
    decimal integer (an optional sign, then digits only) and has at most
    19 digits before its first character that is not a digit is not
    refused: [Atoi] reports a syntax error and returns 0, the error is
    dropped, and the first factor is returned, unless its [Id] is empty,
    when the result is [wrongMfaError].  The user is asked once. *)
Theorem selectTokenFactor_non_numeric_selects_first
  (status : string) (f0 f1 : OktaMfaFactor) (more : list OktaMfaFactor)
  (t : Tape) (answer : string) (perr : error) :
  tty_Prompt t 0%nat "Select your second factor: " = (answer, perr) ->
  strconv.numeric answer = false ->
  (strconv.leading_digits (strconv.unsigned_part answer) <= 19)%nat ->
  let r := selectTokenFactor
             {| Status := status; Embedded := {| Factors := f0 :: f1 :: more |} |}
             t in
  strconv.Atoi answer = (0, Some (NumError "Atoi" answer ErrSyntax))
  /\ outcome r
     = Returns (if (Id f0 =? EmptyString)%string
                then (None, Some wrongMfaError) else (Some f0, None))
  /\ prompts (events r) = [("Select your second factor: ", (answer, perr))].
Proof.
  intros Hans Hnum Hlen r. subst r.
  pose proof (Atoi_syntax_error answer Hnum Hlen) as Hatoi.
  split; [exact Hatoi|].
  edestruct (selectTokenFactor_many
              {| Status := status; Embedded := {| Factors := f0 :: f1 :: more |} |} t)
    as [menu [Hmenu E]].
  { unfold len. cbn [Factors Embedded length]. lia. }
  cbv zeta in E. rewrite E, Hans.
  cbn [fst outcome events Factors Embedded]. rewrite Hatoi. cbn [fst].
  assert (Hlen' : len (f0 :: f1 :: more) = 2 + len more)
    by (unfold len; cbn [length]; lia).
  assert (0 <= len more) by (unfold len; lia).
  destruct ((0 <=? 0) && (0 <? len (f0 :: f1 :: more))) eqn:Eb; [|lia].
  cbn [Z.to_nat nth_error]. split.
  - destruct (Id f0 =? EmptyString)%string; reflexivity.
  - unfold prompts. cbn [flat_map prompt_of app]. rewrite flat_map_app.
    rewrite (flat_map_unseen print_event prompt_of) by
      (assumption || (intros [] ?; cbn in *; congruence)).
    reflexivity.
Qed.

End Selection.

(** C1 on the sample: two factors, the user answers 5. *)
Lemma selectTokenFactor_out_of_range_panics_witness :
  outcome (selectTokenFactor
             (Sample.mfa_required [Sample.push; Sample.totp])
             (Sample.tape (Sample.mfa_required [Sample.push; Sample.totp])
                          (Sample.always "5") "123456"))
  = Panics (IndexOutOfRange 5 2).
Proof.
  apply (selectTokenFactor_out_of_range_panics
           (Sample.mfa_required [Sample.push; Sample.totp])
           (Sample.tape (Sample.mfa_required [Sample.push; Sample.totp])
                        (Sample.always "5") "123456")
           "5" None None 5).
  - vm_compute. discriminate.
  - reflexivity.
  - reflexivity.
  - right. vm_compute. discriminate.
Defined.

(** C10 on the sample: two factors, the user answers "abc". *)
Lemma selectTokenFactor_non_numeric_selects_first_witness :
  strconv.Atoi "abc" = (0, Some (NumError "Atoi" "abc" ErrSyntax))
  /\ outcome (selectTokenFactor
             (Sample.mfa_required [Sample.push; Sample.totp])
             (Sample.tape (Sample.mfa_required [Sample.push; Sample.totp])
                          (Sample.always "abc") "123456"))
  = Returns (Some Sample.push, None)
  /\ prompts (events (selectTokenFactor
             (Sample.mfa_required [Sample.push; Sample.totp])
             (Sample.tape (Sample.mfa_required [Sample.push; Sample.totp])
                          (Sample.always "abc") "123456")))
     = [("Select your second factor: ", ("abc", None))].
Proof.
  apply (selectTokenFactor_non_numeric_selects_first
           "MFA_REQUIRED" Sample.push Sample.totp []
           (Sample.tape (Sample.mfa_required [Sample.push; Sample.totp])
                        (Sample.always "abc") "123456")
           "abc" None).
  - reflexivity.
  - reflexivity.
  - vm_compute. lia.
Defined.

(** C10 as the claim has it fails on an answer that is not a number but
    starts with 20 digits: [Atoi] reports it out of range before it
    reaches the letter and returns the largest [int], and the indexing
    panics. *)
Lemma selectTokenFactor_non_numeric_selects_first_counterexample :
  let answer := "99999999999999999999x" in
  let r := selectTokenFactor
             (Sample.mfa_required [Sample.push; Sample.totp])
             (Sample.tape (Sample.mfa_required [Sample.push; Sample.totp])
                          (Sample.always answer) "123456") in
  strconv.numeric answer = false
  /\ strconv.Atoi answer
     = (9223372036854775807, Some (NumError "Atoi" answer ErrRange))
  /\ outcome r = Panics (IndexOutOfRange 9223372036854775807 2).
Proof. vm_compute. repeat split. Qed.

(** ** The MFA dialogue *)

(** The replies left on a tape after some calls, in terms of the tape
    the run started with. *)
Ltac shift :=
  cbn [after_doMfa after_Prompt after_PasswordPrompt after_login after_getSaml
       tty_Prompt tty_PasswordPrompt okta_login okta_doMfa okta_getSaml];
  unfold next.

(** A comparison of the retry counter with its bound. *)
Ltac decide_test :=
  match goal with
  | |- context [?a <? ?b] =>
      let v := eval vm_compute in (a <? b) in
      match v with
      | true => change (a <? b) with true
      | false => change (a <? b) with false
      end
  end.

Section Mfa.

Context `{Externals}.

Lemma readMfaToken_run (t : Tape) :
  readMfaToken t
  = mkRun (Returns (tty_Prompt t 0%nat "MFA token: "))
      [NewLiner; SetCtrlCAborts true;
       Println [VStr "Your account requires MFA; please enter a token."];
       Prompt "MFA token: " (tty_Prompt t 0%nat "MFA token: "); LinerClose]
      (after_Prompt t).
Proof. reflexivity. Qed.

Lemma doMfa_run (ores : OktaLoginResponse) (factor : OktaMfaFactor)
  (token : string) (t : Tape) :
  doMfa ores factor token t
  = mkRun (Returns (okta_doMfa t 0%nat ores factor token))
      [DoMfa ores factor token (okta_doMfa t 0%nat ores factor token)]
      (after_doMfa t).
Proof. reflexivity. Qed.

End Mfa.

(** One call of the MFA dialogue. *)
Ltac mfa_step :=
  first [ erewrite bind_returns by
            (first [ apply readMfaToken_run | apply doMfa_run | reflexivity ])
        | progress shift
        | decide_test
        | progress cbn beta iota ].

(** The cases of the next reply of the user or of the provider. *)
Ltac mfa_case :=
  match goal with
  | |- context [tty_Prompt ?t ?n ?m] =>
      destruct (tty_Prompt t n m) as [? [?|]]
  | |- context [okta_doMfa ?t ?n ?o ?f ?c] =>
      destruct (okta_doMfa t n o f c) as [? [?|]]
  end.

Section Totp.

Context `{Externals}.

(** First part of C3: whatever the user types and the provider answers,
    [startTotpMfa] makes at most two verification calls, and it ends. *)
Lemma startTotpMfa_at_most_two_attempts
  (ores : OktaLoginResponse) (factor : OktaMfaFactor) (t : Tape) :
  (length (verifications (events (startTotpMfa ores factor t))) <= 2)%nat
  /\ outcome (startTotpMfa ores factor t) <> OutOfFuel.
Proof.
  unfold startTotpMfa. cbn [TRYMFA].
  repeat (first [mfa_step | mfa_case]); normal_run; cbn; split;
    (lia || discriminate).
Qed.

(** Second part of C3: a wrong code and then a right one give the session
    token of the second verification, with no error. *)
Lemma startTotpMfa_second_code_accepted
  (ores : OktaLoginResponse) (factor : OktaMfaFactor) (t : Tape)
  (code1 code2 token1 sessionToken : string) (e1 : GoError) :
  tty_Prompt t 0%nat "MFA token: " = (code1, None) ->
  okta_doMfa t 0%nat ores factor code1 = (token1, Some e1) ->
  tty_Prompt t 1%nat "MFA token: " = (code2, None) ->
  okta_doMfa t 1%nat ores factor code2 = (sessionToken, None) ->
  let r := startTotpMfa ores factor t in
  outcome r = Returns (sessionToken, None)
  /\ verifications (events r)
     = [(code1, (token1, Some e1)); (code2, (sessionToken, None))].
Proof.
  intros P1 V1 P2 V2 r. subst r.
  unfold startTotpMfa. cbn [TRYMFA].
  erewrite bind_returns by apply readMfaToken_run. rewrite P1.
  repeat mfa_step. rewrite V1. repeat mfa_step. rewrite P2.
  repeat mfa_step. rewrite V2. repeat mfa_step.
  normal_run. split; reflexivity.
Qed.

(** C9: after two refused codes the user is asked a third time; the third
    answer is sent to no verification, and the result of [startTotpMfa]
    is the empty session token with the error of that third prompt: [nil]
    when the user typed something, the error of the prompt when the user
    interrupted it. *)
Theorem startTotpMfa_third_prompt_decides
  (ores : OktaLoginResponse) (factor : OktaMfaFactor) (t : Tape)
  (code1 code2 code3 token1 token2 : string) (e1 e2 : GoError) (err3 : error) :
  tty_Prompt t 0%nat "MFA token: " = (code1, None) ->
  okta_doMfa t 0%nat ores factor code1 = (token1, Some e1) ->
  tty_Prompt t 1%nat "MFA token: " = (code2, None) ->
  okta_doMfa t 1%nat ores factor code2 = (token2, Some e2) ->
  tty_Prompt t 2%nat "MFA token: " = (code3, err3) ->
  let r := startTotpMfa ores factor t in
  outcome r = Returns (EmptyString, err3)
  /\ prompts (events r)
     = [("MFA token: ", (code1, None)); ("MFA token: ", (code2, None));
        ("MFA token: ", (code3, err3))]
  /\ verifications (events r)
     = [(code1, (token1, Some e1)); (code2, (token2, Some e2))].
Proof.
  intros P1 V1 P2 V2 P3 r. subst r.
  unfold startTotpMfa. cbn [TRYMFA].
  erewrite bind_returns by apply readMfaToken_run. rewrite P1.
  repeat mfa_step. rewrite V1. repeat mfa_step. rewrite P2.
  repeat mfa_step. rewrite V2. repeat mfa_step. rewrite P3.
  repeat mfa_step.
  destruct err3 as [e3|]; repeat mfa_step; normal_run; repeat split.
Qed.

End Totp.

(** C3 on the sample: the provider accepts 123456, the user types 000000,
    then 111111, then anything.  Two verifications are made, three prompts
    are shown, and [startTotpMfa] returns the empty session token with a
    [nil] error. *)
Theorem startTotpMfa_two_wrong_codes_return_no_error :
  let r := startTotpMfa (Sample.mfa_required [Sample.totp]) Sample.totp
             (Sample.tape (Sample.mfa_required [Sample.totp])
                          (Sample.typing "000000" "111111" "222222") "123456") in
  outcome r = Returns (EmptyString, None)
  /\ verifications (events r)
     = [("000000", (EmptyString, Some (foreign "invalid passcode")));
        ("111111", (EmptyString, Some (foreign "invalid passcode")))]
  /\ map fst (map snd (prompts (events r))) = ["000000"; "111111"; "222222"].
Proof. vm_compute. repeat split. Qed.

(** C9 on the sample of C3. *)
Lemma startTotpMfa_third_prompt_decides_witness :
  let r := startTotpMfa (Sample.mfa_required [Sample.totp]) Sample.totp
             (Sample.tape (Sample.mfa_required [Sample.totp])
                          (Sample.typing "000000" "111111" "222222") "123456") in
  outcome r = Returns (EmptyString, None)
  /\ prompts (events r)
     = [("MFA token: ", ("000000", None)); ("MFA token: ", ("111111", None));
        ("MFA token: ", ("222222", None))]
  /\ verifications (events r)
     = [("000000", (EmptyString, Some (foreign "invalid passcode")));
        ("111111", (EmptyString, Some (foreign "invalid passcode")))].
Proof.
  apply (startTotpMfa_third_prompt_decides
           (Sample.mfa_required [Sample.totp]) Sample.totp
           (Sample.tape (Sample.mfa_required [Sample.totp])
                        (Sample.typing "000000" "111111" "222222") "123456")
           "000000" "111111" "222222" EmptyString EmptyString
           (foreign "invalid passcode") (foreign "invalid passcode") None);
    reflexivity.
Defined.

(** ** Push *)

Section Push.

Context `{Externals}.

Lemma flat_map_seq_shift {B : Type} (f : nat -> list B) (n : nat) :
  flat_map f (seq 1 n) = flat_map (fun k => f (S k)) (seq 0 n).
Proof.
  rewrite <- seq_shift. induction (seq 0 n) as [|k l IH]; cbn; [reflexivity|].
  rewrite IH. reflexivity.
Qed.

(** [n] rounds before the bound, none acknowledged. *)
Lemma TRYPUSH_never_acknowledged
  (ores : OktaLoginResponse) (factor : OktaMfaFactor) (n : nat) :
  forall (fuel : nat) (tries : Z) (err0 : error) (t : Tape),
  (n <= fuel)%nat ->
  tries = 15 - Z.of_nat n ->
  (forall k, (k < n)%nat -> snd (okta_doMfa t k ores factor "-") <> None) ->
  let last_err :=
    match n with
    | O => err0
    | S m => snd (okta_doMfa t m ores factor "-")
    end in
  outcome (TRYPUSH fuel ores factor tries err0 t) = Returns (EmptyString, last_err)
  /\ events (TRYPUSH fuel ores factor tries err0 t)
     = (flat_map (push_attempt ores factor t) (seq 0 n)
        ++ [Println [VStr "Error performing MFA auth!"];
            Debug "oktad:startPushMfa" "error from doMfa was %s"
              [VErr last_err]])%list.
Proof.
  induction n as [|n IH]; intros fuel tries err0 t Hfuel Htries Hnack last_err;
    subst last_err.
  - assert (Etest : (tries <? 15) = false) by (apply Z.ltb_ge; lia).
    destruct fuel; cbn [TRYPUSH]; rewrite Etest; steps; normal_run;
      split; reflexivity.
  - assert (Etest : (tries <? 15) = true) by (apply Z.ltb_lt; lia).
    destruct fuel as [|fuel]; [lia|].
    cbn [TRYPUSH]. rewrite Etest.
    erewrite bind_returns by apply doMfa_run.
    pose proof (Hnack 0%nat ltac:(lia)) as H0.
    destruct (okta_doMfa t 0%nat ores factor "-") as [token [e|]] eqn:E0;
      [|contradiction]. clear H0.
    cbn beta iota. steps.
    destruct (IH fuel (tries + 1) (Some e) (after_doMfa t)) as [IHo IHe].
    + lia.
    + lia.
    + intros k Hk. shift. apply Hnack. lia.
    + normal_run. rewrite IHo, IHe. cbn [seq flat_map].
      rewrite flat_map_seq_shift. unfold push_attempt at 2. rewrite E0.
      cbn [app]. split.
      * destruct n; [rewrite E0|]; reflexivity.
      * repeat f_equal. destruct n; [rewrite E0|]; reflexivity.
Qed.

(** Whatever the provider answers, [startPushMfa] ends, with at most
    [15 - tries] verification calls from [tries] on. *)
Lemma TRYPUSH_bounded (ores : OktaLoginResponse) (factor : OktaMfaFactor)
  (fuel : nat) :
  forall (tries : Z) (err0 : error) (t : Tape),
  15 - tries <= Z.of_nat fuel ->
  outcome (TRYPUSH fuel ores factor tries err0 t) <> OutOfFuel
  /\ Z.of_nat (length (verifications (events (TRYPUSH fuel ores factor tries err0 t))))
     <= Z.max 0 (15 - tries).
Proof.
  induction fuel as [|fuel IH]; intros tries err0 t Hfuel; cbn [TRYPUSH].
  - assert (Etest : (tries <? 15) = false) by (apply Z.ltb_ge; lia).
    rewrite Etest. steps. normal_run.
    cbn [verifications flat_map verification_of app length].
    split; [discriminate|lia].
  - destruct (tries <? 15) eqn:Etest.
    + apply Z.ltb_lt in Etest.
      erewrite bind_returns by apply doMfa_run.
      destruct (okta_doMfa t 0%nat ores factor "-") as [token [e|]].
      * cbn beta iota. steps.
        destruct (IH (tries + 1) (Some e) (after_doMfa t)) as [IHo IHv]; [lia|].
        normal_run. split; [exact IHo|].
        unfold verifications in *. cbn [flat_map verification_of app length].
        lia.
      * cbn beta iota. normal_run.
        cbn [verifications flat_map verification_of app length].
        split; [discriminate|lia].
    + steps. normal_run.
      cbn [verifications flat_map verification_of app length].
      split; [discriminate|lia].
Qed.

Lemma startPushMfa_at_most_15_attempts
  (ores : OktaLoginResponse) (factor : OktaMfaFactor) (t : Tape) :
  (length (verifications (events (startPushMfa ores factor t))) <= 15)%nat
  /\ outcome (startPushMfa ores factor t) <> OutOfFuel.
Proof.
  unfold startPushMfa.
  destruct (TRYPUSH_bounded ores factor 15 0 None t) as [Ho Hv]; [cbn; lia|].
  split; [lia|exact Ho].
Qed.

(** C4: when none of the first 15 verifications is acknowledged,
    [startPushMfa] makes exactly those 15 calls, each followed by a sleep
    of 2 seconds, then prints its failure and returns the empty session
    token with the (non-nil) error of the 15th verification.  The reply
    a 16th verification would get is never asked for. *)
Theorem startPushMfa_never_acknowledged
  (ores : OktaLoginResponse) (factor : OktaMfaFactor) (t : Tape) :
  (forall k, (k < 15)%nat -> snd (okta_doMfa t k ores factor "-") <> None) ->
  let r := startPushMfa ores factor t in
  let last_err := snd (okta_doMfa t 14%nat ores factor "-") in
  outcome r = Returns (EmptyString, last_err)
  /\ last_err <> None
  /\ events r
     = (flat_map (push_attempt ores factor t) (seq 0 15)
        ++ [Println [VStr "Error performing MFA auth!"];
            Debug "oktad:startPushMfa" "error from doMfa was %s"
              [VErr last_err]])%list
  /\ verifications (events r)
     = map (fun k => ("-", okta_doMfa t k ores factor "-")) (seq 0 15)
  /\ sleeps (events r) = repeat (2 * Second) 15.
Proof.
  intros Hnack r last_err. subst r last_err.
  destruct (TRYPUSH_never_acknowledged ores factor 15 15 0 None t)
    as [Ho He]; [lia|reflexivity|exact Hnack|].
  unfold startPushMfa. rewrite Ho, He.
  split; [reflexivity|]. split; [apply Hnack; lia|].
  split; [reflexivity|]. split; reflexivity.
Qed.

End Push.

(** C4 on the sample: the push is never acknowledged. *)
Lemma startPushMfa_never_acknowledged_witness :
  let t := Sample.tape (Sample.mfa_required [Sample.push])
                       (Sample.always EmptyString) "123456" in
  let r := startPushMfa (Sample.mfa_required [Sample.push]) Sample.push t in
  let last_err := Some (foreign "push not acknowledged") in
  outcome r = Returns (EmptyString, last_err)
  /\ last_err <> None
  /\ events r
     = (flat_map (push_attempt (Sample.mfa_required [Sample.push]) Sample.push t)
                 (seq 0 15)
        ++ [Println [VStr "Error performing MFA auth!"];
            Debug "oktad:startPushMfa" "error from doMfa was %s"
              [VErr last_err]])%list
  /\ verifications (events r)
     = map (fun k => ("-", (EmptyString, last_err))) (seq 0 15)
  /\ sleeps (events r) = repeat 2000000000 15.
Proof.
  apply (startPushMfa_never_acknowledged
           (Sample.mfa_required [Sample.push]) Sample.push
           (Sample.tape (Sample.mfa_required [Sample.push])
                        (Sample.always EmptyString) "123456")).
  intros k Hk. cbn. discriminate.
Defined.

(** ** Dispatch *)

Section Dispatch.

Context `{Externals}.

(** C2: for a factor that is neither "push" nor "token:software:totp",
    [startMfa] makes no call at all and returns the empty session token
    with a [nil] error: no branch of the dispatch sets an error. *)
Theorem startMfa_unsupported_factor_no_error
  (ores : OktaLoginResponse) (factor : OktaMfaFactor) (t : Tape) :
  FactorType factor <> "push" ->
  FactorType factor <> "token:software:totp" ->
  startMfa ores (Some factor) t = mkRun (Returns (EmptyString, None)) [] t.
Proof.
  intros Hpush Htotp. unfold startMfa, deref. step.
  apply String.eqb_neq in Hpush, Htotp. rewrite Hpush, Htotp.
  reflexivity.
Qed.

End Dispatch.

(** C2 on the sample: an SMS factor. *)
Lemma startMfa_unsupported_factor_no_error_witness :
  startMfa (Sample.mfa_required [Sample.sms]) (Some Sample.sms)
    (Sample.tape (Sample.mfa_required [Sample.sms])
                 (Sample.always EmptyString) "123456")
  = mkRun (Returns (EmptyString, None)) []
      (Sample.tape (Sample.mfa_required [Sample.sms])
                   (Sample.always EmptyString) "123456").
Proof.
  apply (startMfa_unsupported_factor_no_error
           (Sample.mfa_required [Sample.sms]) Sample.sms
           (Sample.tape (Sample.mfa_required [Sample.sms])
                        (Sample.always EmptyString) "123456"));
    vm_compute; discriminate.
Defined.

(** ** Classes of calls *)

Section Classes.
Context `{Externals}.
Variable P : Event -> bool.

Lemma emits_ret {A : Type} (a : A) : emits_only P (ret a).
Proof. intros t. reflexivity. Qed.

Lemma emits_panic {A : Type} (p : GoPanic) : emits_only P (@panic _ A p).
Proof. intros t. reflexivity. Qed.

Lemma emits_out_of_fuel {A : Type} : emits_only P (@out_of_fuel _ A).
Proof. intros t. reflexivity. Qed.

Lemma emits_emit (e : Event) : P e = true -> emits_only P (emit e).
Proof. intros He t. cbn. rewrite He. reflexivity. Qed.

Lemma emits_external {A : Type} (reply : A) (ev : A -> Event) :
  P (ev reply) = true -> emits_only P (external reply ev).
Proof. intros He t. cbn. rewrite He. reflexivity. Qed.

Lemma emits_bind {A B : Type} (m : M A) (k : A -> M B) :
  emits_only P m -> (forall a, emits_only P (k a)) -> emits_only P (bind m k).
Proof.
  intros Hm Hk t. unfold bind. specialize (Hm t).
  destruct (outcome (m t)) as [a| |]; cbn [events prepend]; try exact Hm.
  rewrite forallb_app, Hm. apply Hk.
Qed.

Lemma emits_defer {A : Type} (e : Event) (body : M A) :
  P e = true -> emits_only P body -> emits_only P (defer e body).
Proof.
  intros He Hbody t. unfold defer. cbn [events].
  rewrite forallb_app, (Hbody t). cbn. rewrite He. reflexivity.
Qed.

Lemma emits_li_Prompt (msg : string) :
  (forall reply, P (Prompt msg reply) = true) -> emits_only P (li_Prompt msg).
Proof. intros He t. cbn. rewrite He. reflexivity. Qed.

Lemma emits_li_PasswordPrompt (msg : string) :
  (forall reply, P (PasswordPrompt msg reply) = true) ->
  emits_only P (li_PasswordPrompt msg).
Proof. intros He t. cbn. rewrite He. reflexivity. Qed.

Lemma emits_login (cfg : OktaConfig) (user pass : string) :
  (forall reply, P (Login cfg user pass reply) = true) ->
  emits_only P (login cfg user pass).
Proof. intros He t. cbn. rewrite He. reflexivity. Qed.

Lemma emits_doMfa (ores : OktaLoginResponse) (f : OktaMfaFactor) (token : string) :
  (forall reply, P (DoMfa ores f token reply) = true) ->
  emits_only P (doMfa ores f token).
Proof. intros He t. cbn. rewrite He. reflexivity. Qed.

Lemma emits_getSaml (cfg : OktaConfig) (token : string) :
  (forall reply, P (GetSaml cfg token reply) = true) ->
  emits_only P (getSaml cfg token).
Proof. intros He t. cbn. rewrite He. reflexivity. Qed.

End Classes.

Lemma emits_weaken `{Externals} {A : Type} (P Q : Event -> bool) (m : M A) :
  (forall e, P e = true -> Q e = true) -> emits_only P m -> emits_only Q m.
Proof. intros HPQ Hm t. apply (forallb_weaken P Q HPQ), Hm. Qed.

Create HintDb emits.

(** [emits_only P m], by the structure of [m]. *)
Ltac emits :=
  cbv zeta;
  repeat first
    [ solve [eauto with emits]
    | apply emits_ret | apply emits_panic | apply emits_out_of_fuel
    | apply emits_emit; reflexivity
    | apply emits_external; reflexivity
    | apply emits_li_Prompt; intros; reflexivity
    | apply emits_li_PasswordPrompt; intros; reflexivity
    | apply emits_login; intros; reflexivity
    | apply emits_doMfa; intros; reflexivity
    | apply emits_getSaml; intros; reflexivity
    | apply emits_defer; [reflexivity|]
    | eapply emits_weaken;
        [|solve [eauto with emits]]; solve [intros []; cbn; congruence]
    | apply emits_bind; [|intros]
    | match goal with
      | |- emits_only _ (match ?x with _ => _ end) => destruct x
      end ].

(** ** A fresh login *)

Section Login.
Context `{Externals}.

Lemma emits_range_factors (factors : list OktaMfaFactor) :
  forall i, emits_only mfa_event (range_factors i factors).
Proof.
  induction factors as [|f more IH]; intros i; cbn [range_factors]; emits.
Qed.
#[local] Hint Resolve emits_range_factors : emits.

Lemma emits_index {A : Type} (P : Event -> bool) (l : list A) (i : Z) :
  emits_only P (index l i).
Proof. unfold index. emits. Qed.
#[local] Hint Resolve emits_index : emits.

Lemma emits_selectTokenFactor (ores : OktaLoginResponse) :
  emits_only mfa_event (selectTokenFactor ores).
Proof. unfold selectTokenFactor, fmt_Println, fmt_Printf, debug. emits. Qed.

Lemma emits_readMfaToken : emits_only mfa_event readMfaToken.
Proof. unfold readMfaToken, fmt_Println. emits. Qed.
#[local] Hint Resolve emits_readMfaToken : emits.

Lemma emits_TRYPUSH (ores : OktaLoginResponse) (f : OktaMfaFactor) (fuel : nat) :
  forall tries err, emits_only mfa_event (TRYPUSH fuel ores f tries err).
Proof.
  induction fuel as [|fuel IH]; intros tries err; cbn [TRYPUSH];
    unfold fmt_Println, debug, time_Sleep; emits.
Qed.

Lemma emits_TRYMFA (ores : OktaLoginResponse) (f : OktaMfaFactor) (fuel : nat) :
  forall tries, emits_only mfa_event (TRYMFA fuel ores f tries).
Proof.
  induction fuel as [|fuel IH]; intros tries; cbn [TRYMFA];
    unfold fmt_Println, debug; emits.
Qed.

#[local] Hint Resolve emits_TRYPUSH emits_TRYMFA : emits.

Lemma emits_startMfa (ores : OktaLoginResponse) (factor : option OktaMfaFactor) :
  emits_only mfa_event (startMfa ores factor).
Proof.
  unfold startMfa, startPushMfa, startTotpMfa, deref. emits.
Qed.
#[local] Hint Resolve emits_selectTokenFactor emits_startMfa : emits.

(** The run of [readUserPass]. *)
Lemma readUserPass_run (t : Tape) :
  readUserPass t =
  let u := tty_Prompt t 0%nat "Username: " in
  match snd u with
  | Some _ =>
      mkRun (Returns (fst u, EmptyString, snd u))
        [NewLiner; SetCtrlCAborts true; Prompt "Username: " u; LinerClose]
        (after_Prompt t)
  | None =>
      let p := tty_PasswordPrompt t 0%nat "Password: " in
      mkRun (Returns (fst u, fst p, snd p))
        [NewLiner; SetCtrlCAborts true; Prompt "Username: " u;
         PasswordPrompt "Password: " p; LinerClose]
        (after_PasswordPrompt (after_Prompt t))
  end.
Proof.
  cbv zeta. unfold readUserPass, defer. steps.
  destruct (tty_Prompt t 0%nat "Username: ") as [user [e|]] eqn:Eu; cbn [fst snd].
  - steps. normal_run. reflexivity.
  - steps. shift.
    destruct (tty_PasswordPrompt t 0%nat "Password: ") as [pass [e|]];
      steps; normal_run; reflexivity.
Qed.

(** [getSessionFromLogin] opens the terminal and asks for the user name;
    nothing after that asks for it again. *)
Lemma getSessionFromLogin_shape (cfg : OktaConfig) (t : Tape) :
  exists evs : list Event,
    events (getSessionFromLogin cfg t)
    = NewLiner :: SetCtrlCAborts true
      :: Prompt "Username: " (tty_Prompt t 0%nat "Username: ") :: evs
    /\ forallb after_username evs = true.
Proof.
  unfold getSessionFromLogin. cbv zeta.
  pose proof (readUserPass_run t) as Er. cbv zeta in Er.
  destruct (tty_Prompt t 0%nat "Username: ") as [user [e|]]; cbn [fst snd] in Er.
  - step. steps. normal_run. eexists. split; reflexivity.
  - destruct (tty_PasswordPrompt t 0%nat "Password: ") as [pass perr];
      cbn [fst snd] in Er.
    step. normal_run.
    match goal with
    | |- context [events (?k ?t')] =>
        assert (Hk : emits_only after_username k)
    end.
    { unfold fmt_Println, debug, deref. emits. }
    eexists. split; [reflexivity|].
    cbn [forallb]. rewrite Hk. reflexivity.
Qed.

End Login.

#[export] Hint Resolve emits_range_factors emits_index emits_readMfaToken
  emits_TRYPUSH emits_TRYMFA emits_selectTokenFactor emits_startMfa : emits.

(** ** Termination *)

Section Termination.
Context `{Externals}.

Lemma terminates_ret {A : Type} (a : A) : terminates (ret a).
Proof. intros t. discriminate. Qed.

Lemma terminates_panic {A : Type} (p : GoPanic) : terminates (@panic _ A p).
Proof. intros t. discriminate. Qed.

Lemma terminates_emit (e : Event) : terminates (emit e).
Proof. intros t. discriminate. Qed.

Lemma terminates_external {A : Type} (reply : A) (ev : A -> Event) :
  terminates (external reply ev).
Proof. intros t. discriminate. Qed.

Lemma terminates_bind {A B : Type} (m : M A) (k : A -> M B) :
  terminates m -> (forall a, terminates (k a)) -> terminates (bind m k).
Proof.
  intros Hm Hk t. unfold bind. specialize (Hm t).
  destruct (outcome (m t)) as [a| |]; cbn [outcome prepend];
    [apply Hk|discriminate|contradiction].
Qed.

Lemma terminates_defer {A : Type} (e : Event) (body : M A) :
  terminates body -> terminates (defer e body).
Proof. intros Hbody t. unfold defer. cbn [outcome]. apply Hbody. Qed.

Lemma terminates_li_Prompt (msg : string) : terminates (li_Prompt msg).
Proof. intros t. discriminate. Qed.

Lemma terminates_li_PasswordPrompt (msg : string) :
  terminates (li_PasswordPrompt msg).
Proof. intros t. discriminate. Qed.

Lemma terminates_login (cfg : OktaConfig) (user pass : string) :
  terminates (login cfg user pass).
Proof. intros t. discriminate. Qed.

Lemma terminates_getSaml (cfg : OktaConfig) (token : string) :
  terminates (getSaml cfg token).
Proof. intros t. discriminate. Qed.

Lemma terminates_startPushMfa (ores : OktaLoginResponse) (f : OktaMfaFactor) :
  terminates (startPushMfa ores f).
Proof. intros t. apply startPushMfa_at_most_15_attempts. Qed.

Lemma terminates_startTotpMfa (ores : OktaLoginResponse) (f : OktaMfaFactor) :
  terminates (startTotpMfa ores f).
Proof. intros t. apply startTotpMfa_at_most_two_attempts. Qed.

Lemma terminates_range_factors (factors : list OktaMfaFactor) (i : Z) :
  terminates (range_factors i factors).
Proof.
  intros t. destruct (range_factors_run factors i t) as [menu [E _]].
  rewrite E. discriminate.
Qed.

End Termination.

Create HintDb terminates.
#[export] Hint Resolve terminates_startPushMfa terminates_startTotpMfa
  terminates_range_factors : terminates.

(** [terminates m], by the structure of [m]. *)
Ltac terminating :=
  cbv zeta;
  repeat first
    [ solve [eauto with terminates]
    | apply terminates_ret | apply terminates_panic
    | apply terminates_emit | apply terminates_external
    | apply terminates_li_Prompt | apply terminates_li_PasswordPrompt
    | apply terminates_login | apply terminates_getSaml
    | apply terminates_defer
    | apply terminates_bind; [|intros]
    | match goal with
      | |- terminates (match ?x with _ => _ end) => destruct x
      end ].

Section Totality.
Context `{Externals}.

Lemma terminates_selectTokenFactor (ores : OktaLoginResponse) :
  terminates (selectTokenFactor ores).
Proof. unfold selectTokenFactor, index, debug. terminating. Qed.

Lemma terminates_startMfa (ores : OktaLoginResponse) (f : option OktaMfaFactor) :
  terminates (startMfa ores f).
Proof. unfold startMfa, deref. terminating. Qed.

#[local] Hint Resolve terminates_selectTokenFactor terminates_startMfa : terminates.

Lemma terminates_getSessionFromLogin (cfg : OktaConfig) :
  terminates (getSessionFromLogin cfg).
Proof.
  unfold getSessionFromLogin, readUserPass, fmt_Println, debug, deref.
  terminating.
Qed.

#[local] Hint Resolve terminates_getSessionFromLogin : terminates.

Lemma terminates_main_federation (sys : System) (cfg : OktaConfig) :
  terminates (main_federation sys cfg).
Proof.
  unfold main_federation, fmt_Println, debug, fallthrough, return_.
  terminating.
Qed.

Lemma terminates_main_roles
  (sys : System) (opts : Options) (acfg : AwsConfig) (skip : bool)
  (profile : string) (args : list string) (saml : option OktaSamlResponse) :
  terminates (main_roles sys opts acfg skip profile args saml).
Proof.
  unfold main_roles, fmt_Println, debug, fallthrough, return_. terminating.
Qed.

#[local] Hint Resolve terminates_main_federation terminates_main_roles : terminates.

(** [main] never runs out of fuel: the bounds of the two retry loops are
    enough fuel for them. *)
Lemma main_terminates (sys : System) : terminates (main sys).
Proof.
  unfold main, fmt_Println, fmt_Printf, debug, fallthrough, return_.
  terminating.
Qed.
End Totality.

(** ** The login flow *)

Section LoginFlow.

Context `{Externals}.

(** C7: when the user gives a name and a password and the login call
    answers, without error, with a status other than "MFA_REQUIRED",
    [getSessionFromLogin] returns the empty session token with the error
    "MFA required to use this tool"; it makes no call after the login:
    no factor is selected and no verification is tried. *)
Theorem getSessionFromLogin_requires_mfa
  (cfg : OktaConfig) (t : Tape) (user pass : string) (ores : OktaLoginResponse) :
  tty_Prompt t 0%nat "Username: " = (user, None) ->
  tty_PasswordPrompt t 0%nat "Password: " = (pass, None) ->
  user <> EmptyString -> pass <> EmptyString ->
  okta_login t 0%nat cfg user pass = (Some ores, None) ->
  Status ores <> "MFA_REQUIRED" ->
  let r := getSessionFromLogin cfg t in
  outcome r = Returns (EmptyString, Some (errors_New "MFA required to use this tool"))
  /\ events r
     = [NewLiner; SetCtrlCAborts true; Prompt "Username: " (user, None);
        PasswordPrompt "Password: " (pass, None); LinerClose;
        Login cfg user pass (Some ores, None)].
Proof.
  intros Huser Hpass Hu Hp Hlogin Hstatus r. subst r.
  unfold getSessionFromLogin. cbv zeta.
  pose proof (readUserPass_run t) as Er. cbv zeta in Er.
  rewrite Huser, Hpass in Er. cbn [fst snd] in Er.
  step. cbn beta iota.
  apply String.eqb_neq in Hu, Hp, Hstatus. rewrite Hu, Hp. cbn [orb].
  unfold login. step. shift. rewrite Hlogin. cbn beta iota.
  unfold deref. step. rewrite Hstatus. cbn [negb].
  normal_run. split; reflexivity.
Qed.

(** [getSessionFromLogin] asks for the user name once. *)
Lemma fresh_logins_after_username (evs : list Event) :
  forallb after_username evs = true -> fresh_logins evs = 0%nat.
Proof.
  intros Hall. unfold fresh_logins.
  rewrite (flat_map_unseen after_username username_prompt_of); [reflexivity| |exact Hall].
  intros e He. unfold after_username in He. apply andb_true_iff in He.
  destruct He as [_ He]. apply negb_true_iff in He.
  destruct e; try reflexivity. cbn in *. rewrite He. reflexivity.
Qed.

Lemma getSessionFromLogin_one_login (cfg : OktaConfig) (t : Tape) :
  fresh_logins (events (getSessionFromLogin cfg t)) = 1%nat.
Proof.
  destruct (getSessionFromLogin_shape cfg t) as [evs [E Hevs]].
  pose proof (fresh_logins_after_username evs Hevs) as H0.
  unfold fresh_logins in *. rewrite E.
  cbn [flat_map username_prompt_of app].
  change (("Username: " =? "Username: ")%string) with true.
  cbn [app length]. rewrite H0. reflexivity.
Qed.

Lemma emits_getSessionFromLogin (cfg : OktaConfig) :
  emits_only login_event (getSessionFromLogin cfg).
Proof.
  intros t. destruct (getSessionFromLogin_shape cfg t) as [evs [E Hevs]].
  rewrite E. cbn [forallb login_event mfa_event andb].
  apply (forallb_weaken after_username login_event); [|exact Hevs].
  intros e He. unfold after_username in He. apply andb_true_iff in He. tauto.
Qed.

End LoginFlow.

(** ** [main] *)

Section Main.

Context `{Externals}.

(** [main_roles] starts with [assumeFirstRole] on the assertion it is
    given; what follows is printing, the second role, the stores and the
    launch. *)
Lemma main_roles_shape
  (sys : System) (opts : Options) (acfg : AwsConfig) (skip : bool)
  (profile : string) (args : list string) (saml : option OktaSamlResponse)
  (t : Tape) :
  exists evs : list Event,
    main_roles sys opts acfg skip profile args saml t
    = mkRun (Returns tt)
        (AssumeFirstRole acfg saml (sts_assumeFirstRole sys acfg saml) :: evs) t
    /\ forallb after_base_role evs = true.
Proof.
  unfold main_roles, fmt_Println, debug, fallthrough, return_. cbv zeta.
  step'. destruct (sts_assumeFirstRole sys acfg saml) as [[mainCreds mExp] [e|]];
    [steps'; normal_run; eexists; split; reflexivity|].
  steps'.
  destruct skip; cbn [negb]; steps';
    [|destruct (sts_assumeDestinationRole sys acfg mainCreds)
        as [[finalCreds fExp] [e|]]; steps';
      [normal_run; eexists; split; reflexivity|]];
    repeat match goal with
    | |- context [match ?x with Some _ => _ | None => _ end] =>
        destruct x; steps'
    end; normal_run; eexists; split; reflexivity.
Qed.

Local Opaque getSessionFromLogin.

(** The federation stage assumes no role, stores nothing and launches
    nothing. *)
Lemma emits_main_federation (sys : System) (cfg : OktaConfig) :
  emits_only before_roles (main_federation sys cfg).
Proof.
  pose proof (emits_getSessionFromLogin cfg) as Hlogin.
  unfold main_federation, fmt_Println, debug, fallthrough, return_. emits.
Qed.

(** [main_roles] when the second role is skipped. *)
Lemma main_roles_skipping
  (sys : System) (opts : Options) (acfg : AwsConfig)
  (profile : string) (args : list string) (saml : option OktaSamlResponse)
  (t : Tape) :
  let reply := sts_assumeFirstRole sys acfg saml in
  let evs := events (main_roles sys opts acfg true profile args saml t) in
  let final_profile :=
    if negb (ProfileName opts =? EmptyString)%string
    then ProfileName opts else profile in
  destination_roles evs = []
  /\ base_roles evs = [reply]
  /\ match snd reply with
     | None =>
         stored_aws evs = [(final_profile, fst (fst reply))]
         /\ stored evs = [(final_profile, fst (fst reply), snd (fst reply))]
         /\ launched evs = [(args, fst (fst reply))]
     | Some _ => stored_aws evs = [] /\ stored evs = [] /\ launched evs = []
     end.
Proof.
  cbv zeta.
  unfold main_roles, fmt_Println, debug, fallthrough, return_. cbv zeta.
  step'. destruct (sts_assumeFirstRole sys acfg saml) as [[mainCreds mExp] [e|]];
    cbn [fst snd negb]; steps';
    repeat match goal with
    | |- context [match ?x with Some _ => _ | None => _ end] =>
        destruct x; steps'
    end; normal_run; repeat split.
Qed.

Lemma exchanges_login_events (evs : list Event) :
  forallb login_event evs = true -> exchanges evs = [].
Proof.
  intros Hall. unfold exchanges.
  apply (flat_map_unseen login_event exchange_of); [|exact Hall].
  intros e He; destruct e; cbn in He |- *; congruence.
Qed.

Lemma ends_with_refl (s : list Event) : ends_with s s.
Proof. exists []. reflexivity. Qed.

Lemma ends_with_cons (e : Event) (l s : list Event) :
  ends_with l s -> ends_with (e :: l) s.
Proof. intros [b E]. exists (e :: b). rewrite E. reflexivity. Qed.

Lemma ends_with_app (l' l s : list Event) :
  ends_with l s -> ends_with (l' ++ l) s.
Proof. intros [b E]. exists (l' ++ b)%list. rewrite E, app_assoc. reflexivity. Qed.


(** What the observers see of an explicit trace. *)
Ltac reading :=
  unfold base_roles, destination_roles, stored_aws, stored, launched,
    exchanges, assertions_fed, fresh_logins in *;
  repeat first
    [ rewrite flat_map_app
    | progress cbn [flat_map app base_role_of destination_role_of stored_aws_of
                    stored_of launched_of exchange_of fed_of username_prompt_of] ].




Local Opaque main_federation main_roles.

(** With no cached credentials used and the keychain open, [main] gets
    to the federation stage, and then to [main_roles] when that stage
    falls through. *)
Lemma main_to_federation
  (sys : System) (t : Tape) (opts : Options) (args0 : string)
  (args : list string) (cfg : OktaConfig) (acfg : AwsConfig) (perr : error) :
  flags_Parse sys = (opts, args0 :: args, None) ->
  PrintVersion opts = false ->
  sys_parseConfig sys (ConfigFile opts) = (cfg, None) ->
  sys_readAwsProfile sys ("profile " ++ args0) = (acfg, perr) ->
  let skip := is_awsProfileNotFound perr in
  let profile := if skip then BASE_PROFILE_CREDS else args0 in
  let args' := if skip then BASE_PROFILE_CREDS :: args0 :: args else args0 :: args in
  ForceNewCredentials opts = true \/ snd (sys_loadCreds sys profile) <> None ->
  keytar_GetKeychain sys = None ->
  exists prelude : list Event,
    forallb prelude_event prelude = true
    /\ main sys t
       = prepend prelude
           (bind (main_federation sys cfg)
              (fun o => match o with
                        | Some saml => main_roles sys opts acfg skip profile args' saml
                        | None => ret tt
                        end) t).
Proof.
  intros Hflags Hversion Hconfig Hprofile skip profile args' Hmiss Hkeychain.
  subst skip profile args'.
  assert (Hload :
    ForceNewCredentials opts = false ->
    exists maybeCreds e,
      sys_loadCreds sys
        (if is_awsProfileNotFound perr then BASE_PROFILE_CREDS else args0)
      = (maybeCreds, Some e)).
  { intros Hf. destruct Hmiss as [Hmiss|Hmiss]; [congruence|].
    destruct (sys_loadCreds sys _) as [c [e|]]; [eauto|].
    contradiction Hmiss; reflexivity. }
  destruct (ForceNewCredentials opts) eqn:Eforce;
    [|destruct (Hload eq_refl) as [maybeCreds [e Eload]]];
    destruct perr as [[]|]; cbn [is_awsProfileNotFound] in *;
    eexists;
    (split;
    [ | unfold main, fmt_Println, fmt_Printf, debug, fallthrough; cbv zeta;
      step'; rewrite Hflags; cbn beta iota; rewrite Hversion;
      step'; step'; rewrite Hconfig; cbn beta iota;
      step'; rewrite Hprofile; cbn beta iota;
      steps'; rewrite ?Eforce; cbn [negb is_awsProfileNotFound];
      steps'; rewrite ?Eload; cbn beta iota;
      steps'; rewrite Hkeychain; steps';
      rewrite !prepend_prepend; cbn [app]; reflexivity ]);
    reflexivity.
Qed.

(** [main] up to the federation stage, with the replies given by the
    hypotheses. *)
Ltac main_run :=
  unfold main, fmt_Println, fmt_Printf, debug, fallthrough, return_; cbv zeta;
  step';
  match goal with Hflags : flags_Parse _ = _ |- _ => rewrite Hflags end;
  cbn beta iota;
  match goal with Hversion : PrintVersion _ = _ |- _ => rewrite Hversion end;
  step'; step';
  match goal with Hconfig : sys_parseConfig _ _ = _ |- _ => rewrite Hconfig end;
  cbn beta iota; step';
  match goal with Hprofile : sys_readAwsProfile _ _ = _ |- _ => rewrite Hprofile end;
  cbn beta iota; cbn [is_awsProfileNotFound];
  repeat first
    [ step'
    | match goal with
      | E : ForceNewCredentials _ = _ |- _ => rewrite E; cbn [negb]
      | E : sys_loadCreds _ _ = _ |- _ => rewrite E
      | E : sys_prepAndLaunch _ _ _ = _ |- _ => rewrite E
      | E : keytar_GetKeychain _ = _ |- _ => rewrite E
      end ].

(** When the profile is not found, [main] either ends before the
    federation stage or goes through it with [skipSecondRole] set. *)
Lemma main_skip_ends_early_or_federates
  (sys : System) (t : Tape) (opts : Options) (args0 : string)
  (args : list string) (cfg : OktaConfig) (acfg : AwsConfig) :
  flags_Parse sys = (opts, args0 :: args, None) ->
  PrintVersion opts = false ->
  sys_parseConfig sys (ConfigFile opts) = (cfg, None) ->
  sys_readAwsProfile sys ("profile " ++ args0) = (acfg, Some awsProfileNotFound) ->
  exists prelude : list Event,
    (forallb early_event prelude = true
     /\ main sys t = mkRun (Returns tt) prelude t)
    \/
    (forallb prelude_event prelude = true
     /\ main sys t
        = prepend prelude
            (bind (main_federation sys cfg)
               (fun o => match o with
                         | Some saml =>
                             main_roles sys opts acfg true BASE_PROFILE_CREDS
                               (BASE_PROFILE_CREDS :: args0 :: args) saml
                         | None => ret tt
                         end) t)).
Proof.
  intros Hflags Hversion Hconfig Hprofile.
  destruct (ForceNewCredentials opts) eqn:Eforce;
    [|destruct (sys_loadCreds sys BASE_PROFILE_CREDS)
        as [maybeCreds [le|]] eqn:Eload;
      [|destruct (sys_prepAndLaunch sys (BASE_PROFILE_CREDS :: args0 :: args)
                   maybeCreds) as [pe|] eqn:Elaunch]];
    try (destruct (keytar_GetKeychain sys) as [ke|] eqn:Ekey);
    eexists;
    (first [ left; (split; [|main_run; normal_run; reflexivity]); reflexivity
           | right;
             (split; [|main_run; rewrite !prepend_prepend; cbn [app]; reflexivity]);
             reflexivity ]).
Qed.

(** Drops the parts of a trace an observer sees nothing of. *)
Ltac unseen :=
  repeat match goal with
  | Hall : forallb ?P ?tr = true |- context [flat_map ?f ?tr] =>
      rewrite (flat_map_unseen P f
                 ltac:(let e := fresh in let He := fresh in
                       intros e He; destruct e; cbn in He |- *; congruence)
                 tr Hall)
  end.

(** C5: in a run where the profile lookup answers [awsProfileNotFound]
    (so [skipSecondRole] is set), [assumeDestinationRole] is never
    called; and when [assumeFirstRole] succeeds, [storeCredsAws],
    [storeCreds] and [prepAndLaunch] are each called once, with the
    credentials [assumeFirstRole] returned, and [storeCreds] with the
    expiry it returned.  When [assumeFirstRole] is not reached or fails,
    nothing is stored. *)
Theorem main_skips_second_role
  (sys : System) (t : Tape) (opts : Options) (args0 : string)
  (args : list string) (cfg : OktaConfig) (acfg : AwsConfig) :
  flags_Parse sys = (opts, args0 :: args, None) ->
  PrintVersion opts = false ->
  sys_parseConfig sys (ConfigFile opts) = (cfg, None) ->
  sys_readAwsProfile sys ("profile " ++ args0) = (acfg, Some awsProfileNotFound) ->
  let tr := events (main sys t) in
  let profile :=
    if negb (ProfileName opts =? EmptyString)%string
    then ProfileName opts else BASE_PROFILE_CREDS in
  destination_roles tr = []
  /\ match base_roles tr with
     | [] => stored_aws tr = [] /\ stored tr = []
     | [(mainCreds, mExp, None)] =>
         stored_aws tr = [(profile, mainCreds)]
         /\ stored tr = [(profile, mainCreds, mExp)]
         /\ launched tr = [(BASE_PROFILE_CREDS :: args0 :: args, mainCreds)]
     | [(_, _, Some _)] =>
         stored_aws tr = [] /\ stored tr = [] /\ launched tr = []
     | _ => False
     end.
Proof.
  intros Hflags Hversion Hconfig Hprofile tr profile. subst tr profile.
  destruct (main_skip_ends_early_or_federates sys t opts args0 args cfg acfg
              Hflags Hversion Hconfig Hprofile)
    as [prelude [[Hearly Emain]|[Hprelude Emain]]]; rewrite Emain; clear Emain.
  - cbn [events]. reading. unseen. repeat split.
  - pose proof (emits_main_federation sys cfg t) as Hfed.
    unfold bind.
    destruct (main_federation sys cfg t) as [[[saml|]| |] evs t'];
      cbn [outcome events rest prepend] in *.
    + pose proof (main_roles_skipping sys opts acfg BASE_PROFILE_CREDS
                    (BASE_PROFILE_CREDS :: args0 :: args) saml t') as Hroles.
      cbv zeta in Hroles.
      destruct Hroles as [Hd [Hb Hs]].
      reading. unseen. cbn [app]. rewrite Hd, Hb.
      split; [reflexivity|].
      destruct (sts_assumeFirstRole sys acfg saml) as [[mainCreds mExp] [e|]];
        cbn [fst snd] in *; destruct Hs as [Hs1 [Hs2 Hs3]];
        rewrite Hs1, Hs2, Hs3; repeat split.
    + reading. unseen. repeat split.
    + reading. unseen. repeat split.
    + reading. unseen. repeat split.
Qed.

(** What the trace of [main] shows of the federation stage. *)
Lemma main_trace_through_federation
  (sys : System) (t : Tape) (opts : Options) (args0 : string)
  (args : list string) (cfg : OktaConfig) (acfg : AwsConfig) (perr : error) :
  flags_Parse sys = (opts, args0 :: args, None) ->
  PrintVersion opts = false ->
  sys_parseConfig sys (ConfigFile opts) = (cfg, None) ->
  sys_readAwsProfile sys ("profile " ++ args0) = (acfg, perr) ->
  ForceNewCredentials opts = true
  \/ snd (sys_loadCreds sys
            (if is_awsProfileNotFound perr then BASE_PROFILE_CREDS else args0))
     <> None ->
  keytar_GetKeychain sys = None ->
  let r := main_federation sys cfg t in
  let tr := events (main sys t) in
  exchanges tr = exchanges (events r)
  /\ fresh_logins tr = fresh_logins (events r)
  /\ assertions_fed tr
     = match outcome r with
       | Returns (Some saml) => [saml]
       | _ => []
       end
  /\ (outcome r = Returns None ->
      forall s, ends_with (events r) s -> ends_with tr s).
Proof.
  intros Hflags Hversion Hconfig Hprofile Hmiss Hkeychain r tr. subst r tr.
  destruct (main_to_federation sys t opts args0 args cfg acfg perr
              Hflags Hversion Hconfig Hprofile Hmiss Hkeychain)
    as [prelude [Hprelude Emain]].
  rewrite Emain. clear Emain.
  pose proof (emits_main_federation sys cfg t) as Hfed.
  unfold bind.
  destruct (main_federation sys cfg t) as [[[saml|]| |] evs t'];
    cbn [outcome events rest prepend] in *.
  - match goal with
    | |- context [main_roles ?s ?o ?a ?k ?p ?g saml t'] =>
        destruct (main_roles_shape s o a k p g saml t') as [tail [Eroles Htail]]
    end.
    rewrite Eroles. cbn [events].
    reading. unseen. cbn [app]. rewrite ?app_nil_r.
    repeat split. intros; discriminate.
  - reading. unseen. cbn [app]. rewrite ?app_nil_r.
    repeat split. intros _ s Hs. apply ends_with_app. exact Hs.
  - reading. unseen. cbn [app]. rewrite ?app_nil_r.
    repeat split. intros; discriminate.
  - reading. unseen. cbn [app]. rewrite ?app_nil_r.
    repeat split. intros; discriminate.
Qed.

End Main.

(** C7 on the sample: the login answers with the status "SUCCESS". *)
Lemma getSessionFromLogin_requires_mfa_witness :
  let r := getSessionFromLogin (H := Sample.externals) "config"
             (Sample.tape Sample.bare_success (Sample.always "alice") "123456") in
  outcome r
  = Returns (EmptyString, Some (errors_New "MFA required to use this tool"))
  /\ events r
     = [NewLiner; SetCtrlCAborts true; Prompt "Username: " ("alice", None);
        PasswordPrompt "Password: " ("hunter2", None); LinerClose;
        @Login Sample.externals "config" "alice" "hunter2"
          (Some Sample.bare_success, None)].
Proof.
  apply (getSessionFromLogin_requires_mfa (H := Sample.externals) "config"
           (Sample.tape Sample.bare_success (Sample.always "alice") "123456")
           "alice" "hunter2" Sample.bare_success);
    first [ reflexivity | discriminate ].
Defined.

(** C5 on the sample: no profile named "prod", a live cookie in the
    keychain. *)
Lemma main_skips_second_role_witness :
  let tr := events (main (Sample.system "live" (Some awsProfileNotFound))
                         (Sample.tape (Sample.mfa_required [Sample.totp])
                                      (Sample.always "123456") "123456")) in
  destination_roles tr = []
  /\ stored_aws tr = [("base", "base-credentials")]
  /\ stored tr = [("base", "base-credentials", 100)]
  /\ launched tr = [(["base"; "prod"; "aws"; "s3"; "ls"], "base-credentials")].
Proof.
  apply (main_skips_second_role
           (Sample.system "live" (Some awsProfileNotFound))
           (Sample.tape (Sample.mfa_required [Sample.totp])
                        (Sample.always "123456") "123456")
           Sample.options "prod" ["aws"; "s3"; "ls"] "config" "account");
    reflexivity.
Defined.



(** * Further properties *)

(** ** More on factor selection *)

Section Menu.

Context `{Externals}.

(** The positions of the factors of a kind the menu shows. *)
Lemma filter_seq_shift (f : OktaMfaFactor) (more : list OktaMfaFactor) (n : nat) :
  filter (fun k => match nth_error (f :: more) k with
                   | Some g => listed_kind g
                   | None => false
                   end) (seq 1 n)
  = map S (filter (fun k => match nth_error more k with
                            | Some g => listed_kind g
                            | None => false
                            end) (seq 0 n)).
Proof.
  rewrite <- seq_shift. induction (seq 0 n) as [|k l IH]; [reflexivity|].
  cbn [map filter nth_error]. rewrite IH.
  destruct (nth_error more k) as [g|]; [destruct (listed_kind g)|]; reflexivity.
Qed.

Lemma range_factors_listed (factors : list OktaMfaFactor) :
  forall (i : Z) (t : Tape),
  listed (events (range_factors i factors t))
  = map (fun k => i + Z.of_nat k)
      (filter (fun k => match nth_error factors k with
                        | Some f => listed_kind f
                        | None => false
                        end) (seq 0 (length factors))).
Proof.
  induction factors as [|f more IH]; intros i t; [reflexivity|].
  cbn [length seq filter]. rewrite filter_seq_shift. cbn [nth_error].
  specialize (IH (i + 1) t).
  destruct (range_factors_run more (i + 1) t) as [menu [E _]].
  rewrite E in IH. cbn [events] in IH.
  cbn [range_factors]. unfold listed_kind at 1, fmt_Printf.
  destruct (FactorType f =? "push")%string eqn:Epush;
    [apply String.eqb_eq in Epush; rewrite Epush;
     cbn [String.eqb Ascii.eqb Bool.eqb orb]
    |destruct (FactorType f =? "token:software:totp")%string;
     [destruct (Provider f =? "GOOGLE")%string|]];
    cbn [orb]; steps; rewrite E; normal_run; unfold listed in *;
    cbn [flat_map listed_of app map]; rewrite map_map, IH;
    try (f_equal; [f_equal; lia|]); apply map_ext; intros k; lia.
Qed.

(** X2: with two factors or more, the menu [selectTokenFactor] prints has
    one line for each factor of kind "push" or "token:software:totp", in
    the order of the list, and the number on the line is the position of
    the factor in the list: the number that selects it.  Factors of other
    kinds are not shown. *)
Theorem selectTokenFactor_menu_shows_positions
  (ores : OktaLoginResponse) (t : Tape) :
  2 <= len (Factors (Embedded ores)) ->
  listed (events (selectTokenFactor ores t))
  = map Z.of_nat
      (filter (fun k => match nth_error (Factors (Embedded ores)) k with
                        | Some f => listed_kind f
                        | None => false
                        end) (seq 0 (length (Factors (Embedded ores))))).
Proof.
  intros Hlen.
  pose proof (range_factors_listed (Factors (Embedded ores)) 0 t) as Hmenu.
  destruct (range_factors_run (Factors (Embedded ores)) 0 t) as [menu [E _]].
  rewrite E in Hmenu. cbn [events] in Hmenu.
  unfold selectTokenFactor.
  destruct (len (Factors (Embedded ores)) =? 0) eqn:E0; [lia|].
  destruct (len (Factors (Embedded ores)) =? 1) eqn:E1; [lia|].
  unfold defer; steps.
  destruct (tty_Prompt t 0%nat "Select your second factor: ") as [answer perr].
  steps. destruct (strconv.Atoi answer) as [mfaIdx aerr]. unfold index.
  destruct ((0 <=? mfaIdx) && (mfaIdx <? len (Factors (Embedded ores))));
    [destruct (nth_error (Factors (Embedded ores)) (Z.to_nat mfaIdx)) as [f|]|];
    steps; try destruct (Id f =? EmptyString)%string;
    normal_run; unfold listed in *; cbn [flat_map listed_of app];
    rewrite flat_map_app, Hmenu; cbn [flat_map listed_of app];
    rewrite app_nil_r; apply map_ext; intros k; lia.
Qed.

(** X1: with two factors or more, an answer that [Atoi] turns into a
    position of the list selects the factor at that position, of
    whatever kind, shown in the menu or not; when the [Id] of that factor
    is empty the result is [wrongMfaError].  The errors of the prompt and
    of [Atoi] are dropped.  The user is asked once. *)
Theorem selectTokenFactor_returns_selected
  (ores : OktaLoginResponse) (t : Tape) (answer : string) (perr aerr : error)
  (i : Z) (f : OktaMfaFactor) :
  2 <= len (Factors (Embedded ores)) ->
  tty_Prompt t 0%nat "Select your second factor: " = (answer, perr) ->
  strconv.Atoi answer = (i, aerr) ->
  0 <= i ->
  nth_error (Factors (Embedded ores)) (Z.to_nat i) = Some f ->
  let r := selectTokenFactor ores t in
  outcome r
  = Returns (if (Id f =? EmptyString)%string
             then (None, Some wrongMfaError) else (Some f, None))
  /\ prompts (events r) = [("Select your second factor: ", (answer, perr))].
Proof.
  intros Hlen Hans Hatoi Hpos Hnth r. subst r.
  destruct (selectTokenFactor_many ores t Hlen) as [menu [Hmenu E]].
  cbv zeta in E. rewrite E, Hans. cbn [fst outcome events]. rewrite Hatoi.
  cbn [fst].
  assert (Hin : (Z.to_nat i < length (Factors (Embedded ores)))%nat)
    by (apply nth_error_Some; congruence).
  assert (Hb : (0 <=? i) && (i <? len (Factors (Embedded ores))) = true).
  { apply andb_true_iff. split; [apply Z.leb_le; lia|].
    apply Z.ltb_lt. unfold len. lia. }
  rewrite Hb, Hnth. split.
  - destruct (Id f =? EmptyString)%string; reflexivity.
  - unfold prompts. cbn [flat_map prompt_of app]. rewrite flat_map_app.
    rewrite (flat_map_unseen print_event prompt_of) by
      (assumption || (intros [] ?; cbn in *; congruence)).
    reflexivity.
Qed.

End Menu.

(** X2 on a sample. *)
Lemma selectTokenFactor_menu_shows_positions_witness :
  listed (events (selectTokenFactor
                    (Sample.mfa_required [Sample.push; Sample.sms; Sample.totp])
                    (Sample.tape (Sample.mfa_required [Sample.push; Sample.sms; Sample.totp])
                                 (Sample.always "1") "123456")))
  = [0; 2].
Proof.
  apply (selectTokenFactor_menu_shows_positions
           (Sample.mfa_required [Sample.push; Sample.sms; Sample.totp])
           (Sample.tape (Sample.mfa_required [Sample.push; Sample.sms; Sample.totp])
                        (Sample.always "1") "123456")).
  vm_compute. discriminate.
Defined.

(** X1 on a sample. *)
Lemma selectTokenFactor_returns_selected_witness :
  let r := selectTokenFactor
             (Sample.mfa_required [Sample.push; Sample.sms; Sample.totp])
             (Sample.tape (Sample.mfa_required [Sample.push; Sample.sms; Sample.totp])
                          (Sample.always "1") "123456") in
  outcome r = Returns (Some Sample.sms, None)
  /\ prompts (events r) = [("Select your second factor: ", ("1", None))].
Proof.
  apply (selectTokenFactor_returns_selected
           (Sample.mfa_required [Sample.push; Sample.sms; Sample.totp])
           (Sample.tape (Sample.mfa_required [Sample.push; Sample.sms; Sample.totp])
                        (Sample.always "1") "123456")
           "1" None None 1 Sample.sms).
  - vm_compute. discriminate.
  - reflexivity.
  - reflexivity.
  - lia.
  - reflexivity.
Defined.

(** ** More on the push dialogue *)

Section Polling.

Context `{Externals}.

(** [n] rounds refused, then an acknowledgement before the bound. *)
Lemma TRYPUSH_acknowledged
  (ores : OktaLoginResponse) (factor : OktaMfaFactor) (n : nat) :
  forall (fuel : nat) (tries : Z) (err0 : error) (t : Tape),
  (n <= fuel)%nat ->
  tries + Z.of_nat n < 15 ->
  (forall k, (k < n)%nat -> snd (okta_doMfa t k ores factor "-") <> None) ->
  snd (okta_doMfa t n ores factor "-") = None ->
  outcome (TRYPUSH fuel ores factor tries err0 t)
  = Returns (okta_doMfa t n ores factor "-")
  /\ events (TRYPUSH fuel ores factor tries err0 t)
     = (flat_map (push_attempt ores factor t) (seq 0 n)
        ++ [DoMfa ores factor "-" (okta_doMfa t n ores factor "-")])%list.
Proof.
  induction n as [|n IH]; intros fuel tries err0 t Hfuel Htries Hnack Hack.
  - assert (Etest : (tries <? 15) = true) by (apply Z.ltb_lt; lia).
    destruct fuel; cbn [TRYPUSH]; rewrite Etest;
      (erewrite bind_returns by apply doMfa_run);
      destruct (okta_doMfa t 0%nat ores factor "-") as [token [e|]];
      cbn [snd] in Hack; try discriminate; cbn beta iota; normal_run;
      split; reflexivity.
  - assert (Etest : (tries <? 15) = true) by (apply Z.ltb_lt; lia).
    destruct fuel as [|fuel]; [lia|].
    cbn [TRYPUSH]. rewrite Etest.
    erewrite bind_returns by apply doMfa_run.
    pose proof (Hnack 0%nat ltac:(lia)) as H0.
    destruct (okta_doMfa t 0%nat ores factor "-") as [token [e|]] eqn:E0;
      [|contradiction]. clear H0.
    cbn beta iota. steps.
    destruct (IH fuel (tries + 1) (Some e) (after_doMfa t)) as [IHo IHe].
    + lia.
    + lia.
    + intros k Hk. shift. apply Hnack. lia.
    + shift. exact Hack.
    + normal_run. rewrite IHo, IHe. shift. cbn [seq flat_map].
      rewrite flat_map_seq_shift. unfold push_attempt at 2. rewrite E0.
      cbn [app]. split; reflexivity.
Qed.

(** Either the first [b] verifications are all refused, or one of them
    is the first to be acknowledged. *)
Lemma first_acknowledged
  (ores : OktaLoginResponse) (factor : OktaMfaFactor) (t : Tape) (b : nat) :
  (forall k, (k < b)%nat -> snd (okta_doMfa t k ores factor "-") <> None)
  \/ exists n, (n < b)%nat
       /\ (forall k, (k < n)%nat -> snd (okta_doMfa t k ores factor "-") <> None)
       /\ snd (okta_doMfa t n ores factor "-") = None.
Proof.
  induction b as [|b [IH|[n [Hn [Hnack Hack]]]]].
  - left. intros k Hk. lia.
  - destruct (snd (okta_doMfa t b ores factor "-")) as [e|] eqn:Eb.
    + left. intros k Hk. destruct (Nat.eq_dec k b) as [->|Hne].
      * rewrite Eb. discriminate.
      * apply IH. lia.
    + right. exists b. repeat split; [lia|exact IH|exact Eb].
  - right. exists n. repeat split; [lia|exact Hnack|exact Hack].
Qed.

Lemma sleeps_push_attempts
  (ores : OktaLoginResponse) (factor : OktaMfaFactor) (t : Tape) (l : list nat) :
  sleeps (flat_map (push_attempt ores factor t) l) = repeat (2 * Second) (length l).
Proof.
  induction l as [|k l IH]; [reflexivity|].
  unfold sleeps in *. cbn [flat_map push_attempt sleep_of app length repeat].
  rewrite IH. reflexivity.
Qed.

Lemma verifications_push_attempts
  (ores : OktaLoginResponse) (factor : OktaMfaFactor) (t : Tape) (l : list nat) :
  verifications (flat_map (push_attempt ores factor t) l)
  = map (fun k => ("-", okta_doMfa t k ores factor "-")) l.
Proof.
  induction l as [|k l IH]; [reflexivity|].
  unfold verifications in *.
  cbn [flat_map push_attempt verification_of app map].
  rewrite IH. reflexivity.
Qed.

(** X3: when the push is acknowledged at the verification of round [n]
    (counted from 0, [n < 15]) and at none before, [startPushMfa] returns
    the session token of that verification with no error, after [n]
    refused rounds, each one a verification with the code "-", the
    message and a sleep of 2 seconds; it makes no call after the
    acknowledged verification. *)
Theorem startPushMfa_acknowledged
  (ores : OktaLoginResponse) (factor : OktaMfaFactor) (t : Tape) (n : nat)
  (sessionToken : string) :
  (n < 15)%nat ->
  (forall k, (k < n)%nat -> snd (okta_doMfa t k ores factor "-") <> None) ->
  okta_doMfa t n ores factor "-" = (sessionToken, None) ->
  let r := startPushMfa ores factor t in
  outcome r = Returns (sessionToken, None)
  /\ events r
     = (flat_map (push_attempt ores factor t) (seq 0 n)
        ++ [DoMfa ores factor "-" (sessionToken, None)])%list
  /\ sleeps (events r) = repeat (2 * Second) n.
Proof.
  intros Hn Hnack Hack r. subst r.
  destruct (TRYPUSH_acknowledged ores factor n 15 0 None t) as [Ho He];
    [lia|lia|exact Hnack|rewrite Hack; reflexivity|].
  unfold startPushMfa. rewrite Ho, He, Hack.
  split; [reflexivity|]. split; [reflexivity|].
  unfold sleeps. rewrite flat_map_app. cbn [flat_map sleep_of app].
  rewrite app_nil_r.
  fold (sleeps (flat_map (push_attempt ores factor t) (seq 0 n))).
  rewrite sleeps_push_attempts, length_seq. reflexivity.
Qed.

(** X4: every run of [startPushMfa] is a number [n <= 15] of refused
    rounds, each followed by a sleep of 2 seconds, and then either
    ([n < 15]) one acknowledged verification, whose session token is
    returned with no error, or ([n = 15]) the failure, with the error of
    the 15th verification.  Every verification sends the code "-"; at
    most 15 are made. *)
Theorem startPushMfa_polls_until_acknowledged
  (ores : OktaLoginResponse) (factor : OktaMfaFactor) (t : Tape) :
  let r := startPushMfa ores factor t in
  exists n : nat,
    (n <= 15)%nat
    /\ (forall k, (k < n)%nat -> snd (okta_doMfa t k ores factor "-") <> None)
    /\ sleeps (events r) = repeat (2 * Second) n
    /\ verifications (events r)
       = map (fun k => ("-", okta_doMfa t k ores factor "-"))
           (seq 0 (Nat.min 15 (S n)))
    /\ outcome r
       = Returns (if (n <? 15)%nat then okta_doMfa t n ores factor "-"
                  else (EmptyString, snd (okta_doMfa t 14%nat ores factor "-")))
    /\ ((n < 15)%nat -> snd (okta_doMfa t n ores factor "-") = None).
Proof.
  cbv zeta.
  destruct (first_acknowledged ores factor t 15) as [Hnack|[n [Hn [Hnack Hack]]]].
  - exists 15%nat.
    destruct (TRYPUSH_never_acknowledged ores factor 15 15 0 None t)
      as [Ho He]; [lia|reflexivity|exact Hnack|].
    unfold startPushMfa. rewrite Ho, He.
    split; [lia|]. split; [exact Hnack|].
    split; [reflexivity|]. split; [reflexivity|]. split; [reflexivity|lia].
  - exists n.
    destruct (TRYPUSH_acknowledged ores factor n 15 0 None t) as [Ho He];
      [lia|lia|exact Hnack|exact Hack|].
    unfold startPushMfa. rewrite Ho, He.
    split; [lia|]. split; [exact Hnack|].
    split; [|split; [|split]].
    + unfold sleeps. rewrite flat_map_app. cbn [flat_map sleep_of app].
      rewrite app_nil_r. fold (sleeps (flat_map (push_attempt ores factor t) (seq 0 n))).
      rewrite sleeps_push_attempts, length_seq. reflexivity.
    + replace (Nat.min 15 (S n)) with (S n) by lia.
      rewrite seq_S, map_app. cbn [map Nat.add].
      unfold verifications. rewrite flat_map_app.
      fold (verifications (flat_map (push_attempt ores factor t) (seq 0 n))).
      rewrite verifications_push_attempts. reflexivity.
    + apply Nat.ltb_lt in Hn. rewrite Hn. reflexivity.
    + intros _. exact Hack.
Qed.

End Polling.

(** X3 on a sample. *)
Lemma startPushMfa_acknowledged_witness :
  let t := Sample.acknowledging 2
             (Sample.tape (Sample.mfa_required [Sample.push])
                          (Sample.always EmptyString) "123456") in
  let r := startPushMfa (Sample.mfa_required [Sample.push]) Sample.push t in
  outcome r = Returns ("push-session-token", None)
  /\ events r
     = (flat_map (push_attempt (Sample.mfa_required [Sample.push]) Sample.push t)
                 (seq 0 2)
        ++ [DoMfa (Sample.mfa_required [Sample.push]) Sample.push "-"
              ("push-session-token", None)])%list
  /\ sleeps (events r) = repeat 2000000000 2.
Proof.
  apply (startPushMfa_acknowledged
           (Sample.mfa_required [Sample.push]) Sample.push
           (Sample.acknowledging 2
              (Sample.tape (Sample.mfa_required [Sample.push])
                           (Sample.always EmptyString) "123456"))
           2 "push-session-token").
  - lia.
  - intros k Hk.
    destruct k as [|[|k]]; [cbn; discriminate|cbn; discriminate|lia].
  - reflexivity.
Defined.

(** ** More on the TOTP dialogue *)

Section Codes.

Context `{Externals}.

(** X5: when the user interrupts the first prompt for a code,
    [startTotpMfa] returns the empty session token with the error of the
    prompt and makes no verification call. *)
Theorem startTotpMfa_interrupted_prompt
  (ores : OktaLoginResponse) (factor : OktaMfaFactor) (t : Tape)
  (code : string) (e : GoError) :
  tty_Prompt t 0%nat "MFA token: " = (code, Some e) ->
  let r := startTotpMfa ores factor t in
  outcome r = Returns (EmptyString, Some e)
  /\ events r
     = [NewLiner; SetCtrlCAborts true;
        Println [VStr "Your account requires MFA; please enter a token."];
        Prompt "MFA token: " (code, Some e); LinerClose;
        Debug "oktad:startTotpMfa" "control-c caught in liner, probably" []].
Proof.
  intros P1 r. subst r.
  unfold startTotpMfa. cbn [TRYMFA].
  erewrite bind_returns by apply readMfaToken_run. rewrite P1.
  repeat mfa_step. normal_run. split; reflexivity.
Qed.

(** X6: when the first code the user types is accepted, [startTotpMfa]
    returns the session token of that verification with no error, after
    one prompt and one verification, which is sent the code typed. *)
Theorem startTotpMfa_first_code_accepted
  (ores : OktaLoginResponse) (factor : OktaMfaFactor) (t : Tape)
  (code sessionToken : string) :
  tty_Prompt t 0%nat "MFA token: " = (code, None) ->
  okta_doMfa t 0%nat ores factor code = (sessionToken, None) ->
  let r := startTotpMfa ores factor t in
  outcome r = Returns (sessionToken, None)
  /\ prompts (events r) = [("MFA token: ", (code, None))]
  /\ verifications (events r) = [(code, (sessionToken, None))].
Proof.
  intros P1 V1 r. subst r.
  unfold startTotpMfa. cbn [TRYMFA].
  erewrite bind_returns by apply readMfaToken_run. rewrite P1.
  repeat mfa_step. rewrite V1. repeat mfa_step.
  normal_run. repeat split.
Qed.

(** X7: in every run of [startTotpMfa] the codes sent for verification
    are the answers to the prompts, in order: the [k]-th verification is
    sent the [k]-th answer.  At most two verifications are made, and the
    user is asked at most once more than codes are verified. *)
Theorem startTotpMfa_verifies_the_answers
  (ores : OktaLoginResponse) (factor : OktaMfaFactor) (t : Tape) :
  let r := startTotpMfa ores factor t in
  let answers := map (fun p => fst (snd p)) (prompts (events r)) in
  let codes := map fst (verifications (events r)) in
  codes = firstn (length codes) answers
  /\ (length codes <= 2)%nat
  /\ (length codes <= length answers <= S (length codes))%nat.
Proof.
  cbv zeta. unfold startTotpMfa. cbn [TRYMFA].
  repeat (first [mfa_step | mfa_case]); normal_run; cbn; repeat split; lia.
Qed.

(** X8: the only error [startTotpMfa] returns is the error of a prompt:
    whenever it returns an error, the session token is empty and the last
    prompt was answered with that error.  The error of a refused
    verification is never returned. *)
Theorem startTotpMfa_returns_prompt_errors_only
  (ores : OktaLoginResponse) (factor : OktaMfaFactor) (t : Tape) :
  let r := startTotpMfa ores factor t in
  match outcome r with
  | Returns (sessionToken, Some e) =>
      sessionToken = EmptyString
      /\ exists code,
           last (prompts (events r)) (EmptyString, (EmptyString, None))
           = ("MFA token: ", (code, Some e))
  | Returns (sessionToken, None) =>
      match last (verifications (events r)) (EmptyString, (EmptyString, None)) with
      | (_, (token, None)) => token = sessionToken
      | (_, (_, Some _)) => sessionToken = EmptyString
      end
  | _ => False
  end.
Proof.
  cbv zeta. unfold startTotpMfa. cbn [TRYMFA].
  repeat (first [mfa_step | mfa_case]); normal_run; cbn;
    try reflexivity; split; try reflexivity; eexists; reflexivity.
Qed.

End Codes.

(** X5 on a sample. *)
Lemma startTotpMfa_interrupted_prompt_witness :
  let r := startTotpMfa (Sample.mfa_required [Sample.totp]) Sample.totp
             (Sample.interrupting 0
                (Sample.tape (Sample.mfa_required [Sample.totp])
                             (Sample.always "123456") "123456")) in
  outcome r = Returns (EmptyString, Some (foreign "prompt aborted"))
  /\ events r
     = [NewLiner; SetCtrlCAborts true;
        Println [VStr "Your account requires MFA; please enter a token."];
        Prompt "MFA token: " (EmptyString, Some (foreign "prompt aborted"));
        LinerClose;
        Debug "oktad:startTotpMfa" "control-c caught in liner, probably" []].
Proof.
  apply (startTotpMfa_interrupted_prompt
           (Sample.mfa_required [Sample.totp]) Sample.totp
           (Sample.interrupting 0
              (Sample.tape (Sample.mfa_required [Sample.totp])
                           (Sample.always "123456") "123456"))
           EmptyString (foreign "prompt aborted")).
  reflexivity.
Defined.

(** X6 on a sample. *)
Lemma startTotpMfa_first_code_accepted_witness :
  let r := startTotpMfa (Sample.mfa_required [Sample.totp]) Sample.totp
             (Sample.tape (Sample.mfa_required [Sample.totp])
                          (Sample.always "123456") "123456") in
  outcome r = Returns ("session-token", None)
  /\ prompts (events r) = [("MFA token: ", ("123456", None))]
  /\ verifications (events r) = [("123456", ("session-token", None))].
Proof.
  apply (startTotpMfa_first_code_accepted
           (Sample.mfa_required [Sample.totp]) Sample.totp
           (Sample.tape (Sample.mfa_required [Sample.totp])
                        (Sample.always "123456") "123456")
           "123456" "session-token"); reflexivity.
Defined.

(** ** More on the fresh login *)

Section Credentials.

Context `{Externals}.

(** X9: when the user interrupts the prompt for the name or the prompt
    for the password, [getSessionFromLogin] returns the empty session
    token with the error "control-c", whatever the error of the prompt
    was, and [login] is not called.  After an interrupted prompt for the
    name the password is not asked for. *)
Theorem getSessionFromLogin_interrupted (cfg : OktaConfig) (t : Tape) :
  snd (tty_Prompt t 0%nat "Username: ") <> None
  \/ snd (tty_PasswordPrompt t 0%nat "Password: ") <> None ->
  let r := getSessionFromLogin cfg t in
  outcome r = Returns (EmptyString, Some (errors_New "control-c"))
  /\ login_calls (events r) = []
  /\ match snd (tty_Prompt t 0%nat "Username: ") with
     | Some _ =>
         prompts (events r)
         = [("Username: ", tty_Prompt t 0%nat "Username: ")]
     | None =>
         prompts (events r)
         = [("Username: ", tty_Prompt t 0%nat "Username: ");
            ("Password: ", tty_PasswordPrompt t 0%nat "Password: ")]
     end.
Proof.
  intros Hint r. subst r.
  unfold getSessionFromLogin. cbv zeta.
  pose proof (readUserPass_run t) as Er. cbv zeta in Er.
  destruct (tty_Prompt t 0%nat "Username: ") as [user [e|]]; cbn [fst snd] in *.
  - step. steps. normal_run. repeat split.
  - destruct (tty_PasswordPrompt t 0%nat "Password: ") as [pass [e|]];
      cbn [fst snd] in *; [|destruct Hint as [Hint|Hint]; contradiction].
    step. steps. normal_run. repeat split.
Qed.

(** X10: when the user gives an empty name or an empty password,
    [getSessionFromLogin] returns the empty session token with the error
    "Must supply a username and password"; it calls nothing after the two
    prompts: [login] is not called. *)
Theorem getSessionFromLogin_requires_credentials
  (cfg : OktaConfig) (t : Tape) (user pass : string) :
  tty_Prompt t 0%nat "Username: " = (user, None) ->
  tty_PasswordPrompt t 0%nat "Password: " = (pass, None) ->
  user = EmptyString \/ pass = EmptyString ->
  getSessionFromLogin cfg t
  = mkRun
      (Returns (EmptyString,
                Some (errors_New "Must supply a username and password")))
      [NewLiner; SetCtrlCAborts true; Prompt "Username: " (user, None);
       PasswordPrompt "Password: " (pass, None); LinerClose]
      (after_PasswordPrompt (after_Prompt t)).
Proof.
  intros Huser Hpass Hempty.
  unfold getSessionFromLogin. cbv zeta.
  pose proof (readUserPass_run t) as Er. cbv zeta in Er.
  rewrite Huser, Hpass in Er. cbn [fst snd] in Er.
  step. cbn beta iota.
  assert (E : (user =? EmptyString)%string || (pass =? EmptyString)%string = true).
  { apply orb_true_iff. rewrite !String.eqb_eq. exact Hempty. }
  rewrite E. normal_run. reflexivity.
Qed.

(** X11: when [login] returns an error, [getSessionFromLogin] prints
    "Error authenticating with Okta! Maybe your username or password are
    wrong." and returns the empty session token with that error; the
    response is not read, no factor is selected and no verification is
    tried. *)
Theorem getSessionFromLogin_login_error
  (cfg : OktaConfig) (t : Tape) (user pass : string)
  (ores : option OktaLoginResponse) (e : GoError) :
  tty_Prompt t 0%nat "Username: " = (user, None) ->
  tty_PasswordPrompt t 0%nat "Password: " = (pass, None) ->
  user <> EmptyString -> pass <> EmptyString ->
  okta_login t 0%nat cfg user pass = (ores, Some e) ->
  let r := getSessionFromLogin cfg t in
  outcome r = Returns (EmptyString, Some e)
  /\ events r
     = [NewLiner; SetCtrlCAborts true; Prompt "Username: " (user, None);
        PasswordPrompt "Password: " (pass, None); LinerClose;
        Login cfg user pass (ores, Some e);
        Println [VStr "Error authenticating with Okta! Maybe your username or password are wrong."];
        Debug "oktad:getSessionFromLogin" "login err %s" [VErr (Some e)]].
Proof.
  intros Huser Hpass Hu Hp Hlogin r. subst r.
  unfold getSessionFromLogin. cbv zeta.
  pose proof (readUserPass_run t) as Er. cbv zeta in Er.
  rewrite Huser, Hpass in Er. cbn [fst snd] in Er.
  step. cbn beta iota.
  apply String.eqb_neq in Hu, Hp. rewrite Hu, Hp. cbn [orb].
  unfold login. step. shift. rewrite Hlogin. cbn beta iota.
  steps. normal_run. split; reflexivity.
Qed.

(** X12: when [login] returns no error and a nil response,
    [getSessionFromLogin] panics on [ores.Status], right after the login
    call. *)
Theorem getSessionFromLogin_nil_response_panics
  (cfg : OktaConfig) (t : Tape) (user pass : string) :
  tty_Prompt t 0%nat "Username: " = (user, None) ->
  tty_PasswordPrompt t 0%nat "Password: " = (pass, None) ->
  user <> EmptyString -> pass <> EmptyString ->
  okta_login t 0%nat cfg user pass = (None, None) ->
  let r := getSessionFromLogin cfg t in
  outcome r = Panics NilDereference
  /\ events r
     = [NewLiner; SetCtrlCAborts true; Prompt "Username: " (user, None);
        PasswordPrompt "Password: " (pass, None); LinerClose;
        Login cfg user pass (None, None)].
Proof.
  intros Huser Hpass Hu Hp Hlogin r. subst r.
  unfold getSessionFromLogin. cbv zeta.
  pose proof (readUserPass_run t) as Er. cbv zeta in Er.
  rewrite Huser, Hpass in Er. cbn [fst snd] in Er.
  step. cbn beta iota.
  apply String.eqb_neq in Hu, Hp. rewrite Hu, Hp. cbn [orb].
  unfold login. step. shift. rewrite Hlogin. cbn beta iota.
  unfold deref. step. normal_run. split; reflexivity.
Qed.

(** X13: when the response lists no factor, [getSessionFromLogin] prints
    "Error processing okta response!" and returns the empty session token
    with the error of [selectTokenFactor], "MFA factors not present in
    response"; no verification is tried. *)
Theorem getSessionFromLogin_no_factors
  (cfg : OktaConfig) (t : Tape) (user pass : string) (ores : OktaLoginResponse) :
  tty_Prompt t 0%nat "Username: " = (user, None) ->
  tty_PasswordPrompt t 0%nat "Password: " = (pass, None) ->
  user <> EmptyString -> pass <> EmptyString ->
  okta_login t 0%nat cfg user pass = (Some ores, None) ->
  Status ores = "MFA_REQUIRED" ->
  Factors (Embedded ores) = [] ->
  let r := getSessionFromLogin cfg t in
  let err := Some (errors_New "MFA factors not present in response") in
  outcome r = Returns (EmptyString, err)
  /\ events r
     = [NewLiner; SetCtrlCAborts true; Prompt "Username: " (user, None);
        PasswordPrompt "Password: " (pass, None); LinerClose;
        Login cfg user pass (Some ores, None);
        Println [VStr "Error processing okta response!"];
        Debug "oktad:getSessionFromLogin" "err from extractTokenFactor was %s"
          [VErr err]].
Proof.
  intros Huser Hpass Hu Hp Hlogin Hstatus Hfactors r err. subst r err.
  unfold getSessionFromLogin. cbv zeta.
  pose proof (readUserPass_run t) as Er. cbv zeta in Er.
  rewrite Huser, Hpass in Er. cbn [fst snd] in Er.
  step. cbn beta iota.
  apply String.eqb_neq in Hu, Hp. rewrite Hu, Hp. cbn [orb].
  unfold login. step. shift. rewrite Hlogin. cbn beta iota.
  unfold deref. step. rewrite Hstatus.
  change (negb ("MFA_REQUIRED" =? "MFA_REQUIRED")%string) with false.
  cbn beta iota. unfold selectTokenFactor. rewrite Hfactors.
  change (len (@nil OktaMfaFactor) =? 0) with true. cbn beta iota.
  steps. normal_run. split; reflexivity.
Qed.

(** X14: with one factor in the response, [getSessionFromLogin] hands it
    to [startMfa] right after the login call, and its result is that of
    [startMfa]: the session token when [startMfa] returns no error; the
    empty session token and the error of [startMfa], after the message
    "Error doing MFA!", when it returns one.  The verification calls of
    the run are those of [startMfa]. *)
Theorem getSessionFromLogin_mfa_result
  (cfg : OktaConfig) (t : Tape) (user pass : string) (ores : OktaLoginResponse)
  (factor : OktaMfaFactor) :
  tty_Prompt t 0%nat "Username: " = (user, None) ->
  tty_PasswordPrompt t 0%nat "Password: " = (pass, None) ->
  user <> EmptyString -> pass <> EmptyString ->
  okta_login t 0%nat cfg user pass = (Some ores, None) ->
  Status ores = "MFA_REQUIRED" ->
  Factors (Embedded ores) = [factor] ->
  let mfa := startMfa ores (Some factor)
               (after_login (after_PasswordPrompt (after_Prompt t))) in
  let r := getSessionFromLogin cfg t in
  verifications (events r) = verifications (events mfa)
  /\ login_calls (events r) = [(user, pass)]
  /\ match outcome mfa with
     | Returns (sessionToken, None) => outcome r = Returns (sessionToken, None)
     | Returns (_, Some e) =>
         outcome r = Returns (EmptyString, Some e)
         /\ ends_with (events r)
              [Println [VStr "Error doing MFA!"];
               Debug "oktad:getSessionFromLogin" "err from startMfa was %s"
                 [VErr (Some e)]]
     | Panics p => outcome r = Panics p
     | OutOfFuel => outcome r = OutOfFuel
     end.
Proof.
  intros Huser Hpass Hu Hp Hlogin Hstatus Hfactors mfa r. subst mfa r.
  unfold getSessionFromLogin. cbv zeta.
  pose proof (readUserPass_run t) as Er. cbv zeta in Er.
  rewrite Huser, Hpass in Er. cbn [fst snd] in Er.
  step. cbn beta iota.
  apply String.eqb_neq in Hu, Hp. rewrite Hu, Hp. cbn [orb].
  unfold login. step. shift. rewrite Hlogin. cbn beta iota.
  unfold deref. step. rewrite Hstatus.
  change (negb ("MFA_REQUIRED" =? "MFA_REQUIRED")%string) with false.
  cbn beta iota. unfold selectTokenFactor. rewrite Hfactors.
  change (len [factor] =? 0) with false. change (len [factor] =? 1) with true.
  cbn beta iota. unfold index.
  change ((0 <=? 0) && (0 <? len [factor])) with true.
  cbn [Z.to_nat nth_error]. steps'.
  set (t' := after_login (after_PasswordPrompt (after_Prompt t))).
  pose proof (emits_startMfa ores (Some factor) t') as Hmfa.
  set (m := startMfa ores (Some factor)) in *.
  destruct (m t') as [[[sessionToken [e|]]| |] evs t''] eqn:Em;
    cbn [outcome events] in *; steps'; normal_run;
    unfold verifications, login_calls;
    cbn [flat_map verification_of login_call_of app];
    rewrite ?flat_map_app; cbn [flat_map verification_of login_call_of app];
    rewrite ?app_nil_r;
    rewrite (flat_map_unseen mfa_event login_call_of) by
      (assumption || (intros [] ?; cbn in *; congruence));
    repeat split.
  exists ([NewLiner; SetCtrlCAborts true; Prompt "Username: " (user, None);
           PasswordPrompt "Password: " (pass, None); LinerClose;
           Login cfg user pass (Some ores, None);
           Debug "oktad:selectTokenFactor" "found just a single factor: %s"
             [VFactors [factor]]] ++ evs)%list.
  rewrite <- app_assoc. reflexivity.
Qed.

(** X15: with one factor in the response, of a kind that is neither "push"
    nor "token:software:totp", [getSessionFromLogin] returns the empty
    session token with no error: the login counts as done without any
    verification call. *)
Theorem getSessionFromLogin_unsupported_factor
  (cfg : OktaConfig) (t : Tape) (user pass : string) (ores : OktaLoginResponse)
  (factor : OktaMfaFactor) :
  tty_Prompt t 0%nat "Username: " = (user, None) ->
  tty_PasswordPrompt t 0%nat "Password: " = (pass, None) ->
  user <> EmptyString -> pass <> EmptyString ->
  okta_login t 0%nat cfg user pass = (Some ores, None) ->
  Status ores = "MFA_REQUIRED" ->
  Factors (Embedded ores) = [factor] ->
  FactorType factor <> "push" ->
  FactorType factor <> "token:software:totp" ->
  let r := getSessionFromLogin cfg t in
  outcome r = Returns (EmptyString, None)
  /\ events r
     = [NewLiner; SetCtrlCAborts true; Prompt "Username: " (user, None);
        PasswordPrompt "Password: " (pass, None); LinerClose;
        Login cfg user pass (Some ores, None);
        Debug "oktad:selectTokenFactor" "found just a single factor: %s"
          [VFactors [factor]]].
Proof.
  intros Huser Hpass Hu Hp Hlogin Hstatus Hfactors Hpush Htotp r. subst r.
  unfold getSessionFromLogin. cbv zeta.
  pose proof (readUserPass_run t) as Er. cbv zeta in Er.
  rewrite Huser, Hpass in Er. cbn [fst snd] in Er.
  step. cbn beta iota.
  apply String.eqb_neq in Hu, Hp, Hpush, Htotp. rewrite Hu, Hp. cbn [orb].
  unfold login. step. shift. rewrite Hlogin. cbn beta iota.
  unfold deref. step. rewrite Hstatus.
  change (negb ("MFA_REQUIRED" =? "MFA_REQUIRED")%string) with false.
  cbn beta iota. unfold selectTokenFactor. rewrite Hfactors.
  change (len [factor] =? 0) with false. change (len [factor] =? 1) with true.
  cbn beta iota. unfold index.
  change ((0 <=? 0) && (0 <? len [factor])) with true.
  cbn [Z.to_nat nth_error]. steps'.
  unfold startMfa, deref. steps'. rewrite Hpush, Htotp. steps'.
  normal_run. split; reflexivity.
Qed.

(** X16: in every run of [getSessionFromLogin], [login] is called at most
    once: once, with the name and the password the user typed, when
    neither prompt was interrupted and neither answer is empty, and not
    at all otherwise. *)
Theorem getSessionFromLogin_login_calls (cfg : OktaConfig) (t : Tape) :
  login_calls (events (getSessionFromLogin cfg t))
  = match tty_Prompt t 0%nat "Username: ",
          tty_PasswordPrompt t 0%nat "Password: " with
    | (user, None), (pass, None) =>
        if (user =? EmptyString)%string || (pass =? EmptyString)%string
        then [] else [(user, pass)]
    | _, _ => []
    end.
Proof.
  unfold getSessionFromLogin. cbv zeta.
  pose proof (readUserPass_run t) as Er. cbv zeta in Er.
  destruct (tty_Prompt t 0%nat "Username: ") as [user [e|]]; cbn [fst snd] in Er.
  - step. steps. normal_run. reflexivity.
  - destruct (tty_PasswordPrompt t 0%nat "Password: ") as [pass [e|]];
      cbn [fst snd] in Er; step; cbn beta iota.
    + steps. normal_run. reflexivity.
    + destruct ((user =? EmptyString)%string || (pass =? EmptyString)%string);
        [normal_run; reflexivity|].
      unfold login. step. normal_run.
      match goal with
      | |- context [events (?k ?t')] =>
          assert (Hk : emits_only mfa_event k)
      end.
      { unfold fmt_Println, debug, deref. emits. }
      unfold login_calls. cbn [flat_map login_call_of app].
      rewrite (flat_map_unseen mfa_event login_call_of) by
        (apply Hk || (intros [] ?; cbn in *; congruence)).
      reflexivity.
Qed.

(** X17: whenever [getSessionFromLogin] returns an error, the session
    token it returns is empty. *)
Theorem getSessionFromLogin_error_has_no_token (cfg : OktaConfig) (t : Tape) :
  match outcome (getSessionFromLogin cfg t) with
  | Returns (sessionToken, Some _) => sessionToken = EmptyString
  | _ => True
  end.
Proof.
  unfold getSessionFromLogin. cbv zeta.
  pose proof (readUserPass_run t) as Er. cbv zeta in Er.
  destruct (tty_Prompt t 0%nat "Username: ") as [user [e|]]; cbn [fst snd] in Er.
  - step. steps. reflexivity.
  - destruct (tty_PasswordPrompt t 0%nat "Password: ") as [pass [e|]];
      cbn [fst snd] in Er; step; cbn beta iota.
    + steps. reflexivity.
    + destruct ((user =? EmptyString)%string || (pass =? EmptyString)%string);
        [reflexivity|].
      unfold login. step. cbn [prepend outcome].
      destruct (okta_login _ _ _ _ _) as [[o|] [e|]]; cbn beta iota;
        unfold deref; steps; try reflexivity; try exact I.
      destruct (negb (Status o =? "MFA_REQUIRED")%string); [reflexivity|].
      match goal with
      | |- context [bind (selectTokenFactor o) _ ?t'] =>
          destruct (selectTokenFactor o t')
            as [[[factor [e|]]| |] evs t''] eqn:Es
      end; steps; cbn [prepend outcome]; try reflexivity; try exact I.
      destruct (startMfa o factor t'')
        as [[[sessionToken [e|]]| |] evs' t'''] eqn:Em;
        steps; cbn [prepend outcome]; try reflexivity; exact I.
Qed.

End Credentials.

(** ** The use of the terminal *)

Section Terminal.

Context `{Externals}.

Lemma liner_protocol_app (tr tr' : list Event) :
  forall open : bool,
  liner_protocol open (tr ++ tr')
  = match liner_protocol open tr with
    | Some open' => liner_protocol open' tr'
    | None => None
    end.
Proof.
  induction tr as [|e tr IH]; intros open; [reflexivity|].
  cbn [app liner_protocol].
  destruct e; try apply IH; destruct open; try reflexivity; apply IH.
Qed.

Variable open : bool.

Lemma keeps_ret {A : Type} (a : A) : keeps_liner open (ret a).
Proof. intros t. reflexivity. Qed.

Lemma keeps_panic {A : Type} (p : GoPanic) : keeps_liner open (@panic _ A p).
Proof. intros t. reflexivity. Qed.

Lemma keeps_out_of_fuel {A : Type} : keeps_liner open (@out_of_fuel _ A).
Proof. intros t. reflexivity. Qed.

Lemma keeps_emit (e : Event) :
  liner_protocol open [e] = Some open -> keeps_liner open (emit e).
Proof. intros He t. exact He. Qed.

Lemma keeps_external {A : Type} (reply : A) (ev : A -> Event) :
  liner_protocol open [ev reply] = Some open ->
  keeps_liner open (external reply ev).
Proof. intros He t. exact He. Qed.

Lemma keeps_bind {A B : Type} (m : M A) (k : A -> M B) :
  keeps_liner open m -> (forall a, keeps_liner open (k a)) ->
  keeps_liner open (bind m k).
Proof.
  intros Hm Hk t. unfold bind. specialize (Hm t).
  destruct (outcome (m t)) as [a| |]; cbn [events prepend]; try exact Hm.
  rewrite liner_protocol_app, Hm. apply Hk.
Qed.

Lemma keeps_login (cfg : OktaConfig) (user pass : string) :
  keeps_liner open (login cfg user pass).
Proof. intros t. reflexivity. Qed.

Lemma keeps_doMfa (ores : OktaLoginResponse) (f : OktaMfaFactor) (token : string) :
  keeps_liner open (doMfa ores f token).
Proof. intros t. reflexivity. Qed.

Lemma keeps_getSaml (cfg : OktaConfig) (token : string) :
  keeps_liner open (getSaml cfg token).
Proof. intros t. reflexivity. Qed.

End Terminal.

Section Liner.

Context `{Externals}.

Lemma keeps_li_Prompt (msg : string) : keeps_liner true (li_Prompt msg).
Proof. intros t. reflexivity. Qed.

Lemma keeps_li_PasswordPrompt (msg : string) :
  keeps_liner true (li_PasswordPrompt msg).
Proof. intros t. reflexivity. Qed.

(** [li := liner.NewLiner(); defer li.Close()] around a body that uses
    the open liner. *)
Lemma keeps_opened {A : Type} (body : M A) :
  keeps_liner true body ->
  keeps_liner false (bind (emit NewLiner) (fun _ => defer LinerClose body)).
Proof.
  intros Hbody t. unfold bind, emit, defer.
  cbn [outcome events rest prepend app liner_protocol].
  rewrite liner_protocol_app, (Hbody t). reflexivity.
Qed.

End Liner.

Create HintDb liner.

(** [keeps_liner open m], by the structure of [m]. *)
Ltac keeping :=
  cbv zeta;
  repeat first
    [ solve [eauto with liner]
    | apply keeps_ret | apply keeps_panic | apply keeps_out_of_fuel
    | apply keeps_emit; reflexivity
    | apply keeps_external; reflexivity
    | apply keeps_li_Prompt | apply keeps_li_PasswordPrompt
    | apply keeps_login | apply keeps_doMfa | apply keeps_getSaml
    | apply keeps_opened
    | apply keeps_bind; [|intros]
    | match goal with
      | |- keeps_liner _ (match ?x with _ => _ end) => destruct x
      end ].

Section Protocol.

Context `{Externals}.

Lemma keeps_range_factors (factors : list OktaMfaFactor) :
  forall i, keeps_liner true (range_factors i factors).
Proof.
  induction factors as [|f more IH]; intros i; cbn [range_factors];
    unfold fmt_Printf; keeping.
Qed.
#[local] Hint Resolve keeps_range_factors : liner.

Lemma keeps_index {A : Type} (open : bool) (l : list A) (i : Z) :
  keeps_liner open (index l i).
Proof. unfold index. keeping. Qed.
#[local] Hint Resolve keeps_index : liner.

Lemma keeps_selectTokenFactor (ores : OktaLoginResponse) :
  keeps_liner false (selectTokenFactor ores).
Proof. unfold selectTokenFactor, debug. keeping. Qed.

Lemma keeps_readMfaToken : keeps_liner false readMfaToken.
Proof. unfold readMfaToken, fmt_Println. keeping. Qed.

Lemma keeps_readUserPass : keeps_liner false readUserPass.
Proof. unfold readUserPass. keeping. Qed.
#[local] Hint Resolve keeps_readMfaToken keeps_readUserPass : liner.

Lemma keeps_TRYPUSH (ores : OktaLoginResponse) (f : OktaMfaFactor) (fuel : nat) :
  forall tries err, keeps_liner false (TRYPUSH fuel ores f tries err).
Proof.
  induction fuel as [|fuel IH]; intros tries err; cbn [TRYPUSH];
    unfold fmt_Println, debug, time_Sleep; keeping.
Qed.

Lemma keeps_TRYMFA (ores : OktaLoginResponse) (f : OktaMfaFactor) (fuel : nat) :
  forall tries, keeps_liner false (TRYMFA fuel ores f tries).
Proof.
  induction fuel as [|fuel IH]; intros tries; cbn [TRYMFA];
    unfold fmt_Println, debug; keeping.
Qed.
#[local] Hint Resolve keeps_TRYPUSH keeps_TRYMFA keeps_selectTokenFactor : liner.

Lemma keeps_startMfa (ores : OktaLoginResponse) (factor : option OktaMfaFactor) :
  keeps_liner false (startMfa ores factor).
Proof. unfold startMfa, startPushMfa, startTotpMfa, deref. keeping. Qed.
#[local] Hint Resolve keeps_startMfa : liner.

Lemma keeps_getSessionFromLogin (cfg : OktaConfig) :
  keeps_liner false (getSessionFromLogin cfg).
Proof. unfold getSessionFromLogin, fmt_Println, debug, deref. keeping. Qed.
#[local] Hint Resolve keeps_getSessionFromLogin : liner.

Lemma keeps_main_federation (sys : System) (cfg : OktaConfig) :
  keeps_liner false (main_federation sys cfg).
Proof.
  unfold main_federation, fmt_Println, debug, fallthrough, return_. keeping.
Qed.

Lemma keeps_main_roles
  (sys : System) (opts : Options) (acfg : AwsConfig) (skip : bool)
  (profile : string) (args : list string) (saml : option OktaSamlResponse) :
  keeps_liner false (main_roles sys opts acfg skip profile args saml).
Proof.
  unfold main_roles, fmt_Println, debug, fallthrough, return_. keeping.
Qed.
#[local] Hint Resolve keeps_main_federation keeps_main_roles : liner.

(** X27: in every run of [main] the terminal is used by the protocol of
    liner: a liner is opened only while none is open, every prompt is
    made on an open liner, and every liner opened is closed before the
    next call that is not a prompt on it, also when the run panics:
    none is open at the end of the run. *)
Theorem main_closes_every_liner (sys : System) (t : Tape) :
  liner_protocol false (events (main sys t)) = Some false.
Proof.
  revert t. change (keeps_liner false (main sys)).
  unfold main, fmt_Println, fmt_Printf, debug, fallthrough, return_.
  keeping.
Qed.

End Protocol.

(** ** More on [main] *)

(** What the observers see of an explicit trace. *)
Ltac observe :=
  unfold base_roles, destination_roles, stored_aws, stored, launched,
    exchanges, assertions_fed, fresh_logins, cache_lookups, keychain_reads,
    login_calls in *;
  repeat first
    [ rewrite flat_map_app
    | progress cbn [flat_map app base_role_of destination_role_of stored_aws_of
                    stored_of launched_of exchange_of fed_of username_prompt_of
                    cache_lookup_of keychain_read_of login_call_of] ].

(** Drops the parts of a trace an observer sees nothing of. *)
Ltac unobserved :=
  repeat match goal with
  | Hall : forallb ?P ?tr = true |- context [flat_map ?f ?tr] =>
      rewrite (flat_map_unseen P f
                 ltac:(let e := fresh in let He := fresh in
                       intros e He; destruct e; cbn in He |- *; congruence)
                 tr Hall)
  end.

(** A reply the hypotheses give. *)
Ltac known_reply :=
  match goal with
  | E : flags_Parse _ = _ |- _ => rewrite E
  | E : PrintVersion _ = _ |- _ => rewrite E
  | E : ForceNewCredentials _ = _ |- _ => rewrite E
  | E : sys_parseConfig _ _ = _ |- _ => rewrite E
  | E : sys_readAwsProfile _ _ = _ |- _ => rewrite E
  | E : is_awsProfileNotFound _ = _ |- _ => rewrite E
  | E : sys_loadCreds _ _ = _ |- _ => rewrite E
  | E : sys_prepAndLaunch _ _ _ = _ |- _ => rewrite E
  | E : keytar_GetKeychain _ = _ |- _ => rewrite E
  | E : keystore_GetPassword _ _ _ = _ |- _ => rewrite E
  | E : sys_decodePasswordStruct _ _ _ = _ |- _ => rewrite E
  | E : okta_getSamlSession _ _ _ = _ |- _ => rewrite E
  end.

Section Roles.

Context `{Externals}.

(** What [main_roles] does, by the replies of the two role assumptions. *)
Lemma main_roles_trace
  (sys : System) (opts : Options) (acfg : AwsConfig) (skip : bool)
  (profile : string) (args : list string) (saml : option OktaSamlResponse)
  (t : Tape) :
  let first := sts_assumeFirstRole sys acfg saml in
  let second := sts_assumeDestinationRole sys acfg (fst (fst first)) in
  let evs := events (main_roles sys opts acfg skip profile args saml t) in
  let final_profile :=
    if negb (ProfileName opts =? EmptyString)%string
    then ProfileName opts else profile in
  let final := if skip then fst first else fst second in
  base_roles evs = [first]
  /\ destination_roles evs
     = match snd first with
       | None => if skip then [] else [fst (fst first)]
       | Some _ => []
       end
  /\ if match snd first with
        | None => if skip then true
                  else match snd second with None => true | Some _ => false end
        | Some _ => false
        end
     then stored_aws evs = [(final_profile, fst final)]
          /\ stored evs = [(final_profile, fst final, snd final)]
          /\ launched evs = [(args, fst final)]
     else stored_aws evs = [] /\ stored evs = [] /\ launched evs = [].
Proof.
  cbv zeta.
  unfold main_roles, fmt_Println, debug, fallthrough, return_. cbv zeta.
  step'. destruct (sts_assumeFirstRole sys acfg saml) as [[mainCreds mExp] [e|]];
    cbn [fst snd negb]; steps';
    [normal_run; repeat split|].
  destruct skip; cbn [negb]; steps';
    [|destruct (sts_assumeDestinationRole sys acfg mainCreds)
        as [[finalCreds fExp] [e|]]; cbn [fst snd]; steps';
      [normal_run; repeat split|]];
    repeat match goal with
    | |- context [match ?x with Some _ => _ | None => _ end] =>
        destruct x; steps'
    end; normal_run; repeat split.
Qed.

End Roles.

Section Stages.

Context `{Externals}.

Local Opaque getSessionFromLogin main_federation main_roles.

(** Every run of [main] either ends before the federation stage, or goes
    through it and then, when that stage falls through, through
    [main_roles]. *)
Lemma main_stages (sys : System) (t : Tape) (Q : Run unit -> Prop) :
  (forall early : list Event,
     forallb early_event early = true ->
     (length (launched early) <= 1)%nat ->
     (ForceNewCredentials (fst (fst (flags_Parse sys))) = true ->
      cache_lookups early = []) ->
     Q (mkRun (Returns tt) early t)) ->
  (forall (prelude : list Event) (opts : Options) (args0 : string)
          (args : list string) (cfg : OktaConfig) (acfg : AwsConfig)
          (perr : error),
     flags_Parse sys = (opts, args0 :: args, None) ->
     PrintVersion opts = false ->
     sys_parseConfig sys (ConfigFile opts) = (cfg, None) ->
     sys_readAwsProfile sys ("profile " ++ args0) = (acfg, perr) ->
     keytar_GetKeychain sys = None ->
     forallb prelude_event prelude = true ->
     (ForceNewCredentials opts = true -> cache_lookups prelude = []) ->
     let skip := is_awsProfileNotFound perr in
     Q (prepend prelude
          (bind (main_federation sys cfg)
             (fun o =>
                match o with
                | Some saml =>
                    main_roles sys opts acfg skip
                      (if skip then BASE_PROFILE_CREDS else args0)
                      (if skip then BASE_PROFILE_CREDS :: args0 :: args
                       else args0 :: args) saml
                | None => ret tt
                end) t))) ->
  Q (main sys t).
Proof.
  intros Hearly Hfed.
  destruct (flags_Parse sys) as [[opts args] ferr] eqn:Hflags.
  cbn [fst] in Hearly.
  assert (Hend : forall early : list Event,
            forallb early_event early = true ->
            (length (launched early) <= 1)%nat ->
            (ForceNewCredentials opts = true -> cache_lookups early = []) ->
            main sys t = mkRun (Returns tt) early t -> Q (main sys t)).
  { intros early H1 H2 H3 E. rewrite E. apply Hearly; assumption. }
  assert (Hgo : forall (prelude : list Event) (args0 : string)
            (args' : list string) (cfg : OktaConfig) (acfg : AwsConfig)
            (perr : error) (skip : bool),
            args = args0 :: args' -> ferr = None ->
            PrintVersion opts = false ->
            sys_parseConfig sys (ConfigFile opts) = (cfg, None) ->
            sys_readAwsProfile sys ("profile " ++ args0) = (acfg, perr) ->
            keytar_GetKeychain sys = None ->
            is_awsProfileNotFound perr = skip ->
            forallb prelude_event prelude = true ->
            (ForceNewCredentials opts = true -> cache_lookups prelude = []) ->
            main sys t
            = prepend prelude
                (bind (main_federation sys cfg)
                   (fun o =>
                      match o with
                      | Some saml =>
                          main_roles sys opts acfg skip
                            (if skip then BASE_PROFILE_CREDS else args0)
                            (if skip then BASE_PROFILE_CREDS :: args0 :: args'
                             else args0 :: args') saml
                      | None => ret tt
                      end) t) ->
            Q (main sys t)).
  { intros prelude args0 args' cfg acfg perr skip -> -> Hv Hc Hp Hk <- H1 H2 E.
    rewrite E. apply (Hfed prelude opts args0 args' cfg acfg perr); auto. }
  clear Hearly Hfed.
  destruct ferr as [fe|];
    [|destruct (PrintVersion opts) eqn:Hversion;
      [|destruct (sys_parseConfig sys (ConfigFile opts)) as [cfg [ce|]] eqn:Hconfig;
        [|destruct args as [|args0 args];
          [|destruct (sys_readAwsProfile sys ("profile " ++ args0))
              as [acfg perr] eqn:Hprofile;
            destruct (is_awsProfileNotFound perr) eqn:Hskip;
            destruct perr as [pe|]; try discriminate Hskip;
            (destruct (ForceNewCredentials opts) eqn:Hforce;
             [|match type of Hskip with
               | _ = true =>
                   destruct (sys_loadCreds sys BASE_PROFILE_CREDS)
                     as [maybeCreds [le|]] eqn:Hload;
                   [|destruct (sys_prepAndLaunch sys
                                 (BASE_PROFILE_CREDS :: args0 :: args) maybeCreds)
                       as [pe'|] eqn:Hlaunch]
               | _ = false =>
                   destruct (sys_loadCreds sys args0)
                     as [maybeCreds [le|]] eqn:Hload;
                   [|destruct (sys_prepAndLaunch sys (args0 :: args) maybeCreds)
                       as [pe'|] eqn:Hlaunch]
               end]);
            try (destruct (keytar_GetKeychain sys) as [ke|] eqn:Hkey)]]]].
  all: lazymatch goal with
       | Hl : sys_loadCreds _ _ = (_, None) |- _ =>
           eapply Hend;
           [ | |
           | unfold main, fmt_Println, fmt_Printf, debug, fallthrough, return_;
             cbv zeta;
             repeat first [ step' | known_reply | progress cbn [negb] ];
             normal_run; reflexivity ];
           [ reflexivity | cbn; lia
           | intros Hf; first [ discriminate Hf | reflexivity ] ]
       | Hk : keytar_GetKeychain _ = None |- _ =>
           eapply Hgo;
           [ reflexivity | reflexivity | reflexivity | reflexivity | eassumption
           | reflexivity | eassumption | |
           | unfold main, fmt_Println, fmt_Printf, debug, fallthrough, return_;
             cbv zeta;
             repeat first [ step' | known_reply | progress cbn [negb] ];
             rewrite !prepend_prepend; cbn [app]; reflexivity ];
           [ reflexivity | intros Hf; first [ discriminate Hf | reflexivity ] ]
       | _ =>
           eapply Hend;
           [ | |
           | unfold main, fmt_Println, fmt_Printf, debug, fallthrough, return_;
             cbv zeta;
             repeat first [ step' | known_reply | progress cbn [negb] ];
             normal_run; reflexivity ];
           [ reflexivity | cbn; lia
           | intros Hf; first [ discriminate Hf | reflexivity ] ]
       end.
Qed.

End Stages.

Section Federation.

Context `{Externals}.

Local Opaque getSessionFromLogin.

(** The federation stage never looks into the credential cache. *)
Lemma main_federation_no_cache (sys : System) (cfg : OktaConfig) :
  emits_only no_cache_event (main_federation sys cfg).
Proof.
  pose proof (emits_getSessionFromLogin cfg) as Hlogin.
  unfold main_federation, fmt_Println, debug, fallthrough, return_. emits.
Qed.

Lemma keychain_reads_login_events (evs : list Event) :
  forallb login_event evs = true -> keychain_reads evs = [].
Proof.
  intros Hall. unfold keychain_reads.
  apply (flat_map_unseen login_event keychain_read_of); [|exact Hall].
  intros e He; destruct e; cbn in He |- *; congruence.
Qed.

(** The cases of the next reply in the federation stage; a fresh login
    is taken as a whole, with what is known of its calls. *)
Ltac fed_case :=
  match goal with
  | |- context [bind (getSessionFromLogin ?cfg) _ ?t] =>
      let Hl := fresh "Hlogin" in
      pose proof (exchanges_login_events _ (emits_getSessionFromLogin cfg t)) as Hl;
      let Ho := fresh "Hone" in
      pose proof (getSessionFromLogin_one_login cfg t) as Ho;
      let Hk := fresh "Hkeys" in
      pose proof (keychain_reads_login_events _ (emits_getSessionFromLogin cfg t)) as Hk;
      let E := fresh "Efresh" in
      let evs := fresh "evs" in
      let t' := fresh "t'" in
      destruct (getSessionFromLogin cfg t) as [[[? [?|]]| |] evs t'] eqn:E;
      cbn [outcome events rest] in Hl, Ho, Hk
  | |- context [keystore_GetPassword ?s ?a ?k] =>
      destruct (keystore_GetPassword s a k) as [? [?|]]
  | |- context [sys_decodePasswordStruct ?s ?c ?p] =>
      destruct (sys_decodePasswordStruct s c p) as [? [?|]]
  | |- context [okta_getSamlSession ?s ?c ?k] =>
      destruct (okta_getSamlSession s c k) as [? [?|]]
  | |- context [okta_getSaml ?t ?n ?c ?k] =>
      destruct (okta_getSaml t n c k) as [? [?|]]
  | |- context [if ?b then _ else _] => destruct b eqn:?
  end.

(** The federation stage reads the keychain once, makes at most two
    fresh logins and at most three exchanges, of which at most one with
    the cookie. *)
Lemma main_federation_counts (sys : System) (cfg : OktaConfig) (t : Tape) :
  let evs := events (main_federation sys cfg t) in
  keychain_reads evs = [keystore_GetPassword sys APPNAME SESSION_COOKIE]
  /\ (fresh_logins evs <= 2)%nat
  /\ (length (exchanges evs) <= 3)%nat
  /\ (length (filter (fun x => match fst x with
                               | CachedCookie => true
                               | FreshLogin => false
                               end) (exchanges evs)) <= 1)%nat.
Proof.
  cbv zeta.
  unfold main_federation, fmt_Println, debug, fallthrough, return_, getSaml.
  cbv zeta.
  repeat first [ step' | progress shift | progress cbn [orb no_assertion]
               | fed_case ];
    normal_run; observe;
    rewrite ?Hkeys, ?Hkeys0; cbn [app];
    rewrite ?Hlogin, ?Hlogin0; cbn [app filter fst length];
    rewrite ?length_app, ?Hone, ?Hone0; cbn [length];
    (split; [reflexivity|]); repeat split; lia.
Qed.

(** The federation stage when the keychain holds no cookie: the fresh
    login comes first. *)
Lemma main_federation_without_cookie
  (sys : System) (cfg : OktaConfig) (t : Tape)
  (password : string) (kerr : error) :
  keystore_GetPassword sys APPNAME SESSION_COOKIE = (password, kerr) ->
  kerr <> None \/ password = EmptyString ->
  let fresh := getSessionFromLogin cfg t in
  let r := main_federation sys cfg t in
  match outcome fresh with
  | Returns (sessionToken, None) =>
      let exchange := okta_getSaml (rest fresh) 0%nat cfg sessionToken in
      match snd exchange with
      | Some e =>
          exchanges (events r) = [(FreshLogin, exchange)]
          /\ fresh_logins (events r) = 1%nat
          /\ outcome r = Returns None
          /\ ends_with (events r)
               [Println [VStr "Error parsing SAML response"];
                Debug "oktad:main" "error was %s" [VErr (Some e)]]
      | None =>
          if no_assertion (fst exchange) then
            let session :=
              okta_getSamlSession sys cfg
                (fst (sys_decodePasswordStruct sys zeroCookie password)) in
            firstn 2 (exchanges (events r))
            = [(FreshLogin, exchange); (CachedCookie, session)]
          else
            exchanges (events r) = [(FreshLogin, exchange)]
            /\ fresh_logins (events r) = 1%nat
            /\ outcome r = Returns (Some (fst exchange))
      end
  | Returns (_, Some _) =>
      events r
      = GetPassword APPNAME SESSION_COOKIE (password, kerr) :: events fresh
      /\ outcome r = Returns None
  | Panics p =>
      events r
      = GetPassword APPNAME SESSION_COOKIE (password, kerr) :: events fresh
      /\ outcome r = Panics p
  | OutOfFuel =>
      events r
      = GetPassword APPNAME SESSION_COOKIE (password, kerr) :: events fresh
      /\ outcome r = OutOfFuel
  end.
Proof.
  intros Hpw Hno fresh r. subst fresh r.
  assert (Etest : (match kerr with Some _ => true | None => false end)
                  || (password =? EmptyString)%string = true).
  { destruct Hno as [Hno| ->]; [destruct kerr; [reflexivity|contradiction]|].
    destruct kerr; reflexivity. }
  unfold main_federation, fmt_Println, debug, fallthrough, return_, getSaml.
  cbv zeta.
  step'. rewrite Hpw. cbn beta iota. rewrite Etest.
  pose proof (exchanges_login_events _ (emits_getSessionFromLogin cfg t)) as Hlogin.
  pose proof (getSessionFromLogin_one_login cfg t) as Hone.
  destruct (getSessionFromLogin cfg t) as [[[sessionToken [e|]]| |] evs t'] eqn:Efresh;
    cbn [outcome events rest] in *; steps';
    try (normal_run; rewrite ?app_nil_r; split; reflexivity).
  shift.
  destruct (okta_getSaml t' 0%nat cfg sessionToken) as [fsaml [fe|]];
    cbn [fst snd]; steps'.
  - normal_run. observe. rewrite Hlogin, ?length_app, Hone.
    repeat split. exists (GetPassword APPNAME SESSION_COOKIE (password, kerr) :: evs
                          ++ [GetSaml cfg sessionToken (fsaml, Some fe)])%list.
    cbn [app]. rewrite <- app_assoc. reflexivity.
  - destruct (no_assertion fsaml) eqn:Eno; steps'.
    + destruct (sys_decodePasswordStruct sys zeroCookie password) as [cookie derr].
      cbn [fst].
      repeat first [ step' | progress shift | progress cbn [orb no_assertion]
                   | fed_case ];
        normal_run; observe; rewrite Hlogin; reflexivity.
    + rewrite Eno. steps'. normal_run. observe.
      rewrite Hlogin, ?length_app, Hone. repeat split.
Qed.

End Federation.

Section Startup.

Context `{Externals}.

Local Opaque getSessionFromLogin main_federation main_roles.

(** X18: when the command line cannot be parsed, [main] returns at once:
    it prints nothing itself and makes no other call.  When it can and
    asks for the version, [main] prints "oktad v0.7.0" and returns: no
    configuration is read, whatever else the command line holds. *)
Theorem main_stops_after_flags
  (sys : System) (t : Tape) (opts : Options) (args : list string)
  (ferr : error) :
  flags_Parse sys = (opts, args, ferr) ->
  ferr <> None \/ PrintVersion opts = true ->
  main sys t
  = mkRun (Returns tt)
      (FlagsParse (opts, args, ferr)
       :: match ferr with
          | Some _ => []
          | None => [Printf "oktad v%s\n" [VStr "0.7.0"]]
          end)
      t.
Proof.
  intros Hflags Hstop.
  unfold main, fmt_Println, fmt_Printf, debug, fallthrough, return_. cbv zeta.
  step'. rewrite Hflags. cbn beta iota.
  destruct ferr as [fe|]; [normal_run; reflexivity|].
  destruct Hstop as [Hstop|Hversion]; [contradiction|].
  rewrite Hversion. normal_run. reflexivity.
Qed.

(** X19: when the configuration file cannot be read, [main] prints "Error
    reading config file!" and returns; when it can but the command line
    names nothing to run, [main] prints its apology and returns.  The
    configuration is read before the arguments are looked at; in both
    cases no profile is looked up and nothing else is called. *)
Theorem main_needs_config_and_command
  (sys : System) (t : Tape) (opts : Options) (args : list string)
  (cfg : OktaConfig) (cerr : error) :
  flags_Parse sys = (opts, args, None) ->
  PrintVersion opts = false ->
  sys_parseConfig sys (ConfigFile opts) = (cfg, cerr) ->
  cerr <> None \/ args = [] ->
  main sys t
  = mkRun (Returns tt)
      (FlagsParse (opts, args, None)
       :: Debug "oktad:main" "loading configuration data" []
       :: ParseConfig (ConfigFile opts) (cfg, cerr)
       :: match cerr with
          | Some _ =>
              [Println [VStr "Error reading config file!"];
               Debug "oktad:main" "cfg read err: %s" [VErr cerr]]
          | None =>
              [Println [VStr "Hey, that command won't actually do anything.\n\nSorry."]]
          end)
      t.
Proof.
  intros Hflags Hversion Hconfig Hstop.
  unfold main, fmt_Println, fmt_Printf, debug, fallthrough, return_. cbv zeta.
  step'. rewrite Hflags. cbn beta iota. rewrite Hversion.
  step'. step'. rewrite Hconfig. cbn beta iota.
  destruct cerr as [ce|]; [steps'; normal_run; reflexivity|].
  destruct Hstop as [Hstop| ->]; [contradiction|].
  normal_run. reflexivity.
Qed.

(** The federation stage and [main_roles] never look into the
    credential cache. *)
Lemma after_keychain_no_cache
  (sys : System) (opts : Options) (cfg : OktaConfig) (acfg : AwsConfig)
  (skip : bool) (profile : string) (args : list string) (t : Tape) :
  cache_lookups
    (events (bind (main_federation sys cfg)
               (fun o => match o with
                         | Some saml =>
                             main_roles sys opts acfg skip profile args saml
                         | None => ret tt
                         end) t))
  = [].
Proof.
  pose proof (main_federation_no_cache sys cfg t) as Hfed.
  unfold bind.
  destruct (main_federation sys cfg t) as [[[saml|]| |] evs t'];
    cbn [outcome events rest prepend] in *;
    try (destruct (main_roles_shape sys opts acfg skip profile args saml t')
           as [tail [Eroles Htail]]; rewrite Eroles);
    cbn [ret events]; observe; unobserved; reflexivity.
Qed.

(** X20: unless new credentials are forced, a run of [main] that gets
    to the profile lookup looks into the credential cache once, under
    the profile of the run (the first argument, or [BASE_PROFILE_CREDS]
    when no profile of that name is found), whatever the lookup answers.
    When the lookup succeeds, the last calls of the run are that lookup,
    a debug line and the launch of the program with the cached
    credentials (and the message of a failed launch), and [main]
    returns; the calls of the whole run are printing, logging, the
    command line, the configuration, the profile lookup, the cache
    lookup and the launch: the keychain is not opened and no password is
    read from it, nobody logs in, no role is assumed and nothing is
    stored.  Nothing is read from the terminal or from the provider. *)
Theorem main_uses_cached_credentials
  (sys : System) (t : Tape) (opts : Options) (args0 : string)
  (args : list string) (cfg : OktaConfig) (acfg : AwsConfig) (perr : error) :
  flags_Parse sys = (opts, args0 :: args, None) ->
  PrintVersion opts = false ->
  sys_parseConfig sys (ConfigFile opts) = (cfg, None) ->
  sys_readAwsProfile sys ("profile " ++ args0) = (acfg, perr) ->
  ForceNewCredentials opts = false ->
  let skip := is_awsProfileNotFound perr in
  let profile := if skip then BASE_PROFILE_CREDS else args0 in
  let args' := if skip then BASE_PROFILE_CREDS :: args0 :: args else args0 :: args in
  let r := main sys t in
  cache_lookups (events r) = [profile]
  /\ forall creds : Credentials,
       sys_loadCreds sys profile = (creds, None) ->
       launched (events r) = [(args', creds)]
       /\ forallb cache_hit_event (events r) = true
       /\ ends_with (events r)
            (LoadCreds profile (creds, None)
             :: Debug "oktad:main" "found cached credentials, going to use them" []
             :: PrepAndLaunch args' creds (sys_prepAndLaunch sys args' creds)
             :: match sys_prepAndLaunch sys args' creds with
                | Some e =>
                    [Println [VStr "Error launching program: "; VErr (Some e)]]
                | None => []
                end)
       /\ outcome r = Returns tt
       /\ rest r = t.
Proof.
  intros Hflags Hversion Hconfig Hprofile Hforce skip profile args' r.
  subst skip profile args' r.
  destruct (is_awsProfileNotFound perr) eqn:Hskip; destruct perr as [pe|];
    try discriminate Hskip;
    match goal with
    | |- context [sys_loadCreds sys ?p = _] =>
        destruct (sys_loadCreds sys p) as [maybeCreds [le|]] eqn:Hload;
        [destruct (keytar_GetKeychain sys) as [ke|] eqn:Hkey
        |match goal with
         | |- context [launched _ = [(?a, _)]] =>
             destruct (sys_prepAndLaunch sys a maybeCreds) as [lerr|] eqn:Hlaunch
         end]
    end;
    (split;
     [|intros creds Hcreds; try discriminate Hcreds;
       injection Hcreds as <-; rewrite ?Hlaunch]);
    unfold main, fmt_Println, fmt_Printf, debug, fallthrough, return_;
    cbv zeta;
    repeat first [ step' | known_reply | progress cbn [negb] ];
    normal_run;
    try (unfold cache_lookups; cbn [flat_map cache_lookup_of app];
         match goal with
         | |- context [flat_map cache_lookup_of ?x] =>
             change (flat_map cache_lookup_of x) with (cache_lookups x)
         end;
         rewrite after_keychain_no_cache; reflexivity);
    repeat split;
    repeat first [ apply ends_with_refl | apply ends_with_cons ].
Qed.

(** X22: when the keychain cannot be opened, [main] prints "Failed to get
    keychain access" and returns: no password is read from the keychain,
    nobody logs in, no role is assumed, nothing is stored and nothing is
    launched. *)
Theorem main_keychain_failure
  (sys : System) (t : Tape) (opts : Options) (args0 : string)
  (args : list string) (cfg : OktaConfig) (acfg : AwsConfig) (perr : error)
  (e : GoError) :
  flags_Parse sys = (opts, args0 :: args, None) ->
  PrintVersion opts = false ->
  sys_parseConfig sys (ConfigFile opts) = (cfg, None) ->
  sys_readAwsProfile sys ("profile " ++ args0) = (acfg, perr) ->
  ForceNewCredentials opts = true
  \/ snd (sys_loadCreds sys
            (if is_awsProfileNotFound perr then BASE_PROFILE_CREDS else args0))
     <> None ->
  keytar_GetKeychain sys = Some e ->
  let r := main sys t in
  forallb prelude_event (events r) = true
  /\ ends_with (events r)
       [GetKeychain (Some e);
        Println [VStr "Failed to get keychain access"];
        Debug "oktad:main" "error was %s" [VErr (Some e)]]
  /\ outcome r = Returns tt
  /\ rest r = t.
Proof.
  intros Hflags Hversion Hconfig Hprofile Hmiss Hkeychain r. subst r.
  assert (Hload :
    ForceNewCredentials opts = false ->
    exists maybeCreds le,
      sys_loadCreds sys
        (if is_awsProfileNotFound perr then BASE_PROFILE_CREDS else args0)
      = (maybeCreds, Some le)).
  { intros Hf. destruct Hmiss as [Hmiss|Hmiss]; [congruence|].
    destruct (sys_loadCreds sys _) as [c [le|]]; [eauto|].
    contradiction Hmiss; reflexivity. }
  destruct (ForceNewCredentials opts) eqn:Hforce;
    [|destruct (Hload eq_refl) as [maybeCreds [le Eload]]];
    destruct (is_awsProfileNotFound perr) eqn:Hskip; destruct perr as [pe|];
    try discriminate Hskip;
    unfold main, fmt_Println, fmt_Printf, debug, fallthrough, return_;
    cbv zeta;
    repeat first [ step' | known_reply | progress cbn [negb] ];
    normal_run; (split; [reflexivity|]); (split; [|split; reflexivity]);
    repeat first [ apply ends_with_refl | apply ends_with_cons ].
Qed.

End Startup.

Section EveryRun.

Context `{Externals}.

Local Opaque getSessionFromLogin main_federation main_roles.

(** What [main_roles] stores is what it launches the program with. *)
Lemma main_roles_consistent
  (sys : System) (opts : Options) (acfg : AwsConfig) (skip : bool)
  (profile : string) (args : list string) (saml : option OktaSamlResponse)
  (t : Tape) :
  let evs := events (main_roles sys opts acfg skip profile args saml t) in
  length (base_roles evs) = 1%nat
  /\ (length (destination_roles evs) <= 1)%nat
  /\ (length (launched evs) <= 1)%nat
  /\ stored_aws evs = map fst (stored evs)
  /\ map snd (launched evs) = map snd (stored_aws evs)
  /\ (length (stored evs) <= 1)%nat.
Proof.
  pose proof (main_roles_trace sys opts acfg skip profile args saml t) as Htrace.
  cbv zeta in Htrace |- *.
  destruct Htrace as [Hb [Hd Hs]]. rewrite Hb, Hd.
  destruct (snd (sts_assumeFirstRole sys acfg saml)); [|destruct skip];
    try destruct (snd (sts_assumeDestinationRole sys acfg _));
    destruct Hs as [Hs1 [Hs2 Hs3]]; rewrite Hs1, Hs2, Hs3; cbn;
    repeat split; lia.
Qed.

(** X25: in every run of [main]: the keychain is read at most once; the
    user logs in at most twice; at most three federation exchanges are
    made, at most one of them with the cookie; each role is assumed at
    most once; the program is launched at most once. *)
Theorem main_call_bounds (sys : System) (t : Tape) :
  let tr := events (main sys t) in
  (length (keychain_reads tr) <= 1)%nat
  /\ (fresh_logins tr <= 2)%nat
  /\ (length (exchanges tr) <= 3)%nat
  /\ (length (filter (fun x => match fst x with
                               | CachedCookie => true
                               | FreshLogin => false
                               end) (exchanges tr)) <= 1)%nat
  /\ (length (base_roles tr) <= 1)%nat
  /\ (length (destination_roles tr) <= 1)%nat
  /\ (length (launched tr) <= 1)%nat.
Proof.
  cbv zeta. apply main_stages.
  - intros early Hearly Hlaunch _. cbn [events].
    observe. unobserved. cbn [length filter]. repeat split; lia.
  - intros prelude opts args0 args cfg acfg perr _ _ _ _ _ Hprelude _ skip.
    pose proof (emits_main_federation sys cfg t) as Hfed.
    pose proof (main_federation_counts sys cfg t) as Hcounts.
    cbv zeta in Hcounts. destruct Hcounts as [Hk [Hl [Hx Hc]]].
    unfold bind.
    destruct (main_federation sys cfg t) as [[[saml|]| |] evs t'];
      cbn [outcome events rest prepend] in *.
    + match goal with
      | |- context [main_roles ?s ?o ?a ?k ?p ?g saml t'] =>
          destruct (main_roles_shape s o a k p g saml t') as [tail [Eroles Htail]];
          pose proof (main_roles_consistent s o a k p g saml t') as Hroles
      end.
      cbv zeta in Hroles. destruct Hroles as [Hb [Hd [Hla _]]].
      rewrite Eroles in *. cbn [events] in *.
      observe. unobserved. cbn [app] in *. rewrite ?app_nil_r.
      cbn [flat_map destination_role_of launched_of app] in Hd, Hla.
      rewrite Hk. cbn [length] in *. repeat split; lia.
    + cbn [ret events]. observe. unobserved. cbn [app].
      rewrite ?app_nil_r, Hk. cbn [length]. repeat split; lia.
    + cbn [ret events]. observe. unobserved. cbn [app].
      rewrite ?app_nil_r, Hk. cbn [length]. repeat split; lia.
    + cbn [ret events]. observe. unobserved. cbn [app].
      rewrite ?app_nil_r, Hk. cbn [length]. repeat split; lia.
Qed.

(** X26: in every run of [main], [storeCredsAws] and [storeCreds] are
    called together, with the same profile name and the same
    credentials, at most once; and whenever credentials are stored, the
    program is launched, once, with those credentials. *)
Theorem main_stores_what_it_launches (sys : System) (t : Tape) :
  let tr := events (main sys t) in
  stored_aws tr = map fst (stored tr)
  /\ match stored tr with
     | [] => True
     | [(_, creds, _)] => map snd (launched tr) = [creds]
     | _ => False
     end.
Proof.
  cbv zeta. apply main_stages.
  - intros early Hearly Hlaunch _. cbn [events].
    observe. unobserved. split; [reflexivity|exact I].
  - intros prelude opts args0 args cfg acfg perr _ _ _ _ _ Hprelude _ skip.
    pose proof (emits_main_federation sys cfg t) as Hfed.
    unfold bind.
    destruct (main_federation sys cfg t) as [[[saml|]| |] evs t'];
      cbn [outcome events rest prepend] in *.
    + match goal with
      | |- context [main_roles ?s ?o ?a ?k ?p ?g saml t'] =>
          pose proof (main_roles_consistent s o a k p g saml t') as Hroles;
          destruct (main_roles s o a k p g saml t') as [o' tail t'']
      end.
      cbv zeta in Hroles. cbn [events] in *.
      destruct Hroles as [_ [_ [_ [Hs [Hl Hn]]]]].
      observe. unobserved. cbn [app].
      split; [exact Hs|].
      rewrite Hs in Hl.
      destruct (flat_map stored_of tail) as [|[[p c] x] [|more]];
        [exact I|rewrite Hl; reflexivity|cbn in Hn; lia].
    + cbn [ret events]. observe. unobserved. split; [reflexivity|exact I].
    + cbn [ret events]. observe. unobserved. split; [reflexivity|exact I].
    + cbn [ret events]. observe. unobserved. split; [reflexivity|exact I].
Qed.

(** X21: when new credentials are forced, no run of [main] looks into the
    credential cache. *)
Theorem main_forced_skips_cache
  (sys : System) (t : Tape) (opts : Options) (args : list string)
  (ferr : error) :
  flags_Parse sys = (opts, args, ferr) ->
  ForceNewCredentials opts = true ->
  cache_lookups (events (main sys t)) = [].
Proof.
  intros Hflags Hforce. apply main_stages.
  - intros early _ _ Hcache. apply Hcache. rewrite Hflags. exact Hforce.
  - intros prelude opts' args0 args' cfg acfg perr Hflags' _ _ _ _ Hprelude
      Hcache skip.
    rewrite Hflags in Hflags'. injection Hflags' as <- _ _.
    specialize (Hcache Hforce).
    pose proof (main_federation_no_cache sys cfg t) as Hfed.
    unfold bind.
    destruct (main_federation sys cfg t) as [[[saml|]| |] evs t'];
      cbn [outcome events rest prepend] in *;
      try match goal with
      | |- context [main_roles ?s ?o ?a ?k ?p ?g saml t'] =>
          destruct (main_roles_shape s o a k p g saml t') as [tail [Eroles Htail]];
          rewrite Eroles
      end;
      cbn [ret events]; unfold cache_lookups in *; rewrite ?flat_map_app, Hcache;
      cbn [flat_map cache_lookup_of app]; unobserved; reflexivity.
Qed.

(** X24: in a run where the profile lookup does not answer
    [awsProfileNotFound] (it succeeds, or fails with another error, which
    is only logged), the second role is assumed whenever the first one
    was: [assumeDestinationRole] gets the credentials [assumeFirstRole]
    returned, and when it succeeds [storeCredsAws], [storeCreds] and
    [prepAndLaunch] each get its credentials ([storeCreds] its expiry),
    under the profile name of the command line ([-p] when given, else
    the first argument), with the arguments unchanged.  When either role
    assumption fails, nothing is stored and nothing is launched.  Errors
    of the two stores do not stop the launch. *)
Theorem main_assumes_destination_role
  (sys : System) (t : Tape) (opts : Options) (args0 : string)
  (args : list string) (cfg : OktaConfig) (acfg : AwsConfig) (perr : error) :
  flags_Parse sys = (opts, args0 :: args, None) ->
  PrintVersion opts = false ->
  sys_parseConfig sys (ConfigFile opts) = (cfg, None) ->
  sys_readAwsProfile sys ("profile " ++ args0) = (acfg, perr) ->
  is_awsProfileNotFound perr = false ->
  let tr := events (main sys t) in
  let profile :=
    if negb (ProfileName opts =? EmptyString)%string
    then ProfileName opts else args0 in
  match base_roles tr with
  | [] => destination_roles tr = [] /\ stored_aws tr = [] /\ stored tr = []
  | [(mainCreds, mExp, None)] =>
      destination_roles tr = [mainCreds]
      /\ match sts_assumeDestinationRole sys acfg mainCreds with
         | (finalCreds, fExp, None) =>
             stored_aws tr = [(profile, finalCreds)]
             /\ stored tr = [(profile, finalCreds, fExp)]
             /\ launched tr = [(args0 :: args, finalCreds)]
         | (_, _, Some _) =>
             stored_aws tr = [] /\ stored tr = [] /\ launched tr = []
         end
  | [(_, _, Some _)] =>
      destination_roles tr = []
      /\ stored_aws tr = [] /\ stored tr = [] /\ launched tr = []
  | _ => False
  end.
Proof.
  intros Hflags Hversion Hconfig Hprofile Hskip tr profile. subst tr profile.
  apply main_stages.
  - intros early Hearly _ _. cbn [events]. observe. unobserved. repeat split.
  - intros prelude opts' args0' args' cfg' acfg' perr' Hflags' _ Hconfig'
      Hprofile' _ Hprelude _ skip. subst skip.
    rewrite Hflags in Hflags'. injection Hflags' as <- <- <-.
    rewrite Hconfig in Hconfig'. injection Hconfig' as <-.
    rewrite Hprofile in Hprofile'. injection Hprofile' as <- <-.
    rewrite Hskip.
    pose proof (emits_main_federation sys cfg t) as Hfed.
    unfold bind.
    destruct (main_federation sys cfg t) as [[[saml|]| |] evs t'];
      cbn [outcome events rest prepend] in *;
      [|cbn [ret events]; observe; unobserved; repeat split..].
    pose proof (main_roles_trace sys opts acfg false args0 (args0 :: args)
                  saml t') as Hroles.
    cbv zeta in Hroles. destruct Hroles as [Hb [Hd Hs]].
    observe. unobserved. cbn [app]. rewrite Hb, Hd.
    destruct (sts_assumeFirstRole sys acfg saml) as [[mainCreds mExp] [e|]];
      cbn [fst snd] in *.
    + destruct Hs as [Hs1 [Hs2 Hs3]]. rewrite Hs1, Hs2, Hs3. repeat split.
    + split; [reflexivity|].
      destruct (sts_assumeDestinationRole sys acfg mainCreds)
        as [[finalCreds fExp] [e|]]; cbn [fst snd] in *;
        destruct Hs as [Hs1 [Hs2 Hs3]]; rewrite Hs1, Hs2, Hs3; repeat split.
Qed.

(** X23: in a run of [main] that reaches the federation stage while the
    keychain holds no cookie (the read fails or gives the empty string),
    the fresh login comes first.  When it fails, the run ends there: its
    last calls are those of the login, [main] prints nothing of its own
    and no exchange is made.  When it succeeds, [getSaml] is called with
    its session token: an error of [getSaml] ends the run on the message
    "Error parsing SAML response"; an assertion that is neither nil nor
    empty is handed to [assumeFirstRole] with no other exchange and no
    other login; with a nil or empty one, the next exchange is the one
    with the cookie decoded from the password that was read. *)
Theorem main_without_cookie
  (sys : System) (t : Tape) (opts : Options) (args0 : string)
  (args : list string) (cfg : OktaConfig) (acfg : AwsConfig) (perr : error)
  (password : string) (kerr : error) :
  flags_Parse sys = (opts, args0 :: args, None) ->
  PrintVersion opts = false ->
  sys_parseConfig sys (ConfigFile opts) = (cfg, None) ->
  sys_readAwsProfile sys ("profile " ++ args0) = (acfg, perr) ->
  ForceNewCredentials opts = true
  \/ snd (sys_loadCreds sys
            (if is_awsProfileNotFound perr then BASE_PROFILE_CREDS else args0))
     <> None ->
  keytar_GetKeychain sys = None ->
  keystore_GetPassword sys APPNAME SESSION_COOKIE = (password, kerr) ->
  kerr <> None \/ password = EmptyString ->
  let fresh := getSessionFromLogin cfg t in
  let tr := events (main sys t) in
  match outcome fresh with
  | Returns (sessionToken, None) =>
      let exchange := okta_getSaml (rest fresh) 0%nat cfg sessionToken in
      match snd exchange with
      | Some e =>
          exchanges tr = [(FreshLogin, exchange)]
          /\ fresh_logins tr = 1%nat
          /\ assertions_fed tr = []
          /\ ends_with tr
               [Println [VStr "Error parsing SAML response"];
                Debug "oktad:main" "error was %s" [VErr (Some e)]]
      | None =>
          if no_assertion (fst exchange) then
            let session :=
              okta_getSamlSession sys cfg
                (fst (sys_decodePasswordStruct sys zeroCookie password)) in
            firstn 2 (exchanges tr)
            = [(FreshLogin, exchange); (CachedCookie, session)]
          else
            exchanges tr = [(FreshLogin, exchange)]
            /\ fresh_logins tr = 1%nat
            /\ assertions_fed tr = [fst exchange]
      end
  | Returns (_, Some _) =>
      exchanges tr = [] /\ fresh_logins tr = 1%nat /\ assertions_fed tr = []
      /\ ends_with tr (events fresh)
  | _ => exchanges tr = [] /\ fresh_logins tr = 1%nat /\ assertions_fed tr = []
  end.
Proof.
  intros Hflags Hversion Hconfig Hprofile Hmiss Hkeychain Hpw Hno fresh tr.
  subst fresh tr.
  destruct (main_trace_through_federation sys t opts args0 args cfg acfg perr
              Hflags Hversion Hconfig Hprofile Hmiss Hkeychain)
    as [Hex [Hlogins [Hfed Hend]]].
  cbv zeta in Hex, Hlogins, Hfed, Hend.
  rewrite Hex, Hlogins, Hfed.
  pose proof (main_federation_without_cookie sys cfg t password kerr Hpw Hno)
    as Hpath.
  cbv zeta in Hpath |- *.
  pose proof (exchanges_login_events _ (emits_getSessionFromLogin cfg t)) as Hlogin.
  pose proof (getSessionFromLogin_one_login cfg t) as Hone.
  destruct (outcome (getSessionFromLogin cfg t)) as [[sessionToken [e|]]| |].
  - destruct Hpath as [He Ho]. rewrite Ho in *. rewrite He.
    observe. rewrite Hlogin. cbn [length]. rewrite Hone.
    repeat split. apply Hend; [reflexivity|]. rewrite He.
    apply ends_with_cons, ends_with_refl.
  - destruct (snd (okta_getSaml (rest (getSessionFromLogin cfg t)) 0%nat cfg
                     sessionToken)) as [e|].
    + destruct Hpath as [Hx [Hl [Ho He]]]. rewrite Ho in *.
      repeat split; auto.
    + destruct (no_assertion (fst (okta_getSaml (rest (getSessionFromLogin cfg t))
                                     0%nat cfg sessionToken))).
      * exact Hpath.
      * destruct Hpath as [Hx [Hl Ho]]. rewrite Ho. repeat split; auto.
  - destruct Hpath as [He Ho]. rewrite Ho, He.
    observe. rewrite Hlogin. cbn [length]. rewrite Hone. repeat split.
  - destruct Hpath as [He Ho]. rewrite Ho, He.
    observe. rewrite Hlogin. cbn [length]. rewrite Hone. repeat split.
Qed.

End EveryRun.

(** X9 on a sample. *)
Lemma getSessionFromLogin_interrupted_witness :
  let r := getSessionFromLogin (H := Sample.externals) "config"
             (Sample.interrupting 0
                (Sample.tape Sample.bare_success (Sample.always "alice") "123456")) in
  outcome r = Returns (EmptyString, Some (errors_New "control-c"))
  /\ login_calls (events r) = []
  /\ prompts (events r)
     = [("Username: ", (EmptyString, Some (foreign "prompt aborted")))].
Proof.
  apply (getSessionFromLogin_interrupted (H := Sample.externals) "config"
           (Sample.interrupting 0
              (Sample.tape Sample.bare_success (Sample.always "alice") "123456"))).
  left. cbn. discriminate.
Defined.

(** X10 on a sample. *)
Lemma getSessionFromLogin_requires_credentials_witness :
  let t := Sample.with_password EmptyString
             (Sample.tape Sample.bare_success (Sample.always "alice") "123456") in
  getSessionFromLogin (H := Sample.externals) "config" t
  = mkRun
      (Returns (EmptyString,
                Some (errors_New "Must supply a username and password")))
      [NewLiner; SetCtrlCAborts true; Prompt "Username: " ("alice", None);
       PasswordPrompt "Password: " (EmptyString, None); LinerClose]
      (after_PasswordPrompt (after_Prompt t)).
Proof.
  apply (getSessionFromLogin_requires_credentials (H := Sample.externals) "config"
           (Sample.with_password EmptyString
              (Sample.tape Sample.bare_success (Sample.always "alice") "123456"))
           "alice" EmptyString).
  - reflexivity.
  - reflexivity.
  - right. reflexivity.
Defined.

(** X11 on a sample. *)
Lemma getSessionFromLogin_login_error_witness :
  let r := getSessionFromLogin (H := Sample.externals) "config"
             (Sample.with_login (None, Some (foreign "authentication failed"))
                (Sample.tape Sample.bare_success (Sample.always "alice") "123456")) in
  outcome r = Returns (EmptyString, Some (foreign "authentication failed"))
  /\ events r
     = [NewLiner; SetCtrlCAborts true; Prompt "Username: " ("alice", None);
        PasswordPrompt "Password: " ("hunter2", None); LinerClose;
        @Login Sample.externals "config" "alice" "hunter2"
          (None, Some (foreign "authentication failed"));
        Println [VStr "Error authenticating with Okta! Maybe your username or password are wrong."];
        Debug "oktad:getSessionFromLogin" "login err %s"
          [VErr (Some (foreign "authentication failed"))]].
Proof.
  apply (getSessionFromLogin_login_error (H := Sample.externals) "config"
           (Sample.with_login (None, Some (foreign "authentication failed"))
              (Sample.tape Sample.bare_success (Sample.always "alice") "123456"))
           "alice" "hunter2" None (foreign "authentication failed"));
    first [ reflexivity | discriminate ].
Defined.

(** X12 on a sample. *)
Lemma getSessionFromLogin_nil_response_panics_witness :
  let r := getSessionFromLogin (H := Sample.externals) "config"
             (Sample.with_login (None, None)
                (Sample.tape Sample.bare_success (Sample.always "alice") "123456")) in
  outcome r = Panics NilDereference
  /\ events r
     = [NewLiner; SetCtrlCAborts true; Prompt "Username: " ("alice", None);
        PasswordPrompt "Password: " ("hunter2", None); LinerClose;
        @Login Sample.externals "config" "alice" "hunter2" (None, None)].
Proof.
  apply (getSessionFromLogin_nil_response_panics (H := Sample.externals) "config"
           (Sample.with_login (None, None)
              (Sample.tape Sample.bare_success (Sample.always "alice") "123456"))
           "alice" "hunter2");
    first [ reflexivity | discriminate ].
Defined.

(** X13 on a sample. *)
Lemma getSessionFromLogin_no_factors_witness :
  let r := getSessionFromLogin (H := Sample.externals) "config"
             (Sample.tape (Sample.mfa_required []) (Sample.always "alice") "123456") in
  let err := Some (errors_New "MFA factors not present in response") in
  outcome r = Returns (EmptyString, err)
  /\ events r
     = [NewLiner; SetCtrlCAborts true; Prompt "Username: " ("alice", None);
        PasswordPrompt "Password: " ("hunter2", None); LinerClose;
        @Login Sample.externals "config" "alice" "hunter2"
          (Some (Sample.mfa_required []), None);
        Println [VStr "Error processing okta response!"];
        Debug "oktad:getSessionFromLogin" "err from extractTokenFactor was %s"
          [VErr err]].
Proof.
  apply (getSessionFromLogin_no_factors (H := Sample.externals) "config"
           (Sample.tape (Sample.mfa_required []) (Sample.always "alice") "123456")
           "alice" "hunter2" (Sample.mfa_required []));
    first [ reflexivity | discriminate ].
Defined.

(** X14 on a sample. *)
Lemma getSessionFromLogin_mfa_result_witness :
  let r := getSessionFromLogin (H := Sample.externals) "config"
             (Sample.tape (Sample.mfa_required [Sample.totp])
                          (Sample.typing "alice" "123456" "123456") "123456") in
  verifications (events r) = [("123456", ("session-token", None))]
  /\ login_calls (events r) = [("alice", "hunter2")]
  /\ outcome r = Returns ("session-token", None).
Proof.
  apply (getSessionFromLogin_mfa_result (H := Sample.externals) "config"
           (Sample.tape (Sample.mfa_required [Sample.totp])
                        (Sample.typing "alice" "123456" "123456") "123456")
           "alice" "hunter2" (Sample.mfa_required [Sample.totp]) Sample.totp);
    first [ reflexivity | discriminate ].
Defined.

(** X15 on a sample. *)
Lemma getSessionFromLogin_unsupported_factor_witness :
  let r := getSessionFromLogin (H := Sample.externals) "config"
             (Sample.tape (Sample.mfa_required [Sample.sms])
                          (Sample.always "alice") "123456") in
  outcome r = Returns (EmptyString, None)
  /\ events r
     = [NewLiner; SetCtrlCAborts true; Prompt "Username: " ("alice", None);
        PasswordPrompt "Password: " ("hunter2", None); LinerClose;
        @Login Sample.externals "config" "alice" "hunter2"
          (Some (Sample.mfa_required [Sample.sms]), None);
        Debug "oktad:selectTokenFactor" "found just a single factor: %s"
          [VFactors [Sample.sms]]].
Proof.
  apply (getSessionFromLogin_unsupported_factor (H := Sample.externals) "config"
           (Sample.tape (Sample.mfa_required [Sample.sms])
                        (Sample.always "alice") "123456")
           "alice" "hunter2" (Sample.mfa_required [Sample.sms]) Sample.sms);
    first [ reflexivity | discriminate ].
Defined.

(** X18 on a sample: [oktad -v prod]. *)
Lemma main_stops_after_flags_witness :
  let sys := Sample.machine (Sample.version, ["prod"], None)
               (EmptyString, Some (foreign "no cached credentials")) None
               (Sample.system "live" None) in
  let t := Sample.tape (Sample.mfa_required [Sample.totp])
                       (Sample.always "123456") "123456" in
  main sys t
  = mkRun (Returns tt)
      [FlagsParse (Sample.version, ["prod"], None);
       Printf "oktad v%s\n" [VStr "0.7.0"]]
      t.
Proof.
  apply (main_stops_after_flags
           (Sample.machine (Sample.version, ["prod"], None)
              (EmptyString, Some (foreign "no cached credentials")) None
              (Sample.system "live" None))
           (Sample.tape (Sample.mfa_required [Sample.totp])
                        (Sample.always "123456") "123456")
           Sample.version ["prod"] None).
  - reflexivity.
  - right. reflexivity.
Defined.

(** X19 on a sample. *)
Lemma main_needs_config_and_command_witness :
  let sys := Sample.without_config (Sample.system "live" None) in
  let t := Sample.tape (Sample.mfa_required [Sample.totp])
                       (Sample.always "123456") "123456" in
  main sys t
  = mkRun (Returns tt)
      [FlagsParse (Sample.options, ["prod"; "aws"; "s3"; "ls"], None);
       Debug "oktad:main" "loading configuration data" [];
       @ParseConfig Sample.externals "~/.oktad/config"
         (EmptyString, Some (foreign "no such file"));
       Println [VStr "Error reading config file!"];
       Debug "oktad:main" "cfg read err: %s" [VErr (Some (foreign "no such file"))]]
      t.
Proof.
  apply (main_needs_config_and_command
           (Sample.without_config (Sample.system "live" None))
           (Sample.tape (Sample.mfa_required [Sample.totp])
                        (Sample.always "123456") "123456")
           Sample.options ["prod"; "aws"; "s3"; "ls"] EmptyString
           (Some (foreign "no such file"))).
  - reflexivity.
  - reflexivity.
  - reflexivity.
  - left. discriminate.
Defined.

(** X20 on a sample. *)
Lemma main_uses_cached_credentials_witness :
  let sys := Sample.machine (Sample.options, ["prod"; "aws"; "s3"; "ls"], None)
               ("cached-credentials", None) None
               (Sample.system "live" None) in
  let t := Sample.tape (Sample.mfa_required [Sample.totp])
                       (Sample.always "123456") "123456" in
  let r := main sys t in
  cache_lookups (events r) = ["prod"]
  /\ launched (events r) = [(["prod"; "aws"; "s3"; "ls"], "cached-credentials")]
  /\ forallb cache_hit_event (events r) = true
  /\ outcome r = Returns tt
  /\ rest r = t.
Proof.
  pose proof (main_uses_cached_credentials
           (Sample.machine (Sample.options, ["prod"; "aws"; "s3"; "ls"], None)
              ("cached-credentials", None) None
              (Sample.system "live" None))
           (Sample.tape (Sample.mfa_required [Sample.totp])
                        (Sample.always "123456") "123456")
           Sample.options "prod" ["aws"; "s3"; "ls"] "config" "account" None
           eq_refl eq_refl eq_refl eq_refl eq_refl) as [Hlookup Hhit].
  destruct (Hhit "cached-credentials" eq_refl) as [Hl [Hc [_ [Ho Hr]]]].
  repeat split; assumption || reflexivity.
Defined.

(** X21 on a sample: [oktad -f -p work prod aws s3 ls] with credentials in the cache. *)
Lemma main_forced_skips_cache_witness :
  cache_lookups
    (events (main (Sample.machine
                     (Sample.forcing, ["prod"; "aws"; "s3"; "ls"], None)
                     ("cached-credentials", None) None
                     (Sample.system "live" None))
                  (Sample.tape (Sample.mfa_required [Sample.totp])
                               (Sample.always "123456") "123456")))
  = [].
Proof.
  apply (main_forced_skips_cache
           (Sample.machine (Sample.forcing, ["prod"; "aws"; "s3"; "ls"], None)
              ("cached-credentials", None) None
              (Sample.system "live" None))
           (Sample.tape (Sample.mfa_required [Sample.totp])
                        (Sample.always "123456") "123456")
           Sample.forcing ["prod"; "aws"; "s3"; "ls"] None);
    reflexivity.
Defined.

(** X22 on a sample. *)
Lemma main_keychain_failure_witness :
  let sys := Sample.machine (Sample.options, ["prod"; "aws"; "s3"; "ls"], None)
               (EmptyString, Some (foreign "no cached credentials"))
               (Some (foreign "keychain locked"))
               (Sample.system "live" None) in
  let t := Sample.tape (Sample.mfa_required [Sample.totp])
                       (Sample.always "123456") "123456" in
  let r := main sys t in
  forallb prelude_event (events r) = true
  /\ ends_with (events r)
       [GetKeychain (Some (foreign "keychain locked"));
        Println [VStr "Failed to get keychain access"];
        Debug "oktad:main" "error was %s" [VErr (Some (foreign "keychain locked"))]]
  /\ outcome r = Returns tt
  /\ rest r = t.
Proof.
  apply (main_keychain_failure
           (Sample.machine (Sample.options, ["prod"; "aws"; "s3"; "ls"], None)
              (EmptyString, Some (foreign "no cached credentials"))
              (Some (foreign "keychain locked"))
              (Sample.system "live" None))
           (Sample.tape (Sample.mfa_required [Sample.totp])
                        (Sample.always "123456") "123456")
           Sample.options "prod" ["aws"; "s3"; "ls"] "config" "account" None
           (foreign "keychain locked"));
    try reflexivity.
  right. cbn. discriminate.
Defined.

(** X23 on a sample: No cookie in the keychain; the user logs in with the right code. *)
Lemma main_without_cookie_witness :
  let tr := events (main (Sample.system EmptyString None)
                         (Sample.tape (Sample.mfa_required [Sample.totp])
                                      (Sample.typing "alice" "123456" "123456")
                                      "123456")) in
  exchanges tr = [(FreshLogin, (Some {| raw := "login-assertion" |}, None))]
  /\ fresh_logins tr = 1%nat
  /\ assertions_fed tr = [Some {| raw := "login-assertion" |}].
Proof.
  refine (main_without_cookie
            (Sample.system EmptyString None)
            (Sample.tape (Sample.mfa_required [Sample.totp])
                         (Sample.typing "alice" "123456" "123456") "123456")
            Sample.options "prod" ["aws"; "s3"; "ls"] "config" "account" None
            EmptyString None
            eq_refl eq_refl eq_refl eq_refl _ eq_refl eq_refl _).
  - right. cbn. discriminate.
  - right. reflexivity.
Defined.

(** X24 on a sample: A profile named "prod" exists, a live cookie is in the keychain. *)
Lemma main_assumes_destination_role_witness :
  let tr := events (main (Sample.system "live" None)
                         (Sample.tape (Sample.mfa_required [Sample.totp])
                                      (Sample.always "123456") "123456")) in
  destination_roles tr = ["base-credentials"]
  /\ stored_aws tr = [("prod", "destination-credentials")]
  /\ stored tr = [("prod", "destination-credentials", 200)]
  /\ launched tr = [(["prod"; "aws"; "s3"; "ls"], "destination-credentials")].
Proof.
  apply (main_assumes_destination_role
           (Sample.system "live" None)
           (Sample.tape (Sample.mfa_required [Sample.totp])
                        (Sample.always "123456") "123456")
           Sample.options "prod" ["aws"; "s3"; "ls"] "config" "account" None);
    reflexivity.
Defined.
